(** * get_tx_history.py: day-windowed scan of PFT transfers on the XRP Ledger

    A shallow embedding of [src/get_tx_history.py].  Python values decoded
    from JSON are the type [pyval]; Python [float]s are IEEE binary64 numbers
    ([PrimFloat.float]); functions that may raise return a [result]; the
    script's I/O (HTTP posts, log files, CSV rows, the checkpoint file, the
    database connection) is explicit state passing over a [world] that also
    records the sequence of effects performed.  What the script does not
    control (the node's answers, [float] on a string, the iteration order of
    a set, the database accepting a connection or a row) is an [env].

    The first half of the file is the model and the vocabulary of the
    properties; the second half proves, function by function, what each
    step does to the world, and from that the properties C1 to C10,
    followed by further properties of the same functions, X1 to X20. *)

From Stdlib Require Import ZArith List String Ascii Bool Lia.
From Stdlib Require Import Floats DecimalString DecimalPos DecimalZ.
From stdpp Require Import base option list gmap sets strings.

Set Warnings "-register-all".

Open Scope string_scope.
Open Scope Z_scope.

(* ===================================================================== *)
(** * Python values *)
(* ===================================================================== *)

(** What [json.loads] and [response.json()] produce.  A [PyDict] keeps its
    items in insertion order; looking a key up returns its first binding. *)
Inductive pyval : Type :=
  | PyNone
  | PyBool (b : bool)
  | PyInt (z : Z)
  | PyFloat (f : float)
  | PyStr (s : string)
  | PyList (l : list pyval)
  | PyDict (d : list (string * pyval)).

(** Exceptions the script can meet. *)
Inductive exn : Type :=
  | AttributeError | KeyError | TypeError | ValueError | OverflowError
  | JSONDecodeError | ConnectionError | OperationalError.

(** Why the model gives no answer: the loop bound of a [while True] was
    reached, or an address is a hashable value that is not a string (the
    model keys balances and the watchlist by strings only). *)
Inductive undef : Type := OutOfFuel | NonStringAddress.

Inductive result (A : Type) : Type :=
  | Ok (a : A)
  | Raise (e : exn)
  | Undef (u : undef).
Arguments Ok {A} a.
Arguments Raise {A} e.
Arguments Undef {A} u.

Definition rbind {A B} (r : result A) (k : A -> result B) : result B :=
  match r with
  | Ok a => k a
  | Raise e => Raise e
  | Undef u => Undef u
  end.

Declare Scope py_scope.
Delimit Scope py_scope with py.
Notation "'let?' x := r 'in' k" := (rbind r (fun x => k))
  (at level 10, x name, r at level 100, k at level 200) : py_scope.
Open Scope py_scope.

(** ** Insertion-ordered dictionaries with string keys *)

Module Dict.

Fixpoint get {V} (k : string) (d : list (string * V)) : option V :=
  match d with
  | [] => None
  | (k', v) :: d' => if String.eqb k k' then Some v else get k d'
  end.

(** [d[k] = v]: an existing key keeps its position, a new key goes last. *)
Fixpoint set {V} (k : string) (v : V) (d : list (string * V))
  : list (string * V) :=
  match d with
  | [] => [(k, v)]
  | (k', v') :: d' =>
      if String.eqb k k' then (k, v) :: d' else (k', v') :: set k v d'
  end.

Definition get_default {V} (k : string) (dflt : V) (d : list (string * V)) : V :=
  match get k d with Some v => v | None => dflt end.

Definition values {V} (d : list (string * V)) : list V := List.map snd d.

End Dict.

(** [v.get(k, dflt)]: only a dict has the method. *)
Definition py_get (v : pyval) (k : string) (dflt : pyval) : result pyval :=
  match v with
  | PyDict d => Ok (Dict.get_default k dflt d)
  | _ => Raise AttributeError
  end.

(** [v[k]] with a string key. *)
Definition py_getitem (v : pyval) (k : string) : result pyval :=
  match v with
  | PyDict d =>
      match Dict.get k d with
      | Some x => Ok x
      | None => Raise KeyError
      end
  | _ => Raise TypeError
  end.

(** Truth value of a decoded JSON value ([if v:], [if not v:]). *)
Definition truthy (v : pyval) : bool :=
  match v with
  | PyNone => false
  | PyBool b => b
  | PyInt z => negb (z =? 0)
  | PyFloat f => negb (PrimFloat.eqb f 0%float)
  | PyStr s => negb (String.eqb s EmptyString)
  | PyList l => match l with [] => false | _ => true end
  | PyDict d => match d with [] => false | _ => true end
  end.

(** [v == s] and [v != s] for a string literal [s]. *)
Definition py_eq_str (v : pyval) (s : string) : bool :=
  match v with
  | PyStr s' => String.eqb s' s
  | _ => false
  end.

(** What [list.extend(v)] iterates over. *)
Definition py_iter (v : pyval) : result (list pyval) :=
  match v with
  | PyList l => Ok l
  | PyDict d => Ok (List.map (fun kv => PyStr (fst kv)) d)
  | PyStr s => Ok (List.map (fun c => PyStr (String c EmptyString)) (list_ascii_of_string s))
  | _ => Raise TypeError
  end.

(** ** [int(...)], [str(...)] and [str.strip()] on the checkpoint file *)

Definition is_space (c : ascii) : bool :=
  let n := nat_of_ascii c in
  ((9 <=? n)%nat && (n <=? 13)%nat) || ((28 <=? n)%nat && (n <=? 32)%nat)
  || (n =? 133)%nat || (n =? 160)%nat.

Fixpoint lstrip (s : string) : string :=
  match s with
  | String c s' => if is_space c then lstrip s' else s
  | EmptyString => EmptyString
  end.

Fixpoint rstrip (s : string) : string :=
  match s with
  | EmptyString => EmptyString
  | String c s' =>
      match rstrip s' with
      | EmptyString => if is_space c then EmptyString else String c EmptyString
      | r => String c r
      end
  end.

Definition py_strip (s : string) : string := rstrip (lstrip s).

Definition is_digit (c : ascii) : bool :=
  let n := nat_of_ascii c in ((48 <=? n)%nat && (n <=? 57)%nat).

(** Digit groups of an integer literal: digits, with single underscores
    allowed between two digits. *)
Fixpoint digit_group (after_digit : bool) (s : string) : option string :=
  match s with
  | EmptyString => if after_digit then Some EmptyString else None
  | String c s' =>
      if is_digit c then option_map (String c) (digit_group true s')
      else if Ascii.eqb c "_"
           then (if after_digit then digit_group false s' else None)
           else None
  end.

Definition unsigned_of_string (s : string) : option Z :=
  match digit_group false s with
  | Some ds => option_map Z.of_uint (NilEmpty.uint_of_string ds)
  | None => None
  end.

Definition signed_of_string (s : string) : option Z :=
  match s with
  | String "-" u => option_map Z.opp (unsigned_of_string u)
  | String "+" u => unsigned_of_string u
  | _ => unsigned_of_string s
  end.

(** [int(s)] for a decimal literal: surrounding whitespace, an optional
    sign, then digits. *)
Definition py_int (s : string) : result Z :=
  match signed_of_string (py_strip s) with
  | Some z => Ok z
  | None => Raise ValueError
  end.

(** [str(n)] for an int. *)
Definition py_str (n : Z) : string := NilZero.string_of_int (Z.to_int n).

(** ** [float(...)] *)

(** [float(n)] for an int: the nearest double, [OverflowError] past the
    largest one. *)
Definition float_of_Z (z : Z) : result float :=
  let f := SF2Prim (binary_normalize prec emax z 0 false) in
  if is_infinity f then Raise OverflowError else Ok f.

(* ===================================================================== *)
(** * Constants *)
(* ===================================================================== *)

Definition ISSUER_ADDRESS : string := "rnQUEEg8yyjrwk9FhyXpKavHyCRJM9BDMW".
Definition PFT_CURRENCY_CODE : string := "PFT".
Definition LEDGERS_PER_DAY : Z := 22700.
Definition START_LEDGER : Z := 87570565.

(* ===================================================================== *)
(** * Ledger windows *)
(* ===================================================================== *)

Definition get_ledger_range_for_day (day_number : Z) : Z * Z :=
  let ledger_min := START_LEDGER + (day_number * LEDGERS_PER_DAY) in
  let ledger_max := ledger_min + LEDGERS_PER_DAY in
  (ledger_min, ledger_max).

(* ===================================================================== *)
(** * The world the script runs in *)
(* ===================================================================== *)

(** The [account_tx] payload posted to the node; [binary], [limit] and
    [forward] are constants of the script. *)
Record request : Type := mk_request {
  account : string;
  ledger_index_min : Z;
  ledger_index_max : Z;
  marker : option pyval
}.

(** Outcome of [requests.post]: a response with its status code and its body
    decoded as JSON ([None]: the body is not JSON), or an exception of the
    transport. *)
Inductive http_result : Type :=
  | HttpResponse (status_code : Z) (json : option pyval)
  | HttpFailure.

(** Parameters of [INSERT INTO pft_transfers ... VALUES (%s, ...)]. *)
Record db_row : Type := mk_row {
  col_tx_hash : pyval;
  col_day : Z;
  col_ledger_index : pyval;
  col_sender : pyval;
  col_receiver : pyval;
  col_amount : float;
  col_timestamp : pyval
}.

Inductive csv_file : Type :=
  | BALANCES_CSV | TRANSFERS_CSV | DAILY_ACTIVE_CSV | CIRCULATING_SUPPLY_CSV.

Inductive message : Type :=
  | MsgRequestFailed (status_code : Z)
  | MsgDbInsertFailed (h : pyval)
  | MsgProcessingDay (day_number ledger_min ledger_max : Z)
  | MsgCompletedDays (n : Z)
  | MsgShortBreak
  | MsgSavedBalances
  | MsgSavedTransferCounts.

(** Effects, in the order the script performs them. *)
Inductive event : Type :=
  | EvConnect
  | EvCreateTable
  | EvExecute (row : db_row)
  | EvCommit
  | EvClose
  | EvPost (r : request)
  | EvLog (index : Z) (data : pyval)
  | EvSleep (milliseconds : Z)
  | EvPrint (m : message)
  | EvCsvOpen (f : csv_file)
  | EvCsvRow (f : csv_file) (row : list pyval)
  | EvCheckpoint (day_number : Z).

(** What the script does not control. *)
Record env : Type := mk_env {
  (** [float(s)] on a string; [None] is [ValueError] *)
  float_of_str : string -> option float;
  (** the node's answer to the [n]-th post of the run *)
  net : nat -> request -> http_result;
  (** the order in which [for address in day_addresses] visits a set *)
  set_order : gset string -> list string;
  (** whether [psycopg2.connect] succeeds *)
  db_connects : bool;
  (** whether [cur.execute] raises on a row *)
  db_rejects : db_row -> bool
}.

(** An iteration order visits every member of the set, once. *)
Definition env_wf (E : env) : Prop :=
  forall s : gset string, set_order E s ≡ₚ elements s.

Record world : Type := mk_world {
  (** module globals *)
  watchlist : gset string;
  api_call_count : Z;
  log_file_index : Z;
  (** number of posts made so far *)
  posts : nat;
  (** contents of checkpoint.txt, when the file exists *)
  checkpoint_file : option string;
  (** table pft_transfers: committed rows, and rows of the open transaction *)
  db_committed : list db_row;
  db_pending : list db_row;
  (** effects performed so far, latest first *)
  effects : list event
}.

Definition set_watchlist (x : gset string) (w : world) : world :=
  mk_world x (api_call_count w) (log_file_index w) (posts w)
           (checkpoint_file w) (db_committed w) (db_pending w) (effects w).
Definition set_counters (c i : Z) (w : world) : world :=
  mk_world (watchlist w) c i (posts w)
           (checkpoint_file w) (db_committed w) (db_pending w) (effects w).
Definition set_posts (n : nat) (w : world) : world :=
  mk_world (watchlist w) (api_call_count w) (log_file_index w) n
           (checkpoint_file w) (db_committed w) (db_pending w) (effects w).
Definition set_checkpoint_file (c : option string) (w : world) : world :=
  mk_world (watchlist w) (api_call_count w) (log_file_index w) (posts w)
           c (db_committed w) (db_pending w) (effects w).
Definition set_db (c p : list db_row) (w : world) : world :=
  mk_world (watchlist w) (api_call_count w) (log_file_index w) (posts w)
           (checkpoint_file w) c p (effects w).
Definition set_effects (t : list event) (w : world) : world :=
  mk_world (watchlist w) (api_call_count w) (log_file_index w) (posts w)
           (checkpoint_file w) (db_committed w) (db_pending w) t.

(** State at import time: the watchlist holds the issuer, the counters are 0. *)
Definition initial_world (checkpoint : option string) (table : list db_row) : world :=
  mk_world {[ ISSUER_ADDRESS ]} 0 0 0%nat checkpoint table [] [].

(** ** Computations over the world *)

Definition M (A : Type) : Type := world -> result A * world.

Definition ret {A} (a : A) : M A := fun w => (Ok a, w).

Definition bind {A B} (m : M A) (k : A -> M B) : M B :=
  fun w =>
    match m w with
    | (Ok a, w') => k a w'
    | (Raise e, w') => (Raise e, w')
    | (Undef u, w') => (Undef u, w')
    end.

Definition lift {A} (r : result A) : M A := fun w => (r, w).
Definition emit (ev : event) : M unit :=
  fun w => (Ok tt, set_effects (ev :: effects w) w).
Definition read {A} (f : world -> A) : M A := fun w => (Ok (f w), w).
Definition modify (f : world -> world) : M unit := fun w => (Ok tt, f w).

Notation "'let*' x := m 'in' k" := (bind m (fun x => k))
  (at level 10, x name, m at level 100, k at level 200) : py_scope.
Notation "'let*' ' p := m 'in' k" := (bind m (fun x => match x with p => k end))
  (at level 10, p pattern, m at level 100, k at level 200) : py_scope.
Notation "m ;;; k" := (bind m (fun _ => k))
  (at level 100, k at level 200, right associativity) : py_scope.

(** [for x in l: s = body(x, s)] *)
Fixpoint for_each {A S} (body : A -> S -> M S) (l : list A) (s : S) : M S :=
  match l with
  | [] => ret s
  | x :: l' => let* s' := body x s in for_each body l' s'
  end.

(* ===================================================================== *)
(** * Checkpoint *)
(* ===================================================================== *)

Definition load_checkpoint : M Z :=
  let* f := read checkpoint_file in
  match f with
  | Some content => lift (py_int (py_strip content))
  | None => ret 0
  end.

Definition save_checkpoint (day_number : Z) : M unit :=
  modify (set_checkpoint_file (Some (py_str day_number))) ;;;
  emit (EvCheckpoint day_number).

(* ===================================================================== *)
(** * Paginated query client *)
(* ===================================================================== *)

Section Scanner.

Variable E : env.

Definition safe_post (payload : request) : M pyval :=
  let* n := read posts in
  emit (EvPost payload) ;;;
  modify (set_posts (S n)) ;;;
  match net E n payload with
  | HttpFailure => lift (Raise ConnectionError)
  | HttpResponse status_code body =>
      if status_code =? 200 then
        let* data := lift (match body with
                           | Some data => Ok data
                           | None => Raise JSONDecodeError
                           end) in
        let* index := read log_file_index in
        emit (EvLog index data) ;;;
        let* count := read api_call_count in
        let count := count + 1 in
        (if 1000 <=? count
         then modify (set_counters 0 (index + 1))
         else modify (set_counters count index)) ;;;
        ret data
      else
        emit (EvPrint (MsgRequestFailed status_code)) ;;;
        ret PyNone
  end.

(** The [while True] loop of [fetch_account_transactions], bounded by
    [fuel] iterations. *)
Fixpoint fetch_pages (fuel : nat) (address : string) (ledger_min ledger_max : Z)
    (all_transactions : list pyval) (marker : pyval) : M (list pyval) :=
  match fuel with
  | O => lift (Undef OutOfFuel)
  | S fuel' =>
      let payload :=
        mk_request address ledger_min ledger_max
                   (if truthy marker then Some marker else None) in
      let* data := safe_post payload in
      if negb (truthy data) then ret all_transactions
      else
        let* result := lift (py_get data "result" (PyDict [])) in
        let* transactions := lift (py_get result "transactions" (PyList [])) in
        let* items := lift (py_iter transactions) in
        let all_transactions := (all_transactions ++ items)%list in
        let* marker := lift (py_get result "marker" PyNone) in
        if negb (truthy marker) then ret all_transactions
        else
          emit (EvSleep 500) ;;;
          fetch_pages fuel' address ledger_min ledger_max all_transactions marker
  end.

Definition fetch_account_transactions (fuel : nat) (address : string)
    (ledger_min ledger_max : Z) : M (list pyval) :=
  fetch_pages fuel address ledger_min ledger_max [] PyNone.

(* ===================================================================== *)
(** * Payment filter *)
(* ===================================================================== *)

Definition is_pft_payment (tx : pyval) : result bool :=
  let? tx_data := py_get tx "tx" (PyDict []) in
  let? ty := py_get tx_data "TransactionType" PyNone in
  if negb (py_eq_str ty "Payment") then Ok false
  else
    let? amount := py_get tx_data "Amount" PyNone in
    match amount with
    | PyDict _ =>
        let? currency := py_get amount "currency" PyNone in
        if py_eq_str currency PFT_CURRENCY_CODE then
          let? issuer := py_get amount "issuer" PyNone in
          Ok (py_eq_str issuer ISSUER_ADDRESS)
        else Ok false
    | _ => Ok false
    end.

(* ===================================================================== *)
(** * Balance ledger *)
(* ===================================================================== *)

(** [float(v)] *)
Definition py_float (v : pyval) : result float :=
  match v with
  | PyFloat f => Ok f
  | PyInt z => float_of_Z z
  | PyBool b => Ok (if b then 1%float else 0%float)
  | PyStr s =>
      match float_of_str E s with
      | Some f => Ok f
      | None => Raise ValueError
      end
  | _ => Raise TypeError
  end.

(** A value used as a set member or a dict key: lists and dicts are
    unhashable; the model follows string addresses only. *)
Definition as_address (v : pyval) : result string :=
  match v with
  | PyStr s => Ok s
  | PyList _ | PyDict _ => Raise TypeError
  | _ => Undef NonStringAddress
  end.

(** [balances.get(k, 0)]: the int 0 enters the float arithmetic as 0.0. *)
Definition balance_of (balances : list (string * float)) (k : string) : float :=
  Dict.get_default k 0%float balances.

Definition update_balances (balances : list (string * float)) (tx : pyval)
    (active_addresses : gset string)
  : result (list (string * float) * gset string) :=
  let? tx_data := py_getitem tx "tx" in
  let? amount_data := py_getitem tx_data "Amount" in
  let? value := py_getitem amount_data "value" in
  let? amount := py_float value in
  let? sender := py_getitem tx_data "Account" in
  let? receiver := py_getitem tx_data "Destination" in
  let? sender := as_address sender in
  let? receiver := as_address receiver in
  let active_addresses := active_addresses ∪ {[ sender ]} ∪ {[ receiver ]} in
  let balances := Dict.set sender (balance_of balances sender - amount)%float balances in
  let balances := Dict.set receiver (balance_of balances receiver + amount)%float balances in
  Ok (balances, active_addresses).

(** [sum(balance for balance in balances.values() if balance > 0)]: the sum
    starts from the int 0 and stays an int when nothing is added. *)
Definition circulating_supply (balances : list (string * float)) : pyval :=
  match List.filter (fun b => (0 <? b)%float) (Dict.values balances) with
  | [] => PyInt 0
  | positive => PyFloat (fold_left PrimFloat.add positive 0%float)
  end.

Definition save_balances_to_csv (day_number : Z) (balances : list (string * float))
  : M unit :=
  for_each (fun '(address, balance) (_ : unit) =>
              if negb (balance =? 0)%float
              then emit (EvCsvRow BALANCES_CSV
                           [PyInt day_number; PyStr address; PyFloat balance])
              else ret tt)
           balances tt.

Definition save_transfer_count (day_number : Z) (transfer_count : Z) : M unit :=
  emit (EvCsvRow TRANSFERS_CSV [PyInt day_number; PyInt transfer_count]).

(* ===================================================================== *)
(** * Relational sink *)
(* ===================================================================== *)

Definition connect_db : M unit :=
  emit EvConnect ;;;
  if db_connects E then ret tt else lift (Raise OperationalError).

Definition commit : M unit :=
  modify (fun w => set_db (db_committed w ++ db_pending w)%list [] w) ;;;
  emit EvCommit.

Definition create_table_if_not_exists : M unit :=
  emit EvCreateTable ;;;
  commit.

Definition has_hash (h : string) (row : db_row) : bool :=
  py_eq_str (col_tx_hash row) h.

(** [cur.execute("INSERT ... ON CONFLICT (tx_hash) DO NOTHING", row)] inside
    [try/except Exception]: a failure is printed and swallowed.  The key
    column is TEXT: the sink takes string hashes only. *)
Definition execute_insert (row : db_row) : M unit :=
  emit (EvExecute row) ;;;
  if db_rejects E row then emit (EvPrint (MsgDbInsertFailed (col_tx_hash row)))
  else
    match col_tx_hash row with
    | PyStr h =>
        let* committed := read db_committed in
        let* pending := read db_pending in
        if existsb (has_hash h) (committed ++ pending)%list then ret tt
        else modify (set_db committed (pending ++ [row])%list)
    | _ => emit (EvPrint (MsgDbInsertFailed (col_tx_hash row)))
    end.

Definition insert_transfer (tx : pyval) (day_number : Z) : M unit :=
  let* tx_data := lift (py_getitem tx "tx") in
  let* amount_data := lift (py_getitem tx_data "Amount") in
  let* value := lift (py_getitem amount_data "value") in
  let* amount := lift (py_float value) in
  let* sender := lift (py_getitem tx_data "Account") in
  let* receiver := lift (py_getitem tx_data "Destination") in
  let* tx_hash := lift (py_getitem tx_data "hash") in
  let* ledger_index := lift (py_getitem tx_data "ledger_index") in
  let* timestamp := lift (py_get tx_data "date" (PyStr "")) in
  execute_insert
    (mk_row tx_hash day_number ledger_index sender receiver amount timestamp).

(* ===================================================================== *)
(** * Day scanner *)
(* ===================================================================== *)

(** Local variables of [main] that the loops update. *)
Record scan_state : Type := mk_scan {
  st_balances : list (string * float);
  st_active_addresses : gset string;
  st_pft_transfer_count : Z;
  st_new_addresses : gset string
}.

(** Body of [for tx in transactions]. *)
Definition process_tx (day_number : Z) (tx : pyval) (st : scan_state)
  : M scan_state :=
  let* qualifies := lift (is_pft_payment tx) in
  if qualifies : bool then
    let* tx_data := lift (py_getitem tx "tx") in
    let* tx_hash := lift (py_getitem tx_data "hash") in
    insert_transfer tx day_number ;;;
    let* '(balances, active_addresses) :=
      lift (update_balances (st_balances st) tx (st_active_addresses st)) in
    let pft_transfer_count := st_pft_transfer_count st + 1 in
    let* sender := lift (py_getitem tx_data "Account") in
    let* receiver := lift (py_getitem tx_data "Destination") in
    let* current := read watchlist in
    let* sender := lift (as_address sender) in
    let new_addresses :=
      if decide (sender ∈ current) then st_new_addresses st
      else st_new_addresses st ∪ {[ sender ]} in
    let* receiver := lift (as_address receiver) in
    let new_addresses :=
      if decide (receiver ∈ current) then new_addresses
      else new_addresses ∪ {[ receiver ]} in
    ret (mk_scan balances active_addresses pft_transfer_count new_addresses)
  else ret st.

(** Body of [for address in day_addresses]. *)
Definition process_address (fuel : nat) (day_number ledger_min ledger_max : Z)
    (address : string) (st : scan_state) : M scan_state :=
  let* transactions :=
    fetch_account_transactions fuel address ledger_min ledger_max in
  for_each (process_tx day_number) transactions st.

(** Body of [for day_offset in range(number_of_days)]; [balances] and
    [new_addresses] live across days. *)
Definition process_day (fuel : nat) (day_number : Z)
    (carried : list (string * float) * gset string)
  : M (list (string * float) * gset string) :=
  let '(balances, new_addresses) := carried in
  let '(ledger_min, ledger_max) := get_ledger_range_for_day day_number in
  emit (EvPrint (MsgProcessingDay day_number ledger_min ledger_max)) ;;;
  let* day_addresses := read watchlist in
  let* st :=
    for_each (process_address fuel day_number ledger_min ledger_max)
             (set_order E day_addresses)
             (mk_scan balances ∅ 0 new_addresses) in
  let* current := read watchlist in
  modify (set_watchlist (current ∪ st_new_addresses st)) ;;;
  save_balances_to_csv day_number (st_balances st) ;;;
  save_transfer_count day_number (st_pft_transfer_count st) ;;;
  emit (EvCsvRow DAILY_ACTIVE_CSV
          [PyInt day_number; PyInt (Z.of_nat (size (st_active_addresses st)))]) ;;;
  emit (EvCsvRow CIRCULATING_SUPPLY_CSV
          [PyInt day_number; circulating_supply (st_balances st)]) ;;;
  save_checkpoint (day_number + 1) ;;;
  (if (day_number + 1) mod 10 =? 0
   then emit (EvPrint (MsgCompletedDays (day_number + 1))) else ret tt) ;;;
  (if (day_number + 1) mod 25 =? 0
   then emit (EvPrint MsgShortBreak) ;;; emit (EvSleep 300000) else ret tt) ;;;
  ret (st_balances st, ∅).

Definition number_of_days : Z := 368.

(** The day loop, from [start_day], over [n] consecutive days. *)
Definition run_days (fuel : nat) (start_day : Z) (n : Z)
    (carried : list (string * float) * gset string)
  : M (list (string * float) * gset string) :=
  for_each (fun day_offset => process_day fuel (start_day + day_offset))
           (seqZ 0 n) carried.

Definition main (fuel : nat) : M unit :=
  connect_db ;;;
  create_table_if_not_exists ;;;
  let* start_day := load_checkpoint in
  emit (EvCsvOpen BALANCES_CSV) ;;;
  emit (EvCsvOpen TRANSFERS_CSV) ;;;
  emit (EvCsvOpen DAILY_ACTIVE_CSV) ;;;
  emit (EvCsvOpen CIRCULATING_SUPPLY_CSV) ;;;
  emit (EvCsvRow BALANCES_CSV [PyStr "day"; PyStr "address"; PyStr "balance"]) ;;;
  emit (EvCsvRow TRANSFERS_CSV [PyStr "day"; PyStr "pft_transfer_count"]) ;;;
  emit (EvCsvRow DAILY_ACTIVE_CSV [PyStr "day"; PyStr "active_address_count"]) ;;;
  emit (EvCsvRow CIRCULATING_SUPPLY_CSV [PyStr "day"; PyStr "circulating_supply"]) ;;;
  let* _ := run_days fuel start_day number_of_days ([], ∅) in
  emit (EvPrint MsgSavedBalances) ;;;
  emit (EvPrint MsgSavedTransferCounts) ;;;
  commit ;;;
  emit EvClose.

End Scanner.

(* ===================================================================== *)
(** * Concrete environments *)
(* ===================================================================== *)

(** ** A reader of plain decimal literals

    [float(s)] on the literals the node sends for whole and fractional
    amounts: an optional sign, digits, and an optional fraction.  The
    quotient is rounded once, to nearest even, by [binary_normalize]. *)

Fixpoint all_digits (s : string) : bool :=
  match s with
  | EmptyString => true
  | String c s' => is_digit c && all_digits s'
  end.

Definition digits_value (s : string) : option Z :=
  if all_digits s then option_map Z.of_uint (NilEmpty.uint_of_string s) else None.

(** The double nearest to [n / d], for [0 <= n] and [0 < d]. *)
Definition nearest_quotient (negative : bool) (n d : Z) : float :=
  let shift := Z.max 0 (Z.log2 d + 64 - Z.log2 n) in
  let q := Z.shiftl n shift / d in
  let sticky := if Z.shiftl n shift mod d =? 0 then 0 else 1 in
  let m := 2 * q + sticky in
  SF2Prim (binary_normalize prec emax (if negative then - m else m)
                            (- shift - 1) negative).

Fixpoint split_at_point (s : string) : string * option string :=
  match s with
  | EmptyString => (EmptyString, None)
  | String c s' =>
      if Ascii.eqb c "." then (EmptyString, Some s')
      else let '(i, f) := split_at_point s' in (String c i, f)
  end.

Definition decimal_float (s : string) : option float :=
  let '(negative, body) :=
    match s with
    | String "-" u => (true, u)
    | String "+" u => (false, u)
    | _ => (false, s)
    end in
  let '(int_part, frac_part) := split_at_point body in
  let frac := match frac_part with Some f => f | None => EmptyString end in
  if (String.length int_part + String.length frac =? 0)%nat then None
  else
    match digits_value (int_part ++ frac) with
    | Some n => Some (nearest_quotient negative n (10 ^ Z.of_nat (String.length frac)))
    | None => None
    end.

(** ** Sample records and responses *)

(** A [Payment] of the tracked asset, as [account_tx] returns it. *)
Definition payment (h src dst value : string) (ledger : Z) : pyval :=
  PyDict [("tx", PyDict [("TransactionType", PyStr "Payment");
                         ("Account", PyStr src);
                         ("Destination", PyStr dst);
                         ("Amount", PyDict [("currency", PyStr PFT_CURRENCY_CODE);
                                            ("issuer", PyStr ISSUER_ADDRESS);
                                            ("value", PyStr value)]);
                         ("hash", PyStr h);
                         ("ledger_index", PyInt ledger)]);
          ("validated", PyBool true)].

Definition page (txs : list pyval) (next : option pyval) : http_result :=
  HttpResponse 200
    (Some (PyDict [("result",
                    PyDict (("transactions", PyList txs) ::
                            match next with
                            | Some m => [("marker", m)]
                            | None => []
                            end))])).

(** A record whose body is a string. *)
Definition bodiless_record : pyval := PyDict [("tx", PyStr "Payment")].

(** A transfer of 100 from the issuer, recorded on day 0 by an earlier run. *)
Definition earlier_row : db_row :=
  mk_row (PyStr "T0") 0 (PyInt 87570570) (PyStr ISSUER_ADDRESS) (PyStr "rHolder")
         100%float (PyInt 767000000).

(** ** Sample nodes *)

(** An environment whose node refuses every request. *)
Definition quiet_env : env :=
  mk_env decimal_float (fun _ _ => HttpResponse 503 None) elements true (fun _ => false).

(** A node that knows one transfer, on day 0: 100 from the issuer to
    [rHolder]. *)
Definition seed_env : env :=
  mk_env decimal_float
         (fun _ r =>
            if String.eqb (account r) ISSUER_ADDRESS
               && (ledger_index_min r =? START_LEDGER)
            then page [payment "T1" ISSUER_ADDRESS "rHolder" "100" 87570570] None
            else page [] None)
         elements true (fun _ => false).

(** A node that serves one page with a continuation marker and then fails. *)
Definition one_page_env : env :=
  mk_env decimal_float
         (fun n _ =>
            match n with
            | O => page [payment "T1" ISSUER_ADDRESS "rHolder" "100" 87570570]
                        (Some (PyStr "next"))
            | S _ => HttpResponse 503 None
            end)
         elements true (fun _ => false).

(* ===================================================================== *)
(** * What a record says, read independently of the filter *)
(* ===================================================================== *)

(** The transaction body: the object under ["tx"]. *)
Definition tx_body (tx : pyval) : option (list (string * pyval)) :=
  match tx with
  | PyDict d =>
      match Dict.get "tx" d with
      | Some (PyDict body) => Some body
      | _ => None
      end
  | _ => None
  end.

Definition tx_field (tx : pyval) (k : string) : option pyval :=
  match tx_body tx with
  | Some body => Dict.get k body
  | None => None
  end.

Definition amount_field (tx : pyval) (k : string) : option pyval :=
  match tx_field tx "Amount" with
  | Some (PyDict a) => Dict.get k a
  | _ => None
  end.

(** The four conditions of a qualifying transfer. *)
Definition type_is_payment (tx : pyval) : Prop :=
  tx_field tx "TransactionType" = Some (PyStr "Payment").
Definition amount_is_issued (tx : pyval) : Prop :=
  exists a, tx_field tx "Amount" = Some (PyDict a).
Definition currency_matches (tx : pyval) : Prop :=
  amount_field tx "currency" = Some (PyStr PFT_CURRENCY_CODE).
Definition issuer_matches (tx : pyval) : Prop :=
  amount_field tx "issuer" = Some (PyStr ISSUER_ADDRESS).

(** A record shaped as the node sends it: an object whose ["tx"] member,
    when present, is an object. *)
Definition record_shaped (tx : pyval) : Prop :=
  exists d, tx = PyDict d /\
            (Dict.get "tx" d = None \/ exists body, Dict.get "tx" d = Some (PyDict body)).

(* ===================================================================== *)
(** * Vocabulary of the properties *)
(* ===================================================================== *)

Definition qualifying (tx : pyval) : Prop :=
  type_is_payment tx /\ amount_is_issued tx /\
  currency_matches tx /\ issuer_matches tx.

(** The filter on a record with an object body, as one boolean expression. *)
Definition body_qualifies (body : list (string * pyval)) : bool :=
  py_eq_str (Dict.get_default "TransactionType" PyNone body) "Payment" &&
  match Dict.get_default "Amount" PyNone body with
  | PyDict a =>
      py_eq_str (Dict.get_default "currency" PyNone a) PFT_CURRENCY_CODE &&
      py_eq_str (Dict.get_default "issuer" PyNone a) ISSUER_ADDRESS
  | _ => false
  end.

(** The map after debiting [sender] and crediting [receiver]. *)
Definition transfer (balances : list (string * float))
    (sender receiver : string) (amount : float) : list (string * float) :=
  let debited := Dict.set sender (balance_of balances sender - amount)%float balances in
  Dict.set receiver (balance_of debited receiver + amount)%float debited.

(** ** Effects and what they record *)

(** [w'] is [w] after the effects [new] (latest first). *)
Definition extends (new : list event) (w w' : world) : Prop :=
  effects w' = (new ++ effects w)%list.

(** The watchlist, the committed table and the checkpoint file are as
    before. *)
Definition same_store (w w' : world) : Prop :=
  watchlist w' = watchlist w /\
  db_committed w' = db_committed w /\
  checkpoint_file w' = checkpoint_file w.

(** Effects of one paginated fetch for [a] over [[lo, hi]]. *)
Definition query_event (a : string) (lo hi : Z) (ev : event) : Prop :=
  match ev with
  | EvPost r => account r = a /\ ledger_index_min r = lo /\ ledger_index_max r = hi
  | EvLog _ _ | EvSleep _ | EvPrint (MsgRequestFailed _) => True
  | _ => False
  end.

(** Effects of handling one record on day [d]. *)
Definition insert_event (d : Z) (ev : event) : Prop :=
  match ev with
  | EvExecute row => col_day row = d
  | EvPrint (MsgDbInsertFailed _) => True
  | _ => False
  end.

(** Effects of the address loop of day [d] whose snapshot is [wl]. *)
Definition body_event (d : Z) (wl : gset string) (ev : event) : Prop :=
  match ev with
  | EvPost r =>
      account r ∈ wl /\
      ledger_index_min r = fst (get_ledger_range_for_day d) /\
      ledger_index_max r = snd (get_ledger_range_for_day d)
  | EvExecute row => col_day row = d
  | EvLog _ _ | EvSleep _
  | EvPrint (MsgRequestFailed _) | EvPrint (MsgDbInsertFailed _) => True
  | _ => False
  end.

(** Effects of the whole of day [d]. *)
Definition day_event (d : Z) (wl : gset string) (ev : event) : Prop :=
  match ev with
  | EvPrint (MsgProcessingDay d' _ _) => d' = d
  | EvPrint (MsgCompletedDays _) | EvPrint MsgShortBreak => True
  | EvCsvRow _ _ => True
  | EvCheckpoint k => k = d + 1
  | _ => body_event d wl ev
  end.

Definition row_mentions (row : db_row) (a : string) : Prop :=
  col_sender row = PyStr a \/ col_receiver row = PyStr a.

(** [a] is a counterparty of a transfer recorded among the effects [t]. *)
Definition mentions (t : list event) (a : string) : Prop :=
  exists row, In (EvExecute row) t /\ row_mentions row a.

(** ... of a transfer recorded on day [d]. *)
Definition mentions_on (t : list event) (d : Z) (a : string) : Prop :=
  exists row, In (EvExecute row) t /\ col_day row = d /\ row_mentions row a.

(** [a] was queried over the window of day [d]. *)
Definition queried (t : list event) (a : string) (d : Z) : Prop :=
  exists m, In (EvPost (mk_request a (fst (get_ledger_range_for_day d))
                                     (snd (get_ledger_range_for_day d)) m)) t.

Definition is_ok {A} (r : result A) : Prop :=
  match r with Ok _ => True | _ => False end.

(** ** Relations between the worlds before and after a step *)

(** What a successful [insert_transfer] leaves among the effects: one
    [execute], of a row for day [d] carrying the record's addresses. *)
Definition inserted (tx : pyval) (d : Z) (new : list event) : Prop :=
  exists row tx_data,
    In (EvExecute row) new /\
    (forall row', In (EvExecute row') new -> row' = row) /\
    col_day row = d /\
    py_getitem tx "tx" = Ok tx_data /\
    py_getitem tx_data "Account" = Ok (col_sender row) /\
    py_getitem tx_data "Destination" = Ok (col_receiver row).

(** Every recorded transfer has string addresses. *)
Definition addressed (t : list event) : Prop :=
  forall row, In (EvExecute row) t ->
              exists s r, col_sender row = PyStr s /\ col_receiver row = PyStr r.

(** The staged set grows by the counterparties that are not watchlisted. *)
Definition staged (wl old new_set : gset string) (t : list event) : Prop :=
  forall a, (a ∈ new_set) <-> (a ∈ old \/ ((a ∉ wl) /\ mentions t a)).

Definition tx_rel (d : Z) (st : scan_state) (w : world)
    (r : result scan_state) (w' : world) : Prop :=
  exists new,
    extends new w w' /\
    Forall (insert_event d) new /\
    same_store w w' /\
    forall st', r = Ok st' ->
      addressed new /\
      staged (watchlist w) (st_new_addresses st) (st_new_addresses st') new.

(** The address loop over [done], on day [d]. *)
Definition addr_rel (d : Z) (done : list string) (st : scan_state) (w : world)
    (r : result scan_state) (w' : world) : Prop :=
  exists new,
    extends new w w' /\
    (Forall (fun a => a ∈ watchlist w) done ->
     Forall (body_event d (watchlist w)) new) /\
    same_store w w' /\
    forall st', r = Ok st' ->
      addressed new /\
      staged (watchlist w) (st_new_addresses st) (st_new_addresses st') new /\
      forall a, In a done -> queried new a d.

(** Rows written by [save_balances_to_csv], first row first. *)
Definition balance_rows (day_number : Z) (balances : list (string * float))
  : list event :=
  List.map (fun '(address, balance) =>
              EvCsvRow BALANCES_CSV [PyInt day_number; PyStr address; PyFloat balance])
           (List.filter (fun '(_, balance) => negb (balance =? 0)%float) balances).

(** Effects of a day after its address loop, latest first. *)
Definition day_tail_events (d : Z) (st : scan_state) : list event :=
  ((if (d + 1) mod 25 =? 0 then [EvSleep 300000; EvPrint MsgShortBreak] else []) ++
   (if (d + 1) mod 10 =? 0 then [EvPrint (MsgCompletedDays (d + 1))] else []) ++
   [EvCheckpoint (d + 1);
    EvCsvRow CIRCULATING_SUPPLY_CSV [PyInt d; circulating_supply (st_balances st)];
    EvCsvRow DAILY_ACTIVE_CSV [PyInt d; PyInt (Z.of_nat (size (st_active_addresses st)))];
    EvCsvRow TRANSFERS_CSV [PyInt d; PyInt (st_pft_transfer_count st)]] ++
   rev (balance_rows d (st_balances st)))%list.

Definition report_event (d : Z) (ev : event) : Prop :=
  match ev with
  | EvCsvRow _ _ | EvSleep _ => True
  | EvPrint (MsgCompletedDays _) | EvPrint MsgShortBreak => True
  | EvCheckpoint k => k = d + 1
  | _ => False
  end.

(** One day, started with the staged set [staged_in]. *)
Definition day_rel (d : Z) (staged_in : gset string) (w : world)
    (r : result (list (string * float) * gset string)) (w' : world) : Prop :=
  exists new,
    extends (new ++ [EvPrint (MsgProcessingDay d (fst (get_ledger_range_for_day d))
                                               (snd (get_ledger_range_for_day d)))])
            w w' /\
    Forall (day_event d (watchlist w)) new /\
    db_committed w' = db_committed w /\
    watchlist w ⊆ watchlist w' /\
    (forall k, In (EvCheckpoint k) new -> is_ok r) /\
    forall c', r = Ok c' ->
      snd c' = ∅ /\
      addressed new /\
      (forall a, a ∈ watchlist w' <-> (a ∈ watchlist w \/ a ∈ staged_in \/ mentions new a)) /\
      (forall a, a ∈ watchlist w -> queried new a d) /\
      checkpoint_file w' = Some (py_str (d + 1)) /\
      In (EvCheckpoint (d + 1)) new.

(** What holds of the effects [new] of the first [n] days from day [s],
    however the scan ends: a post goes to an address that was watchlisted at
    the start or was a counterparty on an earlier day; rows carry their day;
    nothing is committed; a checkpoint is written for a scanned day only,
    and a day that wrote its checkpoint has queried every address that was
    watchlisted at the start or was a counterparty on an earlier day. *)
Definition scan_safe (s n : Z) (wl : gset string) (new : list event) : Prop :=
  (forall rq, In (EvPost rq) new ->
     exists j, 0 <= j < n /\
       ledger_index_min rq = fst (get_ledger_range_for_day (s + j)) /\
       ledger_index_max rq = snd (get_ledger_range_for_day (s + j)) /\
       (account rq ∈ wl \/
        exists j', 0 <= j' < j /\ mentions_on new (s + j') (account rq))) /\
  (forall row, In (EvExecute row) new -> exists j, 0 <= j < n /\ col_day row = s + j) /\
  ~ In EvCommit new /\
  (forall k, In (EvCheckpoint k) new -> exists j, 0 <= j < n /\ k = s + j + 1) /\
  (forall j a,
     In (EvCheckpoint (s + j + 1)) new ->
     (a ∈ wl \/ exists j', 0 <= j' < j /\ mentions_on new (s + j') a) ->
     queried new a (s + j)).

(** What holds when the [n] days completed: the watchlist is the initial
    one plus every counterparty seen; every address watchlisted at the start
    of a day was queried on that day; every day advanced the checkpoint. *)
Definition scan_live (s n : Z) (wl wl' : gset string) (new : list event) : Prop :=
  (forall a, a ∈ wl' <-> (a ∈ wl \/ exists j, 0 <= j < n /\ mentions_on new (s + j) a)) /\
  (forall j a, 0 <= j < n ->
     (a ∈ wl \/ exists j', 0 <= j' < j /\ mentions_on new (s + j') a) ->
     queried new a (s + j)) /\
  (forall j, 0 <= j < n -> In (EvCheckpoint (s + j + 1)) new).

Definition run_rel (s n : Z) (w : world)
    (r : result (list (string * float) * gset string)) (w' : world) : Prop :=
  exists new,
    extends new w w' /\
    scan_safe s n (watchlist w) new /\
    db_committed w' = db_committed w /\
    watchlist w ⊆ watchlist w' /\
    (n = 0 -> new = []) /\
    (0 < n -> exists t,
        new = (t ++ [EvPrint (MsgProcessingDay s (fst (get_ledger_range_for_day s))
                                               (snd (get_ledger_range_for_day s)))])%list) /\
    forall c', r = Ok c' ->
      snd c' = ∅ /\
      scan_live s n (watchlist w) (watchlist w') new /\
      (0 < n -> checkpoint_file w' = Some (py_str (s + n))).

(** ** Start-up and shutdown *)

(** The day the scan starts from, read off the checkpoint file. *)
Definition checkpoint_day (w : world) : result Z :=
  match checkpoint_file w with
  | Some content => py_int (py_strip content)
  | None => Ok 0
  end.

(** Effects of [main] before the day loop, latest first. *)
Definition startup_events : list event :=
  [EvCsvRow CIRCULATING_SUPPLY_CSV [PyStr "day"; PyStr "circulating_supply"];
   EvCsvRow DAILY_ACTIVE_CSV [PyStr "day"; PyStr "active_address_count"];
   EvCsvRow TRANSFERS_CSV [PyStr "day"; PyStr "pft_transfer_count"];
   EvCsvRow BALANCES_CSV [PyStr "day"; PyStr "address"; PyStr "balance"];
   EvCsvOpen CIRCULATING_SUPPLY_CSV; EvCsvOpen DAILY_ACTIVE_CSV;
   EvCsvOpen TRANSFERS_CSV; EvCsvOpen BALANCES_CSV;
   EvCommit; EvCreateTable; EvConnect].

(** Effects of [main] after the day loop, latest first. *)
Definition shutdown_events : list event :=
  [EvClose; EvCommit; EvPrint MsgSavedTransferCounts; EvPrint MsgSavedBalances].

(** The world when the day loop starts. *)
Definition started (w : world) : world :=
  set_effects (startup_events ++ effects w)
              (set_db (db_committed w ++ db_pending w) [] w).

(** The world when [main] returns, from the world [w1] at the end of the
    day loop. *)
Definition finished (w1 : world) : world :=
  set_effects (shutdown_events ++ effects w1)
              (set_db (db_committed w1 ++ db_pending w1) [] w1).

(** ** Pages served to a query *)

(** From its [n]-th post on, the node serves [pages] to the query for [a]
    over [[lo, hi]], each with its list of records and a continuation marker,
    and then answers the next page request with a status other than 200. *)
Fixpoint serves (E : env) (n : nat) (a : string) (lo hi : Z) (mk : pyval)
    (pages : list (list pyval * pyval)) : Prop :=
  let payload := mk_request a lo hi (if truthy mk then Some mk else None) in
  match pages with
  | [] => exists status body,
      net E n payload = HttpResponse status body /\ status <> 200
  | (txs, next) :: rest => exists data result,
      net E n payload = HttpResponse 200 (Some (PyDict data)) /\
      Dict.get "result" data = Some (PyDict result) /\
      Dict.get "transactions" result = Some (PyList txs) /\
      Dict.get "marker" result = Some next /\
      truthy next = true /\
      serves E (S n) a lo hi next rest
  end.

Definition is_post (ev : event) : bool :=
  match ev with EvPost _ => true | _ => false end.

Definition count_posts (t : list event) : nat := length (List.filter is_post t).

(** ** Reading the effects *)

(** No character of [s] is stripped by [str.strip()]. *)
Fixpoint no_space (s : string) : bool :=
  match s with
  | EmptyString => true
  | String c s' => negb (is_space c) && no_space s'
  end.

Definition started_day (ev : event) : option Z :=
  match ev with
  | EvPrint (MsgProcessingDay d _ _) => Some d
  | _ => None
  end.

(** The days whose processing began, in the order they began. *)
Definition days_started (t : list event) : list Z := omap started_day (rev t).

Definition is_commit (ev : event) : bool :=
  match ev with EvCommit => true | _ => false end.

(** Number of [conn.commit()] calls among the effects. *)
Definition commits (t : list event) : nat := length (List.filter is_commit t).

(** ** Independence from the database *)

(** Two worlds that differ at most in the contents of the database. *)
Definition same_but_db (w1 w2 : world) : Prop :=
  watchlist w1 = watchlist w2 /\
  api_call_count w1 = api_call_count w2 /\
  log_file_index w1 = log_file_index w2 /\
  posts w1 = posts w2 /\
  checkpoint_file w1 = checkpoint_file w2 /\
  effects w1 = effects w2.

(** A computation whose result and whose effects outside the database do
    not depend on the contents of the database. *)
Definition db_blind {A} (m : M A) : Prop :=
  forall w1 w2, same_but_db w1 w2 ->
    fst (m w1) = fst (m w2) /\ same_but_db (snd (m w1)) (snd (m w2)).

Definition csv_row_of (f : csv_file) (ev : event) : option (list pyval) :=
  match ev, f with
  | EvCsvRow BALANCES_CSV row, BALANCES_CSV
  | EvCsvRow TRANSFERS_CSV row, TRANSFERS_CSV
  | EvCsvRow DAILY_ACTIVE_CSV row, DAILY_ACTIVE_CSV
  | EvCsvRow CIRCULATING_SUPPLY_CSV row, CIRCULATING_SUPPLY_CSV => Some row
  | _, _ => None
  end.

(** The rows written to a report file, first row first. *)
Definition csv_rows (f : csv_file) (t : list event) : list (list pyval) :=
  omap (csv_row_of f) (rev t).

Definition row_mentionsb (row : db_row) (a : string) : bool :=
  py_eq_str (col_sender row) a || py_eq_str (col_receiver row) a.

Definition mentions_onb (t : list event) (d : Z) (a : string) : bool :=
  existsb (fun ev => match ev with
                     | EvExecute row => (col_day row =? d) && row_mentionsb row a
                     | _ => false
                     end) t.

(* ===================================================================== *)
(** * Vocabulary of the further properties *)
(* ===================================================================== *)

(** ** Ledger indices and days *)

(** The day whose window holds a ledger index. *)
Definition window_of_ledger (ledger : Z) : Z :=
  (ledger - START_LEDGER) / LEDGERS_PER_DAY.

(** ** Invariants of the world *)

(** [m] keeps the invariant [I]. *)
Definition preserves {A} (I : world -> Prop) (m : M A) : Prop :=
  forall w, I w -> I (snd (m w)).

(** ** The response log *)

(** Responses logged so far, as the two counters record them. *)
Definition logged_total (w : world) : Z :=
  1000 * log_file_index w + api_call_count w.

Definition log_index (ev : event) : option Z :=
  match ev with EvLog index _ => Some index | _ => None end.

(** The log file each logged response went to, first response first. *)
Definition log_indices (t : list event) : list Z := omap log_index (rev t).

(** The counters are in range and the [k]-th response logged went to file
    [k / 1000]. *)
Definition log_wf (w : world) : Prop :=
  0 <= api_call_count w < 1000 /\
  0 <= log_file_index w /\
  log_indices (effects w) = List.map (fun k => k / 1000) (seqZ 0 (logged_total w)).

(** ** Requests of a paginated fetch *)

Definition post_request (ev : event) : option request :=
  match ev with EvPost r => Some r | _ => None end.

(** The requests posted, first request first. *)
Definition posted (t : list event) : list request := omap post_request (rev t).

Definition is_pause (ev : event) : bool :=
  match ev with EvSleep _ => true | _ => false end.

Definition pauses (t : list event) : nat := length (List.filter is_pause t).

(** From its [n]-th post on, the node serves [pages] to the query for [a]
    over [[lo, hi]]: every page but the last carries a continuation marker,
    the last one carries none (or a falsy one). *)
Fixpoint paginates (E : env) (n : nat) (a : string) (lo hi : Z) (mk : pyval)
    (pages : list (list pyval * pyval)) : Prop :=
  let payload := mk_request a lo hi (if truthy mk then Some mk else None) in
  match pages with
  | [] => False
  | (txs, next) :: rest => exists data result,
      net E n payload = HttpResponse 200 (Some (PyDict data)) /\
      Dict.get "result" data = Some (PyDict result) /\
      Dict.get "transactions" result = Some (PyList txs) /\
      Dict.get_default "marker" PyNone result = next /\
      match rest with
      | [] => truthy next = false
      | _ :: _ => truthy next = true /\ paginates E (S n) a lo hi next rest
      end
  end.

(** The markers sent with the requests that fetch [pages], starting with
    the marker [mk]. *)
Definition markers_sent (mk : pyval) (pages : list (list pyval * pyval))
  : list (option pyval) :=
  (if truthy mk then Some mk else None)
    :: List.map (fun p => Some (snd p)) (removelast pages).

(** The node answers every request for [a] over [[lo, hi]] with a page
    that carries a continuation marker. *)
Definition always_more (E : env) (a : string) (lo hi : Z) : Prop :=
  forall n mk, exists data result txs next,
    net E n (mk_request a lo hi mk) = HttpResponse 200 (Some (PyDict data)) /\
    Dict.get "result" data = Some (PyDict result) /\
    Dict.get "transactions" result = Some (PyList txs) /\
    Dict.get "marker" result = Some next /\
    truthy next = true.

Definition is_dict (v : pyval) : bool :=
  match v with PyDict _ => true | _ => false end.

(** ** Records and rows *)

(** The record carries what [insert_transfer] reads: a readable amount and
    the four members it indexes. *)
Definition insertable (E : env) (tx : pyval) : Prop :=
  (exists v a, amount_field tx "value" = Some v /\ py_float E v = Ok a) /\
  tx_field tx "Account" <> None /\
  tx_field tx "Destination" <> None /\
  tx_field tx "hash" <> None /\
  tx_field tx "ledger_index" <> None.

(** [row] is the row of parameters built from [tx] on day [d]. *)
Definition row_of (E : env) (tx : pyval) (d : Z) (row : db_row) : Prop :=
  tx_field tx "hash" = Some (col_tx_hash row) /\
  col_day row = d /\
  tx_field tx "ledger_index" = Some (col_ledger_index row) /\
  tx_field tx "Account" = Some (col_sender row) /\
  tx_field tx "Destination" = Some (col_receiver row) /\
  (exists v, amount_field tx "value" = Some v /\ py_float E v = Ok (col_amount row)) /\
  col_timestamp row = match tx_field tx "date" with
                      | Some t => t
                      | None => PyStr ""
                      end.

(** ** The transfer table *)

(** Rows of the table as the session sees it. *)
Definition table (w : world) : list db_row := (db_committed w ++ db_pending w)%list.

(** Every key is a string and no two rows share one. *)
Definition table_wf (w : world) : Prop :=
  NoDup (List.map col_tx_hash (table w)) /\
  forall row, In row (table w) -> exists h, col_tx_hash row = PyStr h.

(** ... and the rows [rows0] are still there, in place. *)
Definition table_keeps (rows0 : list db_row) (w : world) : Prop :=
  table_wf w /\ exists more, table w = (rows0 ++ more)%list.

(** ** Keys of the balance map *)

Definition balance_keys (balances : list (string * float)) : list string :=
  List.map fst balances.

(** ** Whitespace *)

Fixpoint all_space (s : string) : bool :=
  match s with
  | EmptyString => true
  | String c s' => is_space c && all_space s'
  end.

(** ** Progress of the day loop *)

(** Effects of the address loop of a day. *)
Definition is_body_event (ev : event) : bool :=
  match ev with
  | EvPost _ | EvLog _ _ | EvSleep _ | EvExecute _ => true
  | EvPrint (MsgRequestFailed _) | EvPrint (MsgDbInsertFailed _) => true
  | _ => false
  end.

(** Since the effects were [t0] and the checkpoint file [c0], only the
    address loop has run. *)
Definition body_keeps (t0 : list event) (c0 : option string) (w : world) : Prop :=
  checkpoint_file w = c0 /\
  exists new, effects w = (new ++ t0)%list /\
              Forall (fun ev => is_body_event ev = true) new.

Definition checkpoint_written (ev : event) : option Z :=
  match ev with EvCheckpoint k => Some k | _ => None end.

(** The checkpoints written, in the order they were written. *)
Definition checkpoints (t : list event) : list Z := omap checkpoint_written (rev t).

(** The line printed when a day starts. *)
Definition day_banner (d : Z) : event :=
  EvPrint (MsgProcessingDay d (fst (get_ledger_range_for_day d))
                            (snd (get_ledger_range_for_day d))).

(** First column of the rows written to a report file. *)
Definition csv_days (f : csv_file) (t : list event) : list pyval :=
  List.map (fun row => hd PyNone row) (csv_rows f t).

Definition is_daily (f : csv_file) : bool :=
  match f with BALANCES_CSV => false | _ => true end.

(** How far the day loop over [k] days from day [s] got. *)
Definition run_trace (s : Z) (k : nat) (w : world)
    (r : result (list (string * float) * gset string)) (w' : world) : Prop :=
  exists new,
    effects w' = (new ++ effects w)%list /\
    match r with
    | Ok _ =>
        days_started new = seqZ s (Z.of_nat k) /\
        checkpoints new = List.map Z.succ (seqZ s (Z.of_nat k)) /\
        (forall f, is_daily f = true ->
                   csv_days f new = List.map PyInt (seqZ s (Z.of_nat k))) /\
        checkpoint_file w' = match k with
                             | O => checkpoint_file w
                             | S _ => Some (py_str (s + Z.of_nat k))
                             end
    | _ =>
        exists m : nat,
          (m < k)%nat /\
          days_started new = seqZ s (Z.of_nat (S m)) /\
          checkpoints new = List.map Z.succ (seqZ s (Z.of_nat m)) /\
          checkpoint_file w' = match m with
                               | O => checkpoint_file w
                               | S _ => Some (py_str (s + Z.of_nat m))
                               end
    end.

(** The committed rows are [rows]. *)
Definition committed_is (rows : list db_row) (w : world) : Prop :=
  db_committed w = rows.

(** The watchlist holds at least [wl]. *)
Definition watches (wl : gset string) (w : world) : Prop := wl ⊆ watchlist w.

(** ** The rows a scan executes *)

Definition executed_row (ev : event) : option db_row :=
  match ev with EvExecute row => Some row | _ => None end.

(** The rows passed to INSERT, in the order they were executed. *)
Definition executed (t : list event) : list db_row := omap executed_row (rev t).

(** The transfer a row records, applied to a balance map. *)
Definition apply_row (balances : list (string * float)) (row : db_row)
  : list (string * float) :=
  match col_sender row, col_receiver row with
  | PyStr s, PyStr r => transfer balances s r (col_amount row)
  | _, _ => balances
  end.

Definition replay (rows : list db_row) (balances : list (string * float))
  : list (string * float) :=
  fold_left apply_row rows balances.

(** [a] is the sender or the receiver of one of the rows. *)
Definition party (rows : list db_row) (a : string) : Prop :=
  exists row, In row rows /\ row_mentions row a.

(** The loop state after the effects [new]: the balances are the replay of
    the rows executed, the counter counts them, the active set collects
    their parties. *)
Definition stats_rel (st : scan_state) (w : world)
    (r : result scan_state) (w' : world) : Prop :=
  exists new,
    extends new w w' /\
    forall st', r = Ok st' ->
      st_balances st' = replay (executed new) (st_balances st) /\
      st_pft_transfer_count st'
      = st_pft_transfer_count st + Z.of_nat (length (executed new)) /\
      (forall a, a ∈ st_active_addresses st' <->
                 (a ∈ st_active_addresses st \/ party (executed new) a)).

(** The balance rows of a day's report. *)
Definition balance_report (d : Z) (balances : list (string * float))
  : list (list pyval) :=
  List.map (fun '(address, balance) => [PyInt d; PyStr address; PyFloat balance])
           (List.filter (fun '(_, balance) => negb (balance =? 0)%float) balances).

(** ** Fetches *)

(** The first request of a fetch carries no marker. *)
Definition first_request (rq : request) : bool :=
  match marker rq with None => true | Some _ => false end.

(** The addresses whose transactions were fetched, one entry per fetch,
    in order. *)
Definition fetches (t : list event) : list string :=
  List.map account (List.filter first_request (posted t)).

(** The address loop over [l] fetched each address of [l] once, in order. *)
Definition fetch_rel (l : list string) (st : scan_state) (w : world)
    (r : result scan_state) (w' : world) : Prop :=
  exists new, extends new w w' /\ (is_ok r -> fetches new = l).

(** ** A new process *)

(** The world a later run of the script starts in: the module is imported
    afresh, so the watchlist holds the issuer alone and the counters are 0;
    the checkpoint file and the committed rows of the table are what the
    earlier run left. *)
Definition restart (w : world) : world :=
  initial_world (checkpoint_file w) (db_committed w).

Definition queriedb (t : list event) (a : string) (d : Z) : bool :=
  existsb (fun ev => match ev with
                     | EvPost r =>
                         String.eqb (account r) a
                         && (ledger_index_min r =? fst (get_ledger_range_for_day d))
                         && (ledger_index_max r =? snd (get_ledger_range_for_day d))
                     | _ => false
                     end) t.

(** ** Further sample nodes *)

(** A node whose every page announces another one. *)
Definition looping_env : env :=
  mk_env decimal_float (fun _ _ => page [] (Some (PyStr "more")))
         elements true (fun _ => false).

(** A node that answers with the given status and body, whatever is asked. *)
Definition constant_env (status : Z) (body : option pyval) : env :=
  mk_env decimal_float (fun _ _ => HttpResponse status body)
         elements true (fun _ => false).

(** A node that serves a query in two pages. *)
Definition two_page_env : env :=
  mk_env decimal_float
         (fun n _ =>
            match n with
            | O => page [payment "T1" ISSUER_ADDRESS "rHolder" "100" 87570570]
                        (Some (PyStr "next"))
            | S _ => page [payment "T2" "rHolder" ISSUER_ADDRESS "40" 87570580] None
            end)
         elements true (fun _ => false).

(** A node that refuses three requests and then drops the connection. *)
Definition dropping_env : env :=
  mk_env decimal_float
         (fun n _ => if (n <? 3)%nat then HttpResponse 503 None else HttpFailure)
         elements true (fun _ => false).

(** A node that knows one transfer, on day 367: 100 from the issuer to
    [rHolder]. *)
Definition late_env : env :=
  mk_env decimal_float
         (fun _ r =>
            if String.eqb (account r) ISSUER_ADDRESS
               && (ledger_index_min r =? fst (get_ledger_range_for_day 367))
            then page [payment "T1" ISSUER_ADDRESS "rHolder" "100" 95901470] None
            else page [] None)
         elements true (fun _ => false).

(** A node that knows two transfers: on day 0, 100 from the issuer to
    [rHolder]; on day 1, 40 from [rHolder] back to the issuer.  It returns a
    transfer to each of its two parties. *)
Definition pair_env : env :=
  mk_env decimal_float
         (fun _ r =>
            if String.eqb (account r) ISSUER_ADDRESS
               && (ledger_index_min r =? fst (get_ledger_range_for_day 0))
            then page [payment "T1" ISSUER_ADDRESS "rHolder" "100" 87570570] None
            else if (String.eqb (account r) ISSUER_ADDRESS
                     || String.eqb (account r) "rHolder")
                    && (ledger_index_min r =? fst (get_ledger_range_for_day 1))
            then page [payment "T2" "rHolder" ISSUER_ADDRESS "40" 87593300] None
            else page [] None)
         elements true (fun _ => false).

(** A node that knows two transfers of day 0, from the issuer to [rA] and
    to [rB]: from day 1 on three addresses are watched. *)
Definition fanout_env : env :=
  mk_env decimal_float
         (fun _ r =>
            if String.eqb (account r) ISSUER_ADDRESS
               && (ledger_index_min r =? fst (get_ledger_range_for_day 0))
            then page [payment "T1" ISSUER_ADDRESS "rA" "100" 87570570;
                       payment "T2" ISSUER_ADDRESS "rB" "50" 87570571] None
            else page [] None)
         elements true (fun _ => false).

(* ===================================================================== *)
(** * Dictionaries *)
(* ===================================================================== *)

Module DictFacts.

Lemma get_set_eq {V} (k : string) (v : V) d :
  Dict.get k (Dict.set k v d) = Some v.
Proof.
  induction d as [|[k' v'] d IH]; simpl.
  - now rewrite String.eqb_refl.
  - destruct (String.eqb k k') eqn:Hk; simpl; rewrite ?String.eqb_refl, ?Hk; auto.
Qed.

Lemma get_set_ne {V} (k k' : string) (v : V) d :
  k <> k' -> Dict.get k' (Dict.set k v d) = Dict.get k' d.
Proof.
  intros Hne. induction d as [|[k0 v0] d IH]; simpl.
  - destruct (String.eqb_spec k' k); congruence.
  - destruct (String.eqb_spec k k0) as [->|Hk0]; simpl.
    + destruct (String.eqb_spec k' k0); congruence.
    + destruct (String.eqb_spec k' k0); auto.
Qed.

Lemma get_default_set_eq {V} (k : string) (v dflt : V) d :
  Dict.get_default k dflt (Dict.set k v d) = v.
Proof. unfold Dict.get_default. now rewrite get_set_eq. Qed.

Lemma get_default_set_ne {V} (k k' : string) (v dflt : V) d :
  k <> k' -> Dict.get_default k' dflt (Dict.set k v d) = Dict.get_default k' dflt d.
Proof. intros. unfold Dict.get_default. now rewrite get_set_ne. Qed.

(** A comparison with a string literal succeeds on that string only. *)
Lemma eq_str_get (k s : string) (d : list (string * pyval)) :
  py_eq_str (Dict.get_default k PyNone d) s = true <-> Dict.get k d = Some (PyStr s).
Proof.
  unfold Dict.get_default.
  destruct (Dict.get k d) as [[]|]; simpl; split; try discriminate.
  - intros H. apply String.eqb_eq in H. now subst.
  - intros [= ->]. apply String.eqb_refl.
Qed.

End DictFacts.

(* ===================================================================== *)
(** * Ledger windows: properties *)
(* ===================================================================== *)

(** C2.  For every day number [d] the window of [d] starts at
    [START_LEDGER + d * LEDGERS_PER_DAY] and ends [LEDGERS_PER_DAY] later,
    so the end of day [d] is the start of day [d + 1]: consecutive windows
    tile, with no gap and no overlap. *)
Theorem ledger_windows_tile (d : Z) :
  fst (get_ledger_range_for_day d) = START_LEDGER + d * LEDGERS_PER_DAY /\
  snd (get_ledger_range_for_day d) = fst (get_ledger_range_for_day d) + LEDGERS_PER_DAY /\
  snd (get_ledger_range_for_day d) = fst (get_ledger_range_for_day (d + 1)).
Proof.
  unfold get_ledger_range_for_day; cbn [fst snd].
  repeat split; lia.
Qed.

Lemma ledger_range_inj (d d' : Z) :
  fst (get_ledger_range_for_day d) = fst (get_ledger_range_for_day d') -> d = d'.
Proof.
  unfold get_ledger_range_for_day, LEDGERS_PER_DAY; cbn [fst]. lia.
Qed.

(* ===================================================================== *)
(** * Payment filter: properties *)
(* ===================================================================== *)

Lemma filter_on_body d body :
  Dict.get "tx" d = Some (PyDict body) ->
  is_pft_payment (PyDict d) = Ok (body_qualifies body).
Proof.
  intros Hb. unfold is_pft_payment, body_qualifies, py_get at 1.
  unfold Dict.get_default at 1. rewrite Hb. cbn [rbind py_get].
  destruct (py_eq_str (Dict.get_default "TransactionType" PyNone body) "Payment");
    cbn [negb andb]; [|reflexivity].
  destruct (Dict.get_default "Amount" PyNone body); try reflexivity.
  cbn [rbind py_get].
  destruct (py_eq_str (Dict.get_default "currency" PyNone d0) PFT_CURRENCY_CODE);
    reflexivity.
Qed.

Lemma filter_without_body d :
  Dict.get "tx" d = None -> is_pft_payment (PyDict d) = Ok false.
Proof.
  intros Hb. unfold is_pft_payment, py_get at 1.
  unfold Dict.get_default at 1. rewrite Hb. reflexivity.
Qed.

Lemma body_qualifies_iff d body :
  Dict.get "tx" d = Some (PyDict body) ->
  body_qualifies body = true <-> qualifying (PyDict d).
Proof.
  intros Hb.
  unfold qualifying, type_is_payment, amount_is_issued, currency_matches,
    issuer_matches, amount_field, tx_field, tx_body. rewrite Hb.
  unfold body_qualifies. rewrite andb_true_iff, DictFacts.eq_str_get.
  split.
  - intros [Hty Ham]. split; [exact Hty|].
    unfold Dict.get_default in Ham at 1.
    destruct (Dict.get "Amount" body) as [[]|]; try discriminate.
    rewrite andb_true_iff, !DictFacts.eq_str_get in Ham.
    destruct Ham. eauto.
  - intros (Hty & [a Ha] & Hc & Hi). split; [exact Hty|].
    unfold Dict.get_default at 1. rewrite Ha in *.
    rewrite andb_true_iff, !DictFacts.eq_str_get. auto.
Qed.

Lemma unshaped_not_qualifying tx : tx_body tx = None -> ~ qualifying tx.
Proof.
  intros Hb (Hty & _). unfold type_is_payment, tx_field in Hty.
  rewrite Hb in Hty. discriminate.
Qed.

(** C3.  The filter returns true exactly when the record is a Payment whose
    Amount is an issued-currency object with the tracked currency code and
    the tracked issuer; when one of the four conditions fails the filter does
    not return true, and on a record shaped as the node sends it the answer
    is then false. *)
Theorem payment_filter_iff (tx : pyval) :
  (is_pft_payment tx = Ok true <->
     type_is_payment tx /\ amount_is_issued tx /\
     currency_matches tx /\ issuer_matches tx) /\
  (record_shaped tx ->
   ~ (type_is_payment tx /\ amount_is_issued tx /\
      currency_matches tx /\ issuer_matches tx) ->
   is_pft_payment tx = Ok false).
Proof.
  fold (qualifying tx). split.
  - destruct tx as [| | | | |l|d];
      try (split; [discriminate | intros H; now apply unshaped_not_qualifying in H]).
    destruct (Dict.get "tx" d) as [[| | | | | |body]|] eqn:Hb;
      try (split;
           [ unfold is_pft_payment, py_get at 1, Dict.get_default at 1;
             rewrite Hb; discriminate
           | intros H; apply unshaped_not_qualifying in H; [easy|];
             unfold tx_body; now rewrite Hb ]).
    rewrite (filter_on_body _ _ Hb), <- (body_qualifies_iff _ _ Hb).
    split; [now intros [= ->] | now intros ->].
  - intros (d & -> & [Hb | [body Hb]]) Hn.
    + now apply filter_without_body.
    + rewrite (filter_on_body _ _ Hb).
      destruct (body_qualifies body) eqn:Hq; [|reflexivity].
      exfalso. apply Hn. now apply (body_qualifies_iff _ _ Hb).
Qed.

(** C8, as stated, fails: on a record whose ["tx"] member is a string the
    filter raises [AttributeError] instead of returning a boolean. *)
Lemma payment_filter_not_total :
  is_pft_payment bodiless_record = Raise AttributeError /\
  ~ (forall tx, exists b, is_pft_payment tx = Ok b).
Proof.
  split; [reflexivity|].
  intros H. destruct (H bodiless_record) as [b Hb]. discriminate.
Qed.

Lemma unshaped_raises tx :
  ~ record_shaped tx -> is_pft_payment tx = Raise AttributeError.
Proof.
  intros Hn. destruct tx as [| | | | | |d]; try reflexivity.
  destruct (Dict.get "tx" d) as [v|] eqn:Hb.
  - destruct v as [| | | | | |body];
      try (unfold is_pft_payment; cbn [py_get rbind]; unfold Dict.get_default;
           rewrite Hb; reflexivity).
    exfalso. apply Hn. exists d. split; [reflexivity|]. right. eauto.
  - exfalso. apply Hn. exists d. split; [reflexivity|]. now left.
Qed.

(** C8, amended.  On every record that is an object whose ["tx"] member is
    absent or an object, whatever its other fields, the filter returns a
    boolean and raises nothing; the boolean is true only for a qualifying
    record, so a missing transaction type, a missing Amount and an Amount
    that is a string or another non-object all give false.  On every other
    record, one that is not an object or whose ["tx"] member is present and
    not an object, the filter raises [AttributeError]. *)
Theorem payment_filter_total_on_records (tx : pyval) :
  (record_shaped tx ->
   exists b : bool,
     is_pft_payment tx = Ok b /\
     (b = true <-> qualifying tx) /\
     (tx_field tx "TransactionType" = None -> b = false) /\
     (tx_field tx "Amount" = None -> b = false) /\
     (forall s, tx_field tx "Amount" = Some (PyStr s) -> b = false)) /\
  (~ record_shaped tx -> is_pft_payment tx = Raise AttributeError).
Proof.
  split; [|apply unshaped_raises].
  intros (d & -> & [Hb | [body Hb]]).
  - exists false. split; [now apply filter_without_body|].
    repeat split; auto; try discriminate.
    intros H. apply unshaped_not_qualifying in H; [easy|].
    unfold tx_body. now rewrite Hb.
  - exists (body_qualifies body). split; [now apply filter_on_body|].
    split; [now apply body_qualifies_iff|].
    unfold tx_field, tx_body. rewrite Hb.
    unfold body_qualifies, Dict.get_default.
    repeat split.
    + intros ->. reflexivity.
    + intros ->. apply andb_false_r.
    + intros s ->. apply andb_false_r.
Qed.

Lemma payment_filter_total_on_records_witness :
  record_shaped (PyDict [("tx", PyDict [("TransactionType", PyStr "Payment");
                                        ("Amount", PyStr "1000000")])]) /\
  exists b : bool,
    is_pft_payment (PyDict [("tx", PyDict [("TransactionType", PyStr "Payment");
                                           ("Amount", PyStr "1000000")])]) = Ok b.
Proof.
  assert (Hs : record_shaped
                 (PyDict [("tx", PyDict [("TransactionType", PyStr "Payment");
                                         ("Amount", PyStr "1000000")])])).
  { eexists. split; [reflexivity|]. right. eexists. reflexivity. }
  split; [exact Hs|].
  destruct (proj1 (payment_filter_total_on_records _) Hs) as (b & Hb & _).
  exists b. exact Hb.
Defined.

(* ===================================================================== *)
(** * Balance ledger: properties *)
(* ===================================================================== *)

Lemma tx_field_inv tx k v :
  tx_field tx k = Some v ->
  exists d body, tx = PyDict d /\ Dict.get "tx" d = Some (PyDict body) /\
                 Dict.get k body = Some v.
Proof.
  unfold tx_field, tx_body. destruct tx as [| | | | | |d]; try discriminate.
  destruct (Dict.get "tx" d) as [[| | | | | |body]|] eqn:Hb; try discriminate.
  intros H. eauto.
Qed.

(** On a record that carries string addresses and a readable amount, the
    update succeeds and is the transfer of that amount. *)
Lemma update_balances_ok E balances tx active s r v a :
  tx_field tx "Account" = Some (PyStr s) ->
  tx_field tx "Destination" = Some (PyStr r) ->
  amount_field tx "value" = Some v ->
  py_float E v = Ok a ->
  update_balances E balances tx active
  = Ok (transfer balances s r a, active ∪ {[ s ]} ∪ {[ r ]}).
Proof.
  intros Hs Hr Hv Ha.
  destruct (tx_field_inv _ _ _ Hs) as (d & body & -> & Hb & Hs').
  unfold tx_field, tx_body in Hr. rewrite Hb in Hr.
  unfold amount_field, tx_field, tx_body in Hv. rewrite Hb in Hv.
  destruct (Dict.get "Amount" body) as [[| | | | | |am]|] eqn:Ham; try discriminate.
  unfold update_balances, py_getitem.
  rewrite Hb; cbn [rbind]. rewrite Ham; cbn [rbind]. rewrite Hv; cbn [rbind].
  rewrite Ha; cbn [rbind]. rewrite Hs', Hr; cbn [rbind as_address].
  reflexivity.
Qed.

Lemma transfer_lookup balances s r a :
  (s <> r ->
   balance_of (transfer balances s r a) s = (balance_of balances s - a)%float /\
   balance_of (transfer balances s r a) r = (balance_of balances r + a)%float) /\
  (s = r ->
   balance_of (transfer balances s r a) s = (balance_of balances s - a + a)%float) /\
  (forall k, k <> s -> k <> r ->
   Dict.get k (transfer balances s r a) = Dict.get k balances).
Proof.
  unfold transfer, balance_of. repeat split.
  - rewrite DictFacts.get_default_set_ne by congruence.
    apply DictFacts.get_default_set_eq.
  - rewrite DictFacts.get_default_set_eq.
    now rewrite DictFacts.get_default_set_ne by congruence.
  - intros <-. now rewrite !DictFacts.get_default_set_eq.
  - intros k Hs Hr. now rewrite !DictFacts.get_set_ne by congruence.
Qed.

(** C4.  Applying a transfer record debits the sender's entry by the amount
    and credits the receiver's entry by the same amount, an absent entry
    counting as zero, and touches no other entry (when sender and receiver
    are one address, the entry is debited and then credited).  From the
    empty map, A -> B of 10 and then B -> A of 4 leave A at -6 and B at 6,
    and the circulating supply, the sum of the positive balances, is 6. *)
Theorem update_balances_transfers (E : env) :
  (forall balances tx active s r v a,
     tx_field tx "Account" = Some (PyStr s) ->
     tx_field tx "Destination" = Some (PyStr r) ->
     amount_field tx "value" = Some v ->
     py_float E v = Ok a ->
     exists balances',
       update_balances E balances tx active
       = Ok (balances', active ∪ {[ s ]} ∪ {[ r ]}) /\
       (s <> r ->
        balance_of balances' s = (balance_of balances s - a)%float /\
        balance_of balances' r = (balance_of balances r + a)%float) /\
       (s = r ->
        balance_of balances' s = (balance_of balances s - a + a)%float) /\
       (forall k, k <> s -> k <> r -> Dict.get k balances' = Dict.get k balances) /\
       (forall k, Dict.get k balances = None -> balance_of balances k = 0%float)) /\
  (float_of_str E "10" = Some 10%float ->
   float_of_str E "4" = Some 4%float ->
   exists b1 a1 b2 a2,
     is_pft_payment (payment "T1" "A" "B" "10" 87570566) = Ok true /\
     is_pft_payment (payment "T2" "B" "A" "4" 87570567) = Ok true /\
     update_balances E [] (payment "T1" "A" "B" "10" 87570566) ∅ = Ok (b1, a1) /\
     update_balances E b1 (payment "T2" "B" "A" "4" 87570567) a1 = Ok (b2, a2) /\
     balance_of b2 "A" = (-6)%float /\
     balance_of b2 "B" = 6%float /\
     circulating_supply b2 = PyFloat 6%float).
Proof.
  split.
  - intros balances tx active s r v a Hs Hr Hv Ha.
    exists (transfer balances s r a).
    split; [now apply (update_balances_ok E _ _ _ s r v a)|].
    destruct (transfer_lookup balances s r a) as (H1 & H2 & H3).
    repeat split; auto; try (now apply H1).
    intros k Hk. unfold balance_of, Dict.get_default. now rewrite Hk.
  - intros H10 H4.
    exists (transfer [] "A" "B" 10%float), (∅ ∪ {[ "A" ]} ∪ {[ "B" ]}).
    exists (transfer (transfer [] "A" "B" 10%float) "B" "A" 4%float).
    eexists.
    split; [reflexivity|]. split; [reflexivity|].
    split.
    { apply (update_balances_ok E _ _ _ "A" "B" (PyStr "10")); try reflexivity.
      cbn [py_float]. now rewrite H10. }
    split.
    { apply (update_balances_ok E _ _ _ "B" "A" (PyStr "4")); try reflexivity.
      cbn [py_float]. now rewrite H4. }
    repeat split; vm_compute; reflexivity.
Qed.

Lemma update_balances_transfers_witness :
  float_of_str quiet_env "10" = Some 10%float /\
  float_of_str quiet_env "4" = Some 4%float /\
  exists b1 a1 b2 a2,
    is_pft_payment (payment "T1" "A" "B" "10" 87570566) = Ok true /\
    is_pft_payment (payment "T2" "B" "A" "4" 87570567) = Ok true /\
    update_balances quiet_env [] (payment "T1" "A" "B" "10" 87570566) ∅ = Ok (b1, a1) /\
    update_balances quiet_env b1 (payment "T2" "B" "A" "4" 87570567) a1 = Ok (b2, a2) /\
    balance_of b2 "A" = (-6)%float /\
    balance_of b2 "B" = 6%float /\
    circulating_supply b2 = PyFloat 6%float.
Proof.
  split; [vm_compute; reflexivity|]. split; [vm_compute; reflexivity|].
  apply (update_balances_transfers quiet_env); vm_compute; reflexivity.
Defined.

(* ===================================================================== *)
(** * Effects of the scan *)
(* ===================================================================== *)

Lemma extends_refl w : extends [] w w.
Proof. reflexivity. Qed.

Lemma extends_trans n1 n2 w w1 w2 :
  extends n1 w w1 -> extends n2 w1 w2 -> extends (n2 ++ n1) w w2.
Proof. unfold extends. intros H1 H2. now rewrite H2, H1, app_assoc. Qed.

Lemma same_store_refl w : same_store w w.
Proof. now repeat split. Qed.

Lemma same_store_trans w w1 w2 :
  same_store w w1 -> same_store w1 w2 -> same_store w w2.
Proof. unfold same_store. intuition congruence. Qed.

Ltac splits := repeat match goal with |- _ /\ _ => split end.

(** ** The query client *)

Lemma safe_post_spec E payload w :
  exists new,
    extends (new ++ [EvPost payload]) w (snd (safe_post E payload w)) /\
    Forall (fun ev => match ev with
                      | EvLog _ _ | EvPrint (MsgRequestFailed _) => True
                      | _ => False
                      end) new /\
    same_store w (snd (safe_post E payload w)) /\
    posts (snd (safe_post E payload w)) = S (posts w).
Proof.
  unfold safe_post, bind, read, emit, modify, lift, ret; cbn.
  destruct (net E (posts w) payload) as [status body|]; cbn.
  - destruct (status =? 200); cbn.
    + destruct body as [data|]; cbn.
      * destruct (1000 <=? api_call_count w + 1); cbn;
          (exists [EvLog (log_file_index w) data]; repeat split; auto).
      * exists []. repeat split; auto.
    + exists [EvPrint (MsgRequestFailed status)]. repeat split; auto.
  - exists []. repeat split; auto.
Qed.

Lemma query_event_post_log a lo hi m new :
  Forall (fun ev => match ev with
                    | EvLog _ _ | EvPrint (MsgRequestFailed _) => True
                    | _ => False
                    end) new ->
  Forall (query_event a lo hi) (new ++ [EvPost (mk_request a lo hi m)]).
Proof.
  intros H. apply Forall_app. split.
  - eapply List.Forall_impl; [|exact H]. intros [] Hev; try easy.
  - constructor; [|constructor]. now cbn.
Qed.

Lemma fetch_pages_spec E fuel a lo hi :
  forall acc mk w,
  let '(r, w') := fetch_pages E fuel a lo hi acc mk w in
  exists new,
    extends new w w' /\
    Forall (query_event a lo hi) new /\
    same_store w w' /\
    (is_ok r -> exists m, In (EvPost (mk_request a lo hi m)) new).
Proof.
  induction fuel as [|fuel IH]; intros acc mk w.
  - exists []. cbn. splits; [reflexivity | constructor | apply same_store_refl | intros []].
  - cbn [fetch_pages].
    set (payload := mk_request a lo hi (if truthy mk then Some mk else None)).
    destruct (safe_post_spec E payload w) as (n0 & Hext & Hev & Hss & _).
    pose proof (query_event_post_log a lo hi (marker payload) _ Hev) as Hq.
    change (mk_request a lo hi (marker payload)) with payload in Hq.
    assert (Hin : In (EvPost payload) (n0 ++ [EvPost payload])).
    { apply in_or_app. right. now left. }
    assert (Hstop : forall r : result (list pyval),
               exists new,
                 extends new w (snd (safe_post E payload w)) /\
                 Forall (query_event a lo hi) new /\
                 same_store w (snd (safe_post E payload w)) /\
                 (is_ok r -> exists m, In (EvPost (mk_request a lo hi m)) new)).
    { intros r. exists (n0 ++ [EvPost payload])%list.
      splits; [exact Hext | exact Hq | exact Hss |].
      intros _. exists (marker payload). exact Hin. }
    unfold bind at 1.
    destruct (safe_post E payload w) as [[data|e|u] w1]; cbn [fst snd] in *;
      try apply Hstop.
    destruct (truthy data); cbn [negb]; [|apply Hstop].
    unfold bind at 1, lift at 1.
    destruct (py_get data "result" (PyDict [])) as [res|e|u]; try apply Hstop.
    unfold bind at 1, lift at 1.
    destruct (py_get res "transactions" (PyList [])) as [txs|e|u]; try apply Hstop.
    unfold bind at 1, lift at 1.
    destruct (py_iter txs) as [items|e|u]; try apply Hstop.
    unfold bind at 1, lift at 1.
    destruct (py_get res "marker" PyNone) as [mk'|e|u]; try apply Hstop.
    destruct (truthy mk'); cbn [negb]; [|apply Hstop].
    unfold bind at 1, emit at 1.
    set (w2 := set_effects (EvSleep 500 :: effects w1) w1).
    specialize (IH (acc ++ items)%list mk' w2).
    destruct (fetch_pages E fuel a lo hi (acc ++ items) mk' w2) as [r w3].
    destruct IH as (n1 & Hext1 & Hev1 & Hss1 & Hok1).
    exists (n1 ++ EvSleep 500 :: n0 ++ [EvPost payload])%list.
    splits.
    + apply (extends_trans _ _ _ w2); [|exact Hext1].
      apply (extends_trans _ [EvSleep 500] _ w1); [exact Hext | reflexivity].
    + apply Forall_app. split; [exact Hev1|]. constructor; [now cbn | exact Hq].
    + eapply same_store_trans; [exact Hss|]. eapply same_store_trans; [|exact Hss1].
      subst w2. now repeat split.
    + intros _. exists (marker payload). apply in_or_app. right. right.
      exact Hin.
Qed.

(** ** The sink *)

Lemma execute_insert_spec E row w :
  let '(r, w') := execute_insert E row w in
  r = Ok tt /\
  exists new,
    extends (new ++ [EvExecute row]) w w' /\
    Forall (fun ev => match ev with
                      | EvPrint (MsgDbInsertFailed _) => True
                      | _ => False
                      end) new /\
    same_store w w'.
Proof.
  unfold execute_insert, bind, emit, read, modify, ret; cbn.
  destruct (db_rejects E row); cbn.
  - split; [reflexivity|]. exists [EvPrint (MsgDbInsertFailed (col_tx_hash row))].
    splits; [reflexivity | repeat constructor | now repeat split].
  - destruct (col_tx_hash row) eqn:Hh; cbn;
      try (split; [reflexivity|];
           eexists [EvPrint (MsgDbInsertFailed _)];
           splits; [reflexivity | repeat constructor | now repeat split]).
    destruct (existsb (has_hash s) (db_committed w ++ db_pending w)); cbn;
      (split; [reflexivity|]; exists [];
       splits; [reflexivity | constructor | now repeat split]).
Qed.

Lemma insert_transfer_spec E tx d w :
  let '(r, w') := insert_transfer E tx d w in
  exists new,
    extends new w w' /\
    Forall (insert_event d) new /\
    same_store w w' /\
    (is_ok r -> inserted tx d new).
Proof.
  assert (Hfail : forall r : result unit, ~ is_ok r ->
            exists new, extends new w w /\ Forall (insert_event d) new /\
                        same_store w w /\ (is_ok r -> inserted tx d new)).
  { intros r Hr. exists []. splits; [reflexivity | constructor | apply same_store_refl |].
    intros H. now destruct (Hr H). }
  unfold insert_transfer.
  unfold bind at 1, lift at 1.
  destruct (py_getitem tx "tx") as [tx_data|e|u] eqn:Htx; try (apply Hfail; now cbn).
  unfold bind at 1, lift at 1.
  destruct (py_getitem tx_data "Amount") as [am|e|u]; try (apply Hfail; now cbn).
  unfold bind at 1, lift at 1.
  destruct (py_getitem am "value") as [v|e|u]; try (apply Hfail; now cbn).
  unfold bind at 1, lift at 1.
  destruct (py_float E v) as [a|e|u]; try (apply Hfail; now cbn).
  unfold bind at 1, lift at 1.
  destruct (py_getitem tx_data "Account") as [s|e|u] eqn:Hs; try (apply Hfail; now cbn).
  unfold bind at 1, lift at 1.
  destruct (py_getitem tx_data "Destination") as [r|e|u] eqn:Hr; try (apply Hfail; now cbn).
  unfold bind at 1, lift at 1.
  destruct (py_getitem tx_data "hash") as [h|e|u]; try (apply Hfail; now cbn).
  unfold bind at 1, lift at 1.
  destruct (py_getitem tx_data "ledger_index") as [li|e|u]; try (apply Hfail; now cbn).
  unfold bind at 1, lift at 1.
  destruct (py_get tx_data "date" (PyStr "")) as [ts|e|u]; try (apply Hfail; now cbn).
  pose proof (execute_insert_spec E (mk_row h d li s r a ts) w) as Hex.
  destruct (execute_insert E (mk_row h d li s r a ts) w) as [res w'].
  destruct Hex as (-> & new & Hext & Hev & Hss).
  exists (new ++ [EvExecute (mk_row h d li s r a ts)])%list.
  assert (Hrows : forall row', In (EvExecute row')
                                  (new ++ [EvExecute (mk_row h d li s r a ts)]) ->
                               row' = mk_row h d li s r a ts).
  { intros row' Hin. apply in_app_or in Hin. destruct Hin as [Hin|[Hin|[]]].
    - rewrite List.Forall_forall in Hev. now apply Hev in Hin.
    - congruence. }
  splits; [exact Hext | | exact Hss |].
  - apply Forall_app. split.
    + eapply List.Forall_impl; [|exact Hev]. intros [] Hq; try easy.
    + repeat constructor.
  - intros _. exists (mk_row h d li s r a ts), tx_data.
    splits; auto. apply in_or_app. right. now left.
Qed.

(** ** The body of the day loop *)

Lemma mentions_nil a : ~ mentions [] a.
Proof. intros (row & [] & _). Qed.

Lemma mentions_app t1 t2 a : mentions (t1 ++ t2) a <-> mentions t1 a \/ mentions t2 a.
Proof.
  unfold mentions. split.
  - intros (row & Hin & Hm). apply in_app_or in Hin. destruct Hin; eauto.
  - intros [(row & Hin & Hm)|(row & Hin & Hm)]; exists row; split; auto;
      apply in_or_app; auto.
Qed.

Lemma tx_rel_refl d st w : tx_rel d st w (Ok st) w.
Proof.
  exists []. splits; [reflexivity | constructor | apply same_store_refl |].
  intros st' [= <-]. split; [intros row []|].
  intros a. split; [auto|]. intros [H|[_ H]]; [exact H|]. now apply mentions_nil in H.
Qed.

Lemma tx_rel_fail d st w (r : result scan_state) :
  ~ is_ok r -> tx_rel d st w r w.
Proof.
  intros Hr. exists []. splits; [reflexivity | constructor | apply same_store_refl |].
  intros st' ->. now destruct Hr.
Qed.

Lemma tx_rel_trans d st w st1 w1 r w2 :
  tx_rel d st w (Ok st1) w1 -> tx_rel d st1 w1 r w2 -> tx_rel d st w r w2.
Proof.
  intros (n1 & He1 & Hf1 & Hs1 & Hok1) (n2 & He2 & Hf2 & Hs2 & Hok2).
  exists (n2 ++ n1)%list.
  splits.
  - eapply extends_trans; eauto.
  - apply Forall_app. auto.
  - eapply same_store_trans; eauto.
  - intros st' ->.
    destruct (Hok1 _ eq_refl) as [Ha1 Hg1], (Hok2 _ eq_refl) as [Ha2 Hg2].
    assert (Hwl : watchlist w1 = watchlist w) by apply Hs1.
    rewrite Hwl in Hg2. split.
    + intros row Hin. apply in_app_or in Hin. destruct Hin; auto.
    + intros a. specialize (Hg1 a). specialize (Hg2 a).
      rewrite mentions_app. tauto.
Qed.

Lemma as_address_ok v s : as_address v = Ok s -> v = PyStr s.
Proof. destruct v; cbn; congruence. Qed.

Lemma process_tx_spec E d tx st w :
  let '(r, w') := process_tx E d tx st w in tx_rel d st w r w'.
Proof.
  unfold process_tx.
  unfold bind at 1, lift at 1.
  destruct (is_pft_payment tx) as [[|]|e|u];
    try (apply tx_rel_fail; now cbn); [|apply tx_rel_refl].
  unfold bind at 1, lift at 1.
  destruct (py_getitem tx "tx") as [tx_data|e|u] eqn:Htx;
    try (apply tx_rel_fail; now cbn).
  unfold bind at 1, lift at 1.
  destruct (py_getitem tx_data "hash") as [h|e|u];
    try (apply tx_rel_fail; now cbn).
  unfold bind at 1.
  pose proof (insert_transfer_spec E tx d w) as Hins.
  destruct (insert_transfer E tx d w) as [[[]|e|u] w1];
    destruct Hins as (new & Hext & Hev & Hss & Hok);
    try (exists new; splits; auto; discriminate).
  assert (Hfail : forall r : result scan_state, ~ is_ok r -> tx_rel d st w r w1).
  { intros r Hr. exists new. splits; auto. intros st' ->. now destruct Hr. }
  destruct (Hok I) as (row & tx_data' & Hin & Huniq & Hday & Htx' & Hsnd & Hrcv).
  rewrite Htx in Htx'. injection Htx' as <-.
  unfold bind at 1, lift at 1.
  destruct (update_balances E (st_balances st) tx (st_active_addresses st))
    as [[balances active]|e|u]; try (apply Hfail; now cbn).
  unfold bind at 1, lift at 1. rewrite Hsnd.
  unfold bind at 1, lift at 1. rewrite Hrcv.
  unfold bind at 1, read at 1.
  unfold bind at 1, lift at 1.
  destruct (as_address (col_sender row)) as [s|e|u] eqn:Has;
    try (apply Hfail; now cbn).
  unfold bind at 1, lift at 1.
  destruct (as_address (col_receiver row)) as [r|e|u] eqn:Har;
    try (apply Hfail; now cbn).
  apply as_address_ok in Has, Har.
  unfold ret. exists new. splits; auto.
  intros st' [= <-]. cbn [st_new_addresses]. split.
  - intros row' Hin'. apply Huniq in Hin'. subst row'. eauto.
  - assert (Hm : forall a, mentions new a <-> a = s \/ a = r).
    { intros a. unfold mentions, row_mentions. split.
      - intros (row' & Hin' & Hrow). apply Huniq in Hin'. subst row'.
        rewrite Has, Har in Hrow. destruct Hrow as [[=]|[=]]; auto.
      - intros Ha. exists row. split; [exact Hin|]. rewrite Has, Har.
        destruct Ha; subst; auto. }
    assert (Hwl : watchlist w1 = watchlist w) by apply Hss.
    rewrite Hwl.
    intros a. specialize (Hm a).
    destruct (decide (s ∈ watchlist w)), (decide (r ∈ watchlist w));
      rewrite ?elem_of_union, ?elem_of_singleton;
      intuition (subst; tauto).
Qed.

(** A relation that holds of every step, and composes, holds of the loop. *)
Lemma for_each_rel {A S} (body : A -> S -> M S)
    (R : list A -> S -> world -> result S -> world -> Prop) :
  (forall s w, R [] s w (Ok s) w) ->
  (forall x l s w s1 w1 r w2,
     R [x] s w (Ok s1) w1 -> R l s1 w1 r w2 -> R (x :: l) s w r w2) ->
  (forall x l s w r w1, ~ is_ok r -> R [x] s w r w1 -> R (x :: l) s w r w1) ->
  (forall x s w, let '(r, w') := body x s w in R [x] s w r w') ->
  forall l s w, let '(r, w') := for_each body l s w in R l s w r w'.
Proof.
  intros Hnil Hcons Hfail Hbody.
  induction l as [|x l IH]; intros s w; cbn [for_each].
  - apply Hnil.
  - unfold bind. specialize (Hbody x s w).
    destruct (body x s w) as [[s1|e|u] w1].
    + specialize (IH s1 w1). destruct (for_each body l s1 w1) as [r w2].
      eapply Hcons; eauto.
    + apply Hfail; [now cbn | exact Hbody].
    + apply Hfail; [now cbn | exact Hbody].
Qed.

Lemma process_txs_spec E d txs st w :
  let '(r, w') := for_each (process_tx E d) txs st w in tx_rel d st w r w'.
Proof.
  apply (for_each_rel (process_tx E d) (fun _ => tx_rel d)).
  - apply tx_rel_refl.
  - intros. eapply tx_rel_trans; eauto.
  - auto.
  - intros. apply process_tx_spec.
Qed.

Lemma query_event_body d wl a ev :
  a ∈ wl ->
  query_event a (fst (get_ledger_range_for_day d)) (snd (get_ledger_range_for_day d)) ev ->
  body_event d wl ev.
Proof.
  intros Ha. destruct ev as [| | | | |r| | |m| | |]; cbn; try easy.
  - intros (-> & ? & ?). auto.
  - destruct m; easy.
Qed.

Lemma insert_event_body d wl ev : insert_event d ev -> body_event d wl ev.
Proof. destruct ev as [| | | | | | | |m| | |]; cbn; try easy. destruct m; easy. Qed.

Lemma query_event_no_execute a lo hi t row :
  Forall (query_event a lo hi) t -> ~ In (EvExecute row) t.
Proof.
  intros Hf Hin. rewrite List.Forall_forall in Hf. now apply Hf in Hin.
Qed.

Lemma insert_event_no_post d t r :
  Forall (insert_event d) t -> ~ In (EvPost r) t.
Proof.
  intros Hf Hin. rewrite List.Forall_forall in Hf. now apply Hf in Hin.
Qed.

Lemma process_address_spec E fuel d a st w :
  let '(r, w') :=
    process_address E fuel d (fst (get_ledger_range_for_day d))
                    (snd (get_ledger_range_for_day d)) a st w in
  addr_rel d [a] st w r w'.
Proof.
  unfold process_address, fetch_account_transactions.
  set (lo := fst (get_ledger_range_for_day d)).
  set (hi := snd (get_ledger_range_for_day d)).
  unfold bind at 1.
  pose proof (fetch_pages_spec E fuel a lo hi [] PyNone w) as Hf.
  destruct (fetch_pages E fuel a lo hi [] PyNone w) as [[txs|e|u] w1];
    destruct Hf as (n1 & He1 & Hq1 & Hs1 & Hok1).
  2, 3: exists n1; splits; auto; try discriminate;
        intros Hin; inversion Hin; subst;
        eapply List.Forall_impl; [|exact Hq1];
        intros ev; now apply query_event_body.
  pose proof (process_txs_spec E d txs st w1) as Hl.
  destruct (for_each (process_tx E d) txs st w1) as [r w2].
  destruct Hl as (n2 & He2 & Hi2 & Hs2 & Hok2).
  exists (n2 ++ n1)%list. splits.
  - eapply extends_trans; eauto.
  - intros Hin. inversion Hin; subst. apply Forall_app. split.
    + eapply List.Forall_impl; [|exact Hi2]. intros ev. apply insert_event_body.
    + eapply List.Forall_impl; [|exact Hq1]. intros ev. now apply query_event_body.
  - eapply same_store_trans; eauto.
  - intros st' ->. destruct (Hok2 _ eq_refl) as [Ha2 Hg2].
    assert (Hwl : watchlist w1 = watchlist w) by apply Hs1.
    rewrite Hwl in Hg2. splits.
    + intros row Hin. apply in_app_or in Hin. destruct Hin as [Hin|Hin]; auto.
      now apply (query_event_no_execute _ _ _ _ row) in Hq1.
    + intros b. specialize (Hg2 b). rewrite mentions_app.
      assert (~ mentions n1 b).
      { intros (row & Hin & _). now apply (query_event_no_execute _ _ _ _ row) in Hq1. }
      tauto.
    + intros b [<-|[]]. destruct (Hok1 I) as [m Hm]. exists m.
      apply in_or_app. now right.
Qed.

Lemma queried_app t1 t2 a d : queried (t1 ++ t2) a d <-> queried t1 a d \/ queried t2 a d.
Proof.
  unfold queried. split.
  - intros (m & Hin). apply in_app_or in Hin. destruct Hin; eauto.
  - intros [(m & Hin)|(m & Hin)]; exists m; apply in_or_app; auto.
Qed.

Lemma addr_rel_refl d st w : addr_rel d [] st w (Ok st) w.
Proof.
  exists []. splits; [reflexivity | constructor | apply same_store_refl |].
  intros st' [= <-]. splits; [intros row [] | | intros a []].
  intros a. split; [auto|]. intros [H|[_ H]]; [exact H|]. now apply mentions_nil in H.
Qed.

Lemma addr_rel_trans d x l st w st1 w1 r w2 :
  addr_rel d [x] st w (Ok st1) w1 -> addr_rel d l st1 w1 r w2 ->
  addr_rel d (x :: l) st w r w2.
Proof.
  intros (n1 & He1 & Hf1 & Hs1 & Hok1) (n2 & He2 & Hf2 & Hs2 & Hok2).
  assert (Hwl : watchlist w1 = watchlist w) by apply Hs1.
  rewrite Hwl in *.
  exists (n2 ++ n1)%list. splits.
  - eapply extends_trans; eauto.
  - intros Hin. inversion Hin; subst. apply Forall_app. split; auto.
  - eapply same_store_trans; eauto.
  - intros st' ->.
    destruct (Hok1 _ eq_refl) as (Ha1 & Hg1 & Hq1), (Hok2 _ eq_refl) as (Ha2 & Hg2 & Hq2).
    splits.
    + intros row Hin. apply in_app_or in Hin. destruct Hin; auto.
    + intros a. specialize (Hg1 a). specialize (Hg2 a).
      rewrite mentions_app. tauto.
    + intros a Hin. apply queried_app. destruct Hin as [<-|Hin]; [right|left]; auto.
      apply Hq1. now left.
Qed.

Lemma addr_rel_fail d x l st w (r : result scan_state) w1 :
  ~ is_ok r -> addr_rel d [x] st w r w1 -> addr_rel d (x :: l) st w r w1.
Proof.
  intros Hr (n1 & He1 & Hf1 & Hs1 & Hok1).
  exists n1. splits; auto.
  - intros Hin. inversion Hin; subst. auto.
  - intros st' ->. now destruct Hr.
Qed.

Lemma process_addresses_spec E fuel d l st w :
  let '(r, w') :=
    for_each (process_address E fuel d (fst (get_ledger_range_for_day d))
                              (snd (get_ledger_range_for_day d))) l st w in
  addr_rel d l st w r w'.
Proof.
  apply (for_each_rel _ (addr_rel d)).
  - apply addr_rel_refl.
  - intros. eapply addr_rel_trans; eauto.
  - intros. now apply addr_rel_fail.
  - intros. apply process_address_spec.
Qed.

(** ** End-of-day reports *)

Lemma save_balances_to_csv_eq d balances w :
  save_balances_to_csv d balances w
  = (Ok tt, set_effects (rev (balance_rows d balances) ++ effects w) w).
Proof.
  unfold save_balances_to_csv. revert w.
  induction balances as [|[a b] l IH]; intros w.
  - cbn. now destruct w.
  - cbn [for_each]. unfold bind at 1. unfold balance_rows. cbn [List.filter].
    destruct (negb (b =? 0)%float); cbn [List.map rev].
    + unfold emit at 1. rewrite IH. cbn. now rewrite <- List.app_assoc.
    + unfold ret at 1. apply IH.
Qed.

(** A day is its address loop, then the merge of the staged addresses, the
    reports and the checkpoint. *)
Lemma process_day_eq E fuel d balances staged_in w :
  process_day E fuel d (balances, staged_in) w =
  match
    for_each (process_address E fuel d (fst (get_ledger_range_for_day d))
                              (snd (get_ledger_range_for_day d)))
             (set_order E (watchlist w))
             (mk_scan balances ∅ 0 staged_in)
             (set_effects
                (EvPrint (MsgProcessingDay d (fst (get_ledger_range_for_day d))
                                           (snd (get_ledger_range_for_day d)))
                 :: effects w) w)
  with
  | (Ok st, w1) =>
      (Ok (st_balances st, ∅),
       set_effects (day_tail_events d st ++ effects w1)
         (set_checkpoint_file (Some (py_str (d + 1)))
            (set_watchlist (watchlist w1 ∪ st_new_addresses st) w1)))
  | (Raise e, w1) => (Raise e, w1)
  | (Undef u, w1) => (Undef u, w1)
  end.
Proof.
  unfold process_day.
  change (get_ledger_range_for_day d)
    with (fst (get_ledger_range_for_day d), snd (get_ledger_range_for_day d)) at 1.
  cbv beta iota.
  unfold bind at 1, emit at 1.
  unfold bind at 1, read at 1. cbn [watchlist set_effects].
  unfold bind at 1.
  destruct (for_each _ _ _ _) as [[st|e|u] w1]; try reflexivity.
  unfold bind, read, modify, save_transfer_count, save_checkpoint, emit, ret.
  rewrite save_balances_to_csv_eq. unfold day_tail_events.
  destruct ((d + 1) mod 10 =? 0), ((d + 1) mod 25 =? 0); cbn; reflexivity.
Qed.

Lemma day_tail_events_report d st : Forall (report_event d) (day_tail_events d st).
Proof.
  unfold day_tail_events.
  repeat apply Forall_app_2.
  - destruct (_ =? 0); repeat constructor.
  - destruct (_ =? 0); repeat constructor.
  - repeat constructor.
  - apply List.Forall_forall. intros ev Hin. apply in_rev in Hin.
    unfold balance_rows in Hin. apply in_map_iff in Hin.
    destruct Hin as ([a b] & <- & _). exact I.
Qed.

Lemma report_event_day d wl ev : report_event d ev -> day_event d wl ev.
Proof. destruct ev as [| | | | | | | |m| | |]; cbn; try easy. destruct m; easy. Qed.

Lemma body_event_day d wl ev : body_event d wl ev -> day_event d wl ev.
Proof. destruct ev as [| | | | | | | |m| | |]; cbn; try easy. destruct m; easy. Qed.

Lemma report_no_execute d t row : Forall (report_event d) t -> ~ In (EvExecute row) t.
Proof. intros Hf Hin. rewrite List.Forall_forall in Hf. now apply Hf in Hin. Qed.

Lemma report_no_post d t r : Forall (report_event d) t -> ~ In (EvPost r) t.
Proof. intros Hf Hin. rewrite List.Forall_forall in Hf. now apply Hf in Hin. Qed.

Lemma process_day_spec E fuel d balances staged_in w :
  env_wf E ->
  let '(r, w') := process_day E fuel d (balances, staged_in) w in
  day_rel d staged_in w r w'.
Proof.
  intros Hwf. rewrite process_day_eq.
  set (lo := fst (get_ledger_range_for_day d)).
  set (hi := snd (get_ledger_range_for_day d)).
  set (w0 := set_effects (EvPrint (MsgProcessingDay d lo hi) :: effects w) w).
  pose proof (process_addresses_spec E fuel d (set_order E (watchlist w))
                (mk_scan balances ∅ 0 staged_in) w0) as Hl.
  fold lo hi in Hl.
  destruct (for_each _ _ _ _) as [[st|e|u] w1];
    destruct Hl as (n & He & Hf & Hs & Hok).
  all: assert (Hmem : Forall (fun a => a ∈ watchlist w0) (set_order E (watchlist w)))
         by (apply List.Forall_forall; intros a Hin;
             apply list_elem_of_In in Hin; rewrite (Hwf (watchlist w)) in Hin;
             now apply elem_of_elements in Hin).
  all: specialize (Hf Hmem); change (watchlist w0) with (watchlist w) in *.
  all: assert (Hext : extends (n ++ [EvPrint (MsgProcessingDay d lo hi)]) w w1)
         by (unfold extends in *; rewrite He; cbn; now rewrite <- List.app_assoc).
  all: destruct Hs as (Hwl & Hdb & Hcp); cbn in Hwl, Hdb, Hcp.
  2, 3: exists n; splits; auto;
        [ eapply List.Forall_impl; [|exact Hf]; intros ev; apply body_event_day
        | now rewrite Hwl
        | intros k Hin; rewrite List.Forall_forall in Hf; now apply Hf in Hin
        | discriminate ].
  destruct (Hok _ eq_refl) as (Haddr & Hstaged & Hq). cbn in Hstaged.
  pose proof (day_tail_events_report d st) as Hrep.
  exists (day_tail_events d st ++ n)%list. splits.
  - unfold extends in *. cbn. rewrite Hext. now rewrite <- !List.app_assoc.
  - apply Forall_app. split.
    + eapply List.Forall_impl; [|exact Hrep]. intros ev. apply report_event_day.
    + eapply List.Forall_impl; [|exact Hf]. intros ev. apply body_event_day.
  - exact Hdb.
  - cbn. rewrite Hwl. apply union_subseteq_l.
  - intros k _. exact I.
  - intros c' [= <-]. cbn [snd]. splits.
    + reflexivity.
    + intros row Hin. apply in_app_or in Hin. destruct Hin as [Hin|Hin]; auto.
      now apply (report_no_execute _ _ row) in Hrep.
    + intros a. cbn. rewrite Hwl, elem_of_union, mentions_app.
      specialize (Hstaged a).
      assert (~ mentions (day_tail_events d st) a).
      { intros (row & Hin & _). now apply (report_no_execute _ _ row) in Hrep. }
      destruct (decide (a ∈ watchlist w)); tauto.
    + intros a Ha. apply queried_app. right. apply Hq.
      apply list_elem_of_In. rewrite (Hwf (watchlist w)). now apply elem_of_elements.
    + reflexivity.
    + apply in_or_app. left. unfold day_tail_events.
      apply in_or_app. right. apply in_or_app. right. now left.
Qed.

(** ** The day loop *)

Lemma for_each_app {A S} (body : A -> S -> M S) l1 l2 s w :
  for_each body (l1 ++ l2) s w =
  match for_each body l1 s w with
  | (Ok s1, w1) => for_each body l2 s1 w1
  | (Raise e, w1) => (Raise e, w1)
  | (Undef u, w1) => (Undef u, w1)
  end.
Proof.
  revert s w. induction l1 as [|x l1 IH]; intros s w; cbn [for_each app].
  - reflexivity.
  - unfold bind. destruct (body x s w) as [[s1|e|u] w1]; auto.
Qed.

Lemma run_days_S E fuel s k c w :
  run_days E fuel s (Z.of_nat (S k)) c w =
  match run_days E fuel s (Z.of_nat k) c w with
  | (Ok c1, w1) => process_day E fuel (s + Z.of_nat k) c1 w1
  | (Raise e, w1) => (Raise e, w1)
  | (Undef u, w1) => (Undef u, w1)
  end.
Proof.
  unfold run_days. rewrite seqZ_S, for_each_app.
  destruct (for_each _ (seqZ 0 (Z.of_nat k)) c w) as [[c1|e|u] w1]; auto.
  cbn [for_each]. unfold bind, ret. rewrite Z.add_0_l.
  destruct (process_day E fuel (s + Z.of_nat k) c1 w1) as [[c2|e|u] w2]; auto.
Qed.

Lemma run_days_0 E fuel s c w : run_days E fuel s 0 c w = (Ok c, w).
Proof. reflexivity. Qed.

Lemma mentions_on_app t1 t2 d a :
  mentions_on (t1 ++ t2) d a <-> mentions_on t1 d a \/ mentions_on t2 d a.
Proof.
  unfold mentions_on. split.
  - intros (row & Hin & Hm). apply in_app_or in Hin. destruct Hin; eauto.
  - intros [(row & Hin & Hm)|(row & Hin & Hm)]; exists row; split; auto;
      apply in_or_app; auto.
Qed.

Lemma day_event_post d wl t r :
  Forall (day_event d wl) t -> In (EvPost r) t ->
  account r ∈ wl /\
  ledger_index_min r = fst (get_ledger_range_for_day d) /\
  ledger_index_max r = snd (get_ledger_range_for_day d).
Proof. intros Hf Hin. rewrite List.Forall_forall in Hf. now apply Hf in Hin. Qed.

Lemma day_event_execute d wl t row :
  Forall (day_event d wl) t -> In (EvExecute row) t -> col_day row = d.
Proof. intros Hf Hin. rewrite List.Forall_forall in Hf. now apply Hf in Hin. Qed.

Lemma day_event_checkpoint d wl t k :
  Forall (day_event d wl) t -> In (EvCheckpoint k) t -> k = d + 1.
Proof. intros Hf Hin. rewrite List.Forall_forall in Hf. now apply Hf in Hin. Qed.

Lemma day_event_no_commit d wl t : Forall (day_event d wl) t -> ~ In EvCommit t.
Proof. intros Hf Hin. rewrite List.Forall_forall in Hf. now apply Hf in Hin. Qed.

Lemma run_rel_zero s balances w : run_rel s 0 w (Ok (balances, ∅)) w.
Proof.
  exists []. splits; [reflexivity | | reflexivity | reflexivity | reflexivity | lia |].
  - unfold scan_safe.
    splits; [intros rq [] | intros row [] | intros [] | intros k [] | intros j a []].
  - intros c' [= <-]. splits; [reflexivity | | lia].
    unfold scan_live. splits; [|intros; lia | intros; lia].
    intros a. split; [auto|]. intros [H|(j & Hj & _)]; [exact H | lia].
Qed.

Lemma run_rel_fail_weaken s n w (r : result (list (string * float) * gset string)) w1 :
  0 < n -> ~ is_ok r -> run_rel s n w r w1 -> run_rel s (n + 1) w r w1.
Proof.
  intros Hn Hr (new & He & (Hp & Hx & Hc & Hk & Hl) & Hdb & Hwl & Hz & Hfirst & Hok).
  exists new. splits; auto; try lia.
  - unfold scan_safe. splits; auto.
    + intros rq Hin. destruct (Hp rq Hin) as (j & Hj & H). exists j. split; [lia | exact H].
    + intros row Hin. destruct (Hx row Hin) as (j & Hj & H). exists j. split; [lia | exact H].
    + intros k Hin. destruct (Hk k Hin) as (j & Hj & H). exists j. split; [lia | exact H].
  - intros c' ->. now destruct Hr.
Qed.

Lemma run_rel_step s n w c1 w1 r w2 :
  0 <= n ->
  run_rel s n w (Ok c1) w1 ->
  day_rel (s + n) (snd c1) w1 r w2 ->
  run_rel s (n + 1) w r w2.
Proof.
  intros Hn (new1 & He1 & (Hp1 & Hx1 & Hc1 & Hk1 & Hl1) & Hdb1 & Hwl1 & Hz1 & Hfirst1 & Hok1)
            (new2 & He2 & Hf2 & Hdb2 & Hwl2 & Hdone2 & Hok2).
  destruct (Hok1 _ eq_refl) as (Hstaged & (Hw1 & Hq1 & Hck1) & Hcp1).
  set (D := EvPrint (MsgProcessingDay (s + n)
                       (fst (get_ledger_range_for_day (s + n)))
                       (snd (get_ledger_range_for_day (s + n))))) in *.
  assert (Hrow2 : forall row, In (EvExecute row) (new2 ++ [D]) -> In (EvExecute row) new2 /\ col_day row = s + n).
  { intros row Hin. apply in_app_or in Hin. destruct Hin as [Hin|[Hin|[]]]; [|discriminate].
    split; [exact Hin|]. eapply day_event_execute; eauto. }
  assert (Hpost2 : forall rq, In (EvPost rq) (new2 ++ [D]) -> In (EvPost rq) new2).
  { intros rq Hin. apply in_app_or in Hin. destruct Hin as [Hin|[Hin|[]]]; [auto|discriminate]. }
  assert (Hearlier : forall j a, 0 <= j < n ->
            mentions_on ((new2 ++ [D]) ++ new1) (s + j) a <-> mentions_on new1 (s + j) a).
  { intros j a Hj. rewrite mentions_on_app. split; [|auto].
    intros [(row & Hin & Hd & _)|H]; [|exact H].
    apply Hrow2 in Hin. lia. }
  assert (Htoday : forall a, mentions_on ((new2 ++ [D]) ++ new1) (s + n) a <-> mentions new2 a).
  { intros a. rewrite mentions_on_app. split.
    - intros [(row & Hin & Hd & Hm)|(row & Hin & Hd & Hm)].
      + exists row. split; [now apply Hrow2 in Hin | exact Hm].
      + destruct (Hx1 row Hin) as (j & Hj & Hd'). lia.
    - intros (row & Hin & Hm). left. exists row.
      splits; [apply in_or_app; now left | eapply day_event_execute; eauto | exact Hm]. }
  assert (Hsnap : forall a, a ∈ watchlist w1 ->
            a ∈ watchlist w \/
            exists j', 0 <= j' < n /\ mentions_on ((new2 ++ [D]) ++ new1) (s + j') a).
  { intros a Ha. apply Hw1 in Ha. destruct Ha as [Ha|(j & Hj & Hm)]; [now left|].
    right. exists j. split; [exact Hj|]. now apply Hearlier. }
  exists ((new2 ++ [D]) ++ new1)%list. splits.
  - eapply extends_trans; eauto.
  - unfold scan_safe. splits.
    + intros rq Hin. apply in_app_or in Hin. destruct Hin as [Hin|Hin].
      * apply Hpost2 in Hin.
        destruct (day_event_post _ _ _ _ Hf2 Hin) as (Ha & Hlo & Hhi).
        exists n. split; [lia|]. split; [exact Hlo|]. split; [exact Hhi|].
        now apply Hsnap.
      * destruct (Hp1 rq Hin) as (j & Hj & Hlo & Hhi & Ha).
        exists j. split; [lia|]. split; [exact Hlo|]. split; [exact Hhi|].
        destruct Ha as [Ha|(j' & Hj' & Hm)]; [now left|].
        right. exists j'. split; [exact Hj'|]. apply Hearlier; [lia | exact Hm].
    + intros row Hin. apply in_app_or in Hin. destruct Hin as [Hin|Hin].
      * apply Hrow2 in Hin. exists n. split; [lia | apply Hin].
      * destruct (Hx1 row Hin) as (j & Hj & Hd). exists j. split; [lia | exact Hd].
    + intros Hin. apply in_app_or in Hin. destruct Hin as [Hin|Hin]; [|auto].
      apply in_app_or in Hin. destruct Hin as [Hin|[Hin|[]]]; [|discriminate].
      now apply (day_event_no_commit _ _ _ Hf2).
    + intros k Hin. apply in_app_or in Hin. destruct Hin as [Hin|Hin].
      * apply in_app_or in Hin. destruct Hin as [Hin|[Hin|[]]]; [|discriminate].
        exists n. split; [lia|]. eapply day_event_checkpoint; eauto.
      * destruct (Hk1 k Hin) as (j & Hj & Hkj). exists j. split; [lia | exact Hkj].
    + intros j a Hin Ha. apply queried_app.
      apply in_app_or in Hin. destruct Hin as [Hin|Hin].
      * apply in_app_or in Hin. destruct Hin as [Hin|[Hin|[]]]; [|discriminate].
        assert (j = n) by (apply (day_event_checkpoint _ _ _ _ Hf2) in Hin; lia).
        subst j. pose proof (Hdone2 _ Hin) as Hr2.
        destruct r as [c2|e|u]; [|now cbn in Hr2..].
        destruct (Hok2 _ eq_refl) as (_ & _ & _ & Hq2 & _).
        left. apply queried_app. left. apply Hq2. apply Hw1.
        destruct Ha as [Ha|(j' & Hj' & Hm)]; [now left|].
        right. exists j'. split; [lia|]. apply Hearlier; [lia | exact Hm].
      * destruct (Hk1 _ Hin) as (j0 & Hj0 & Hkj). assert (j0 = j) by lia. subst j0.
        right. apply Hl1; [exact Hin|].
        destruct Ha as [Ha|(j' & Hj' & Hm)]; [now left|].
        right. exists j'. split; [lia|]. apply Hearlier; [lia | exact Hm].
  - congruence.
  - etransitivity; eauto.
  - lia.
  - intros _. destruct (Z.eq_dec n 0) as [->|Hpos].
    + rewrite (Hz1 eq_refl). exists new2. subst D. rewrite Z.add_0_r.
      now rewrite List.app_nil_r.
    + destruct Hfirst1 as [t ->]; [lia|]. exists ((new2 ++ [D]) ++ t)%list.
      now rewrite <- !List.app_assoc.
  - intros c' ->.
    destruct (Hok2 _ eq_refl) as (Hst2 & Haddr2 & Hw2 & Hq2 & Hcp2 & Hin2).
    splits; [exact Hst2 | | intros _; now rewrite Hcp2, Z.add_assoc].
    unfold scan_live. splits.
    + intros a. rewrite Hw2, Hstaged. split.
      * intros [Ha|[Ha|Ha]].
        -- apply Hsnap in Ha. destruct Ha as [Ha|(j & Hj & Hm)]; [now left|].
           right. exists j. split; [lia | exact Hm].
        -- now apply not_elem_of_empty in Ha.
        -- right. exists n. split; [lia|]. now apply Htoday.
      * intros [Ha|(j & Hj & Hm)].
        -- left. now apply Hwl1.
        -- destruct (Z.eq_dec j n) as [->|Hne].
           ++ right. right. now apply Htoday.
           ++ left. apply Hw1. right. exists j. split; [lia|]. apply Hearlier; [lia | exact Hm].
    + intros j a Hj Ha.
      assert (Ha' : a ∈ watchlist w \/
                    exists j', 0 <= j' < j /\ j' < n /\ mentions_on new1 (s + j') a).
      { destruct Ha as [Ha|(j' & Hj' & Hm)]; [now left|].
        right. exists j'. split; [lia|]. split; [lia|]. apply Hearlier; [lia | exact Hm]. }
      apply queried_app.
      destruct (Z.eq_dec j n) as [->|Hne].
      * left. apply queried_app. left. apply Hq2. apply Hw1.
        destruct Ha' as [Ha'|(j' & Hj' & Hlt & Hm)]; [now left|].
        right. exists j'. split; [lia | exact Hm].
      * right. apply Hq1; [lia|].
        destruct Ha' as [Ha'|(j' & Hj' & Hlt & Hm)]; [now left|].
        right. exists j'. split; [lia | exact Hm].
    + intros j Hj. apply in_or_app.
      destruct (Z.eq_dec j n) as [->|Hne].
      * left. apply in_or_app. now left.
      * right. apply Hck1. lia.
Qed.

Lemma run_days_spec E fuel s k balances w :
  env_wf E ->
  let '(r, w') := run_days E fuel s (Z.of_nat k) (balances, ∅) w in
  run_rel s (Z.of_nat k) w r w'.
Proof.
  intros Hwf. induction k as [|k IH].
  - change (Z.of_nat 0) with 0. rewrite run_days_0. apply run_rel_zero.
  - rewrite run_days_S, Nat2Z.inj_succ, <- Z.add_1_r.
    destruct (run_days E fuel s (Z.of_nat k) (balances, ∅) w) as [[[b1 st1]|e|u] w1] eqn:Hrun.
    + pose proof (process_day_spec E fuel (s + Z.of_nat k) b1 st1 w1 Hwf) as Hd.
      destruct (process_day E fuel (s + Z.of_nat k) (b1, st1) w1) as [r w2].
      eapply run_rel_step; eauto. lia.
    + destruct k as [|k]; [discriminate|].
      apply run_rel_fail_weaken; [lia | now cbn | exact IH].
    + destruct k as [|k]; [discriminate|].
      apply run_rel_fail_weaken; [lia | now cbn | exact IH].
Qed.

(** ** The whole run *)

Lemma load_checkpoint_eq w : load_checkpoint w = (checkpoint_day w, w).
Proof.
  unfold load_checkpoint, checkpoint_day, bind, read, lift, ret.
  destruct (checkpoint_file w); reflexivity.
Qed.

Lemma main_eq E fuel w s :
  db_connects E = true ->
  checkpoint_day w = Ok s ->
  main E fuel w =
  match run_days E fuel s number_of_days ([], ∅) (started w) with
  | (Ok _, w1) => (Ok tt, finished w1)
  | (Raise e, w1) => (Raise e, w1)
  | (Undef u, w1) => (Undef u, w1)
  end.
Proof.
  intros Hc Hs. unfold main, connect_db, create_table_if_not_exists, commit.
  rewrite Hc. generalize (run_days E fuel). intros loop.
  unfold bind, emit, ret, modify. rewrite load_checkpoint_eq.
  unfold checkpoint_day in *. cbn [checkpoint_file set_effects set_db].
  rewrite Hs. unfold started, startup_events, finished, shutdown_events.
  cbn [effects set_effects set_db db_committed db_pending watchlist api_call_count
       log_file_index posts checkpoint_file app].
  destruct (loop s number_of_days _ _) as [[c|e|u] w1]; reflexivity.
Qed.

Lemma main_no_connection E fuel w :
  db_connects E = false ->
  main E fuel w = (Raise OperationalError, set_effects (EvConnect :: effects w) w).
Proof.
  intros Hc. unfold main, connect_db. rewrite Hc. reflexivity.
Qed.

Lemma main_bad_checkpoint E fuel w :
  db_connects E = true ->
  ~ is_ok (checkpoint_day w) ->
  exists r, ~ is_ok r /\
    main E fuel w =
    (r, set_effects ([EvCommit; EvCreateTable; EvConnect] ++ effects w)
                    (set_db (db_committed w ++ db_pending w) [] w)).
Proof.
  intros Hc Hs. unfold main, connect_db, create_table_if_not_exists, commit.
  rewrite Hc. generalize (run_days E fuel). intros loop.
  unfold bind, emit, ret, modify. rewrite load_checkpoint_eq.
  unfold checkpoint_day in *. cbn [checkpoint_file set_effects set_db].
  destruct (match checkpoint_file w with Some _ => _ | None => _ end) as [s|e|u];
    [now destruct Hs | |].
  - exists (Raise e). split; [now cbn | reflexivity].
  - exists (Undef u). split; [now cbn | reflexivity].
Qed.

(* ===================================================================== *)
(** * Paginated query client: properties *)
(* ===================================================================== *)

Lemma safe_post_failure E payload w status body :
  net E (posts w) payload = HttpResponse status body ->
  status <> 200 ->
  safe_post E payload w =
  (Ok PyNone,
   set_effects (EvPrint (MsgRequestFailed status) :: EvPost payload :: effects w)
               (set_posts (S (posts w)) w)).
Proof.
  intros Hnet Hst. unfold safe_post, bind, read, emit, modify, ret. cbn.
  rewrite Hnet. apply Z.eqb_neq in Hst. rewrite Hst. reflexivity.
Qed.

Lemma safe_post_success E payload w data :
  net E (posts w) payload = HttpResponse 200 (Some data) ->
  exists w1,
    safe_post E payload w = (Ok data, w1) /\
    posts w1 = S (posts w) /\
    effects w1 = EvLog (log_file_index w) data :: EvPost payload :: effects w.
Proof.
  intros Hnet. unfold safe_post, bind, read, emit, modify, ret, lift. cbn.
  rewrite Hnet. cbn.
  destruct (1000 <=? api_call_count w + 1); eexists; splits; reflexivity.
Qed.

Lemma fetch_pages_stops E a lo hi pages :
  forall fuel acc mk w,
    serves E (posts w) a lo hi mk pages ->
    (length pages < fuel)%nat ->
    exists w',
      fetch_pages E fuel a lo hi acc mk w
      = (Ok (acc ++ concat (List.map fst pages))%list, w') /\
      posts w' = (posts w + length pages + 1)%nat /\
      count_posts (effects w') = (count_posts (effects w) + length pages + 1)%nat.
Proof.
  induction pages as [|[txs next] rest IH]; intros fuel acc mk w Hs Hfuel.
  - destruct fuel as [|fuel]; [cbn in Hfuel; lia|].
    destruct Hs as (status & body & Hnet & Hst).
    cbn [fetch_pages]. unfold bind at 1.
    rewrite (safe_post_failure _ _ _ _ _ Hnet Hst). cbn [truthy negb].
    eexists. split; [unfold ret; cbn; now rewrite List.app_nil_r|].
    cbn. unfold count_posts. cbn. split; lia.
  - destruct fuel as [|fuel]; [cbn in Hfuel; lia|].
    destruct Hs as (data & res & Hnet & Hres & Htxs & Hmk & Htruthy & Hrest).
    cbn [fetch_pages]. unfold bind at 1.
    destruct (safe_post_success _ _ _ _ Hnet) as (w1 & -> & Hposts & Heff).
    assert (Hdata : truthy (PyDict data) = true).
    { destruct data; [discriminate | reflexivity]. }
    rewrite Hdata. cbn [negb].
    unfold bind at 1, lift at 1. cbn [py_get]. unfold Dict.get_default. rewrite Hres.
    unfold bind at 1, lift at 1. cbn [py_get]. unfold Dict.get_default. rewrite Htxs.
    unfold bind at 1, lift at 1. cbn [py_iter].
    unfold bind at 1, lift at 1. cbn [py_get]. unfold Dict.get_default. rewrite Hmk.
    rewrite Htruthy. cbn [negb].
    unfold bind at 1, emit at 1.
    set (w2 := set_effects (EvSleep 500 :: effects w1) w1).
    assert (Hs2 : serves E (posts w2) a lo hi next rest).
    { subst w2. cbn. rewrite Hposts. exact Hrest. }
    destruct (IH fuel (acc ++ txs)%list next w2 Hs2) as (w' & Heq & Hp & Hc).
    { cbn in Hfuel. lia. }
    exists w'. split.
    + rewrite Heq. cbn [List.map fst concat]. now rewrite <- List.app_assoc.
    + subst w2. cbn in Hp, Hc. rewrite Hp, Hc, Hposts, Heff.
      unfold count_posts. cbn. split; lia.
Qed.

(** C7.  When the node has served some pages of a query and answers the
    next page request with a non-success status, the paginated fetch returns
    normally, with exactly the records of the pages served (none when the
    first request fails), after one post per page served and one for the
    failed request: the failed request is not repeated. *)
Theorem fetch_stops_on_failure E fuel a lo hi pages w :
  serves E (posts w) a lo hi PyNone pages ->
  (length pages < fuel)%nat ->
  exists w',
    fetch_account_transactions E fuel a lo hi w
    = (Ok (concat (List.map fst pages)), w') /\
    posts w' = (posts w + length pages + 1)%nat /\
    count_posts (effects w') = (count_posts (effects w) + length pages + 1)%nat.
Proof.
  intros Hs Hfuel. unfold fetch_account_transactions.
  destruct (fetch_pages_stops E a lo hi pages fuel [] PyNone w Hs Hfuel)
    as (w' & Heq & Hp & Hc).
  exists w'. now rewrite Heq.
Qed.

(* ===================================================================== *)
(** * Replaying a record *)
(* ===================================================================== *)

Lemma update_balances_inv E balances tx active balances' active' :
  update_balances E balances tx active = Ok (balances', active') ->
  exists s r v a,
    tx_field tx "Account" = Some (PyStr s) /\
    tx_field tx "Destination" = Some (PyStr r) /\
    amount_field tx "value" = Some v /\
    py_float E v = Ok a.
Proof.
  unfold update_balances, amount_field, tx_field, tx_body, py_getitem.
  destruct tx as [| | | | | |d]; try discriminate.
  destruct (Dict.get "tx" d) as [[| | | | | |body]|]; try discriminate.
  cbn [rbind].
  destruct (Dict.get "Amount" body) as [[| | | | | |am]|]; try discriminate.
  cbn [rbind].
  destruct (Dict.get "value" am) as [v|]; try discriminate.
  cbn [rbind].
  destruct (py_float E v) as [a|e|u] eqn:Ha; try discriminate.
  cbn [rbind].
  destruct (Dict.get "Account" body) as [sv|]; try discriminate.
  cbn [rbind].
  destruct (Dict.get "Destination" body) as [rv|]; try discriminate.
  cbn [rbind].
  destruct (as_address sv) as [s|e|u] eqn:Hs; try discriminate.
  destruct (as_address rv) as [r|e|u] eqn:Hr; try discriminate.
  apply as_address_ok in Hs, Hr. subst. intros _.
  exists s, r, v, a. auto.
Qed.

(** C1.  The code applies a replayed record again.  Applying the qualifying
    transfer A -> B of 10 to the empty map gives A = -10, B = 10, and
    applying the same record to that result gives A = -20, B = 20: the
    balance map changes the second time.  This happens within a single run:
    a transfer between two watched addresses is returned by the node once
    for each of them.  With 100 sent from the issuer on day 0 and 40 sent
    back on day 1, day 1 executes the second transfer twice, reports a
    transfer count of 2 and ends with balances -20 and 20, while the table,
    which ignores a hash it already holds, keeps one row per transfer, and
    replaying these rows gives -60 and 60. *)
Theorem replay_double_counts :
  (is_pft_payment (payment "T1" "A" "B" "10" 87570566) = Ok true /\
   exists a1 a2,
     update_balances quiet_env [] (payment "T1" "A" "B" "10" 87570566) ∅
     = Ok ([("A", (-10)%float); ("B", 10%float)], a1) /\
     update_balances quiet_env [("A", (-10)%float); ("B", 10%float)]
                     (payment "T1" "A" "B" "10" 87570566) a1
     = Ok ([("A", (-20)%float); ("B", 20%float)], a2) /\
     [("A", (-20)%float); ("B", 20%float)] <> [("A", (-10)%float); ("B", 10%float)]) /\
  (fst (run_days pair_env 1 0 2 ([], ∅) (initial_world None []))
   = Ok ([(ISSUER_ADDRESS, (-20)%float); ("rHolder", 20%float)], ∅) /\
   csv_rows TRANSFERS_CSV
     (effects (snd (run_days pair_env 1 0 2 ([], ∅) (initial_world None []))))
   = [[PyInt 0; PyInt 1]; [PyInt 1; PyInt 2]] /\
   List.map col_tx_hash
     (db_pending (snd (run_days pair_env 1 0 2 ([], ∅) (initial_world None []))))
   = [PyStr "T1"; PyStr "T2"] /\
   replay (db_pending (snd (run_days pair_env 1 0 2 ([], ∅) (initial_world None [])))) []
   = [(ISSUER_ADDRESS, (-60)%float); ("rHolder", 60%float)]).
Proof.
  split.
  - split; [reflexivity|]. do 2 eexists. split; [|split].
    + rewrite (update_balances_ok quiet_env _ _ _ "A" "B" (PyStr "10") 10%float);
        reflexivity.
    + rewrite (update_balances_ok quiet_env _ _ _ "A" "B" (PyStr "10") 10%float);
        reflexivity.
    + intros H.
      apply (f_equal (fun l => match l with
                               | (_, v) :: _ => (v =? (-10))%float
                               | [] => false
                               end)) in H.
      vm_compute in H. discriminate.
  - splits; vm_compute; reflexivity.
Qed.

(* ===================================================================== *)
(** * Checkpoint: properties *)
(* ===================================================================== *)

Lemma rstrip_no_space s : no_space s = true -> rstrip s = s.
Proof.
  induction s as [|c s IH]; cbn; [reflexivity|].
  intros H. apply andb_true_iff in H. destruct H as [Hc Hs].
  rewrite (IH Hs). destruct s; [|reflexivity].
  apply negb_true_iff in Hc. now rewrite Hc.
Qed.

Lemma lstrip_no_space s : no_space s = true -> lstrip s = s.
Proof.
  destruct s as [|c s]; cbn; [reflexivity|].
  intros H. apply andb_true_iff in H. destruct H as [Hc _].
  apply negb_true_iff in Hc. now rewrite Hc.
Qed.

Lemma py_strip_no_space s : no_space s = true -> py_strip s = s.
Proof.
  intros H. unfold py_strip. rewrite (lstrip_no_space _ H). now apply rstrip_no_space.
Qed.

Lemma digit_not_space c : is_digit c = true -> is_space c = false.
Proof.
  destruct c as [[] [] [] [] [] [] [] []]; vm_compute; intros H;
    first [reflexivity | discriminate H].
Qed.

Lemma all_digits_no_space s : all_digits s = true -> no_space s = true.
Proof.
  induction s as [|c s IH]; cbn; [reflexivity|].
  intros H. apply andb_true_iff in H. destruct H as [Hc Hs].
  rewrite (digit_not_space _ Hc). cbn. auto.
Qed.

Lemma string_of_uint_digits u : all_digits (NilEmpty.string_of_uint u) = true.
Proof. induction u; cbn; auto. Qed.

Lemma digit_group_digits s :
  all_digits s = true ->
  forall after_digit, (s <> EmptyString \/ after_digit = true) ->
  digit_group after_digit s = Some s.
Proof.
  induction s as [|c s IH]; cbn.
  - intros _ b [H| ->]; [congruence | reflexivity].
  - intros H b _. apply andb_true_iff in H. destruct H as [Hc Hs].
    rewrite Hc. rewrite (IH Hs true); [reflexivity | now right].
Qed.

Lemma unsigned_of_string_of_pos p :
  unsigned_of_string (NilEmpty.string_of_uint (Pos.to_uint p)) = Some (Z.pos p).
Proof.
  unfold unsigned_of_string.
  rewrite digit_group_digits.
  - rewrite NilEmpty.usu. cbn [option_map]. unfold Z.of_uint.
    now rewrite DecimalPos.Unsigned.of_to.
  - apply string_of_uint_digits.
  - left. pose proof (DecimalPos.Unsigned.to_uint_nonnil p) as Hn.
    destruct (Pos.to_uint p); [congruence | discriminate..].
Qed.

Lemma digit_leads_unsigned c s :
  is_digit c = true -> signed_of_string (String c s) = unsigned_of_string (String c s).
Proof.
  destruct c as [[] [] [] [] [] [] [] []]; intros H;
    first [reflexivity | vm_compute in H; discriminate H].
Qed.

Lemma string_of_pos_shape p :
  exists c s, NilEmpty.string_of_uint (Pos.to_uint p) = String c s /\
              is_digit c = true.
Proof.
  pose proof (DecimalPos.Unsigned.to_uint_nonnil p) as Hn.
  pose proof (string_of_uint_digits (Pos.to_uint p)) as Hd.
  destruct (Pos.to_uint p); [congruence|..]; cbn in *;
    eexists _, _; split; reflexivity.
Qed.

(** Reading back what [str] wrote. *)
Lemma py_int_py_str (n : Z) : py_int (py_strip (py_str n)) = Ok n.
Proof.
  unfold py_str, Z.to_int.
  destruct n as [|p|p].
  - reflexivity.
  - pose proof (DecimalPos.Unsigned.to_uint_nonnil p) as Hn.
    assert (Hs : NilZero.string_of_int (Decimal.Pos (Pos.to_uint p))
                 = NilEmpty.string_of_uint (Pos.to_uint p)).
    { cbn. destruct (Pos.to_uint p); [congruence | reflexivity..]. }
    rewrite Hs. clear Hs.
    pose proof (all_digits_no_space _ (string_of_uint_digits (Pos.to_uint p))) as Hsp.
    unfold py_int. rewrite !(py_strip_no_space _ Hsp).
    destruct (string_of_pos_shape p) as (c & s & Heq & Hc).
    rewrite Heq, (digit_leads_unsigned _ _ Hc), <- Heq.
    now rewrite unsigned_of_string_of_pos.
  - pose proof (DecimalPos.Unsigned.to_uint_nonnil p) as Hn.
    assert (Hs : NilZero.string_of_int (Decimal.Neg (Pos.to_uint p))
                 = String "-" (NilEmpty.string_of_uint (Pos.to_uint p))).
    { cbn. destruct (Pos.to_uint p); [congruence | reflexivity..]. }
    rewrite Hs. clear Hs.
    assert (Hsp : no_space (String "-" (NilEmpty.string_of_uint (Pos.to_uint p))) = true).
    { cbn [no_space]. rewrite (all_digits_no_space _ (string_of_uint_digits _)).
      reflexivity. }
    unfold py_int. rewrite !(py_strip_no_space _ Hsp).
    cbn [signed_of_string]. now rewrite unsigned_of_string_of_pos.
Qed.

Lemma days_started_app t1 t2 :
  days_started (t1 ++ t2) = (days_started t2 ++ days_started t1)%list.
Proof. unfold days_started. now rewrite rev_app_distr, omap_app. Qed.

Lemma process_day_grows E fuel d c w :
  exists t,
    effects (snd (process_day E fuel d c w)) =
    (t ++ EvPrint (MsgProcessingDay d (fst (get_ledger_range_for_day d))
                                    (snd (get_ledger_range_for_day d)))
       :: effects w)%list.
Proof.
  destruct c as [balances staged_in]. rewrite process_day_eq.
  match goal with
  | |- context [for_each ?body ?l ?st ?w0] =>
      pose proof (process_addresses_spec E fuel d l st w0) as Hl;
      destruct (for_each body l st w0) as [[st1|e|u] w1]
  end;
    destruct Hl as (n & He & _); unfold extends in He; cbn in He.
  - exists (day_tail_events d st1 ++ n)%list. cbn. rewrite He.
    now rewrite <- List.app_assoc.
  - exists n. exact He.
  - exists n. exact He.
Qed.

Lemma run_days_grows E fuel s k c w :
  exists t,
    effects (snd (run_days E fuel s (Z.of_nat (S k)) c w)) =
    (t ++ EvPrint (MsgProcessingDay s (fst (get_ledger_range_for_day s))
                                    (snd (get_ledger_range_for_day s)))
       :: effects w)%list.
Proof.
  induction k as [|k IH].
  - rewrite run_days_S. change (Z.of_nat 0) with 0. rewrite run_days_0, Z.add_0_r.
    apply process_day_grows.
  - rewrite run_days_S.
    destruct (run_days E fuel s (Z.of_nat (S k)) c w) as [[c1|e|u] w1];
      destruct IH as [t Ht]; cbn [snd] in Ht; try (exists t; exact Ht).
    destruct (process_day_grows E fuel (s + Z.of_nat (S k)) c1 w1) as [t2 Ht2].
    eexists. rewrite Ht2, Ht. rewrite List.app_comm_cons, List.app_assoc. reflexivity.
Qed.

Lemma main_first_day E fuel w s :
  db_connects E = true ->
  checkpoint_day w = Ok s ->
  days_started (effects w) = [] ->
  head (days_started (effects (snd (main E fuel w)))) = Some s.
Proof.
  intros Hc Hs Hnone. rewrite (main_eq E fuel w s Hc Hs).
  destruct (run_days_grows E fuel s 367 ([], ∅) (started w)) as [t Ht].
  change (Z.of_nat 368) with number_of_days in Ht.
  assert (Hd : forall t', days_started
             (t' ++ EvPrint (MsgProcessingDay s (fst (get_ledger_range_for_day s))
                                    (snd (get_ledger_range_for_day s)))
                :: effects (started w)) = s :: days_started t').
  { intros t'. rewrite days_started_app.
    change (EvPrint ?m :: ?l) with ([EvPrint m] ++ l)%list.
    rewrite days_started_app. unfold started. cbn [effects set_effects].
    rewrite days_started_app, Hnone. reflexivity. }
  destruct (run_days E fuel s number_of_days ([], ∅) (started w)) as [[c|e|u] w1];
    cbn [snd] in *.
  - unfold finished. cbn [effects set_effects]. rewrite Ht.
    rewrite List.app_assoc, Hd. reflexivity.
  - rewrite Ht, Hd. reflexivity.
  - rewrite Ht, Hd. reflexivity.
Qed.

(** C5.  A completed day [d] leaves [d + 1] in the checkpoint file; a run
    started on that file reads [d + 1] back and the first day it processes
    is [d + 1]; without a checkpoint file the first day is day 0. *)
Theorem checkpoint_resume :
  (forall E fuel d c w c' w',
     process_day E fuel d c w = (Ok c', w') ->
     checkpoint_file w' = Some (py_str (d + 1))) /\
  (forall w d,
     checkpoint_file w = Some (py_str (d + 1)) ->
     load_checkpoint w = (Ok (d + 1), w)) /\
  (forall w, checkpoint_file w = None -> load_checkpoint w = (Ok 0, w)) /\
  (forall E fuel w,
     db_connects E = true ->
     days_started (effects w) = [] ->
     (forall d, checkpoint_file w = Some (py_str (d + 1)) ->
                head (days_started (effects (snd (main E fuel w)))) = Some (d + 1)) /\
     (checkpoint_file w = None ->
      head (days_started (effects (snd (main E fuel w)))) = Some 0)).
Proof.
  splits.
  - intros E fuel d [balances staged_in] w c' w' Hrun.
    rewrite process_day_eq in Hrun.
    destruct (for_each _ _ _ _) as [[st|e|u] w1]; try discriminate.
    injection Hrun as _ <-. reflexivity.
  - intros w d Hf. rewrite load_checkpoint_eq. unfold checkpoint_day.
    now rewrite Hf, py_int_py_str.
  - intros w Hf. rewrite load_checkpoint_eq. unfold checkpoint_day. now rewrite Hf.
  - intros E fuel w Hc Hnone. split.
    + intros d Hf. apply main_first_day; auto.
      unfold checkpoint_day. now rewrite Hf, py_int_py_str.
    + intros Hf. apply main_first_day; auto.
      unfold checkpoint_day. now rewrite Hf.
Qed.

Lemma checkpoint_resume_witness :
  db_connects quiet_env = true /\
  checkpoint_file (initial_world (Some "5") []) = Some (py_str (4 + 1)) /\
  head (days_started (effects (snd (main quiet_env 1 (initial_world (Some "5") [])))))
  = Some (4 + 1).
Proof.
  split; [reflexivity|]. split; [reflexivity|].
  destruct checkpoint_resume as (_ & _ & _ & H).
  destruct (H quiet_env 1%nat (initial_world (Some "5") []) eq_refl eq_refl) as [Hd _].
  apply (Hd 4). reflexivity.
Defined.

(* ===================================================================== *)
(** * The run as a whole: properties *)
(* ===================================================================== *)

Lemma run_days_rel E fuel s n balances w :
  env_wf E -> 0 <= n ->
  let '(r, w') := run_days E fuel s n (balances, ∅) w in
  run_rel s n w r w'.
Proof.
  intros Hwf Hn. rewrite <- (Z2Nat.id n Hn). now apply run_days_spec.
Qed.

(** A run that reaches the day loop is the start-up, the scan of
    [number_of_days] days and, when the scan completes, the shutdown. *)
Lemma main_scan E fuel w s r w' :
  env_wf E ->
  db_connects E = true ->
  checkpoint_day w = Ok s ->
  main E fuel w = (r, w') ->
  exists w1 new,
    effects w1 = (new ++ startup_events ++ effects w)%list /\
    scan_safe s number_of_days (watchlist w) new /\
    (is_ok r ->
     w' = finished w1 /\
     scan_live s number_of_days (watchlist w) (watchlist w1) new /\
     checkpoint_file w1 = Some (py_str (s + number_of_days))) /\
    (~ is_ok r -> w' = w1).
Proof.
  intros Hwf Hc Hs Hmain. rewrite (main_eq E fuel w s Hc Hs) in Hmain.
  pose proof (run_days_rel E fuel s number_of_days [] (started w) Hwf) as Hrel.
  destruct (run_days E fuel s number_of_days ([], ∅) (started w)) as [r1 w1].
  destruct Hrel as (new & He & Hsafe & _ & _ & _ & _ & Hok); [unfold number_of_days; lia|].
  exists w1, new. splits.
  - exact He.
  - exact Hsafe.
  - intros Hr. destruct r1 as [c|e|u];
      [|injection Hmain as <- _; now cbn in Hr..].
    injection Hmain as _ <-.
    destruct (Hok _ eq_refl) as (_ & Hlive & Hcp).
    splits; [reflexivity | exact Hlive | apply Hcp; unfold number_of_days; lia].
  - intros Hr. destruct r1 as [c|e|u]; injection Hmain as <- <-;
      [now destruct Hr | reflexivity..].
Qed.

Lemma commits_app t1 t2 : commits (t1 ++ t2) = (commits t1 + commits t2)%nat.
Proof. unfold commits. now rewrite List.filter_app, List.length_app. Qed.

Lemma commits_none t : ~ In EvCommit t -> commits t = 0%nat.
Proof.
  unfold commits. induction t as [|ev t IH]; cbn; [reflexivity|].
  intros H. destruct ev; cbn; try (apply IH; tauto).
  exfalso. apply H. now left.
Qed.

(** C10, as stated, fails: a run that completes executes [commit] twice, once
    after creating the table and once after the scan. *)
Lemma commit_runs_twice :
  fst (main quiet_env 1 (initial_world None [])) = Ok tt /\
  commits (effects (snd (main quiet_env 1 (initial_world None [])))) = 2%nat /\
  commits (effects (snd (main quiet_env 1 (initial_world None [])))) <> 1%nat.
Proof. vm_compute. splits; [reflexivity | reflexivity | discriminate]. Qed.

(** C10, amended.  Apart from the commit that follows table creation at
    start-up, before any day is scanned, [commit] is executed exactly once,
    after all configured days have been processed and after each of them
    advanced the checkpoint; a run that stops early executes no further
    commit; and the scan of any number of days leaves the committed table
    as it was while the checkpoint file names the next day. *)
Theorem commit_after_scan E fuel :
  env_wf E ->
  (forall w r w',
     main E fuel w = (r, w') ->
     (is_ok r ->
      exists s scan,
        checkpoint_day w = Ok s /\
        effects w' = (shutdown_events ++ scan ++ startup_events ++ effects w)%list /\
        ~ In EvCommit scan /\
        (forall d, s <= d < s + number_of_days -> In (EvCheckpoint (d + 1)) scan) /\
        commits (effects w') = (commits (effects w) + 2)%nat) /\
     (~ is_ok r -> (commits (effects w') <= commits (effects w) + 1)%nat)) /\
  (forall s n balances w r w',
     0 <= n ->
     run_days E fuel s n (balances, ∅) w = (r, w') ->
     db_committed w' = db_committed w /\
     (is_ok r -> 0 < n -> checkpoint_file w' = Some (py_str (s + n)))).
Proof.
  intros Hwf. split.
  - intros w r w' Hmain.
    destruct (db_connects E) eqn:Hc.
    2: { rewrite (main_no_connection E fuel w Hc) in Hmain. injection Hmain as <- <-.
         split; [intros []|]. intros _. cbn. unfold commits. cbn. lia. }
    destruct (checkpoint_day w) as [s|e|u] eqn:Hs.
    2, 3: destruct (main_bad_checkpoint E fuel w Hc) as (r0 & Hr0 & Heq);
          [rewrite Hs; now cbn|];
          rewrite Heq in Hmain; injection Hmain as <- <-;
          split; [intros H; now destruct Hr0|];
          intros _; cbn; unfold commits; cbn; lia.
    destruct (main_scan E fuel w s r w' Hwf Hc Hs Hmain)
      as (w1 & new & He & (Hp & Hx & Hnc & Hk & Hl) & Hok & Hfail).
    split.
    + intros Hr. destruct (Hok Hr) as (-> & (_ & _ & Hck) & _).
      exists s, new. splits; auto.
      * unfold finished. cbn [effects set_effects]. now rewrite He.
      * intros d Hd. replace d with (s + (d - s)) by lia. apply Hck. lia.
      * unfold finished. cbn [effects set_effects]. rewrite He.
        rewrite !commits_app, (commits_none _ Hnc). cbn. lia.
    + intros Hr. rewrite (Hfail Hr), He.
      rewrite !commits_app, (commits_none _ Hnc). cbn. lia.
  - intros s n balances w r w' Hn Hrun.
    pose proof (run_days_rel E fuel s n balances w Hwf Hn) as Hrel.
    rewrite Hrun in Hrel.
    destruct Hrel as (new & _ & _ & Hdb & _ & _ & _ & Hok).
    split; [exact Hdb|].
    intros Hr Hpos. destruct r as [c|e|u]; [|now cbn in Hr..].
    destruct (Hok _ eq_refl) as (_ & _ & Hcp). now apply Hcp.
Qed.

Lemma startup_no_post r : ~ In (EvPost r) startup_events.
Proof. cbn. intuition discriminate. Qed.

Lemma startup_no_execute row : ~ In (EvExecute row) startup_events.
Proof. cbn. intuition discriminate. Qed.

Lemma shutdown_no_post r : ~ In (EvPost r) shutdown_events.
Proof. cbn. intuition discriminate. Qed.

Lemma shutdown_no_execute row : ~ In (EvExecute row) shutdown_events.
Proof. cbn. intuition discriminate. Qed.

Lemma queried_scan pre new a d :
  (pre = [] \/ pre = shutdown_events) ->
  queried (pre ++ new ++ startup_events) a d <-> queried new a d.
Proof.
  intros Hpre. rewrite !queried_app. split; [|tauto].
  intros [(m & Hin)|[H|(m & Hin)]]; [|exact H|].
  - destruct Hpre as [-> | ->]; [destruct Hin | now apply shutdown_no_post in Hin].
  - now apply startup_no_post in Hin.
Qed.

Lemma mentions_on_scan pre new d a :
  (pre = [] \/ pre = shutdown_events) ->
  mentions_on (pre ++ new ++ startup_events) d a <-> mentions_on new d a.
Proof.
  intros Hpre. rewrite !mentions_on_app. split; [|tauto].
  intros [(row & Hin & _)|[H|(row & Hin & _)]]; [|exact H|].
  - destruct Hpre as [-> | ->]; [destruct Hin | now apply shutdown_no_execute in Hin].
  - now apply startup_no_execute in Hin.
Qed.

(** C6, amended.  In a run started at day [s], an address that was not on
    the watchlist at the start and was a counterparty of no transfer before
    day [s + i] is not queried over the window of day [s + i], even when it
    appears in a transfer of that very day: the day queries the snapshot
    taken at its start.  A counterparty of a transfer of day [s + i] is
    queried on every later day that the same run completes (a day is
    complete when its checkpoint is written); when the whole run completes,
    every configured day is complete and every counterparty is on the
    watchlist.  Day by day: every post of a completed day goes to an address
    that was on the watchlist when the day started, and the watchlist after
    the day is the one before it plus the counterparties of the day's
    transfers.  The watchlist is not kept between runs: a run that starts
    with the issuer alone on the watchlist queries another address on a day
    only if the run itself has seen it as a counterparty on an earlier
    day. *)
Theorem watchlist_snapshot E fuel w s r w' :
  env_wf E ->
  effects w = [] ->
  checkpoint_day w = Ok s ->
  main E fuel w = (r, w') ->
  (forall i a,
     a ∉ watchlist w ->
     (forall j, 0 <= j < i -> ~ mentions_on (effects w') (s + j) a) ->
     ~ queried (effects w') a (s + i)) /\
  (forall i k a,
     0 <= i < k ->
     mentions_on (effects w') (s + i) a ->
     In (EvCheckpoint (s + k + 1)) (effects w') ->
     queried (effects w') a (s + k)) /\
  (is_ok r ->
   (forall k, 0 <= k < number_of_days -> In (EvCheckpoint (s + k + 1)) (effects w')) /\
   (forall i a, 0 <= i < number_of_days ->
                mentions_on (effects w') (s + i) a -> a ∈ watchlist w')) /\
  (forall d balances w0 c1 w1,
     process_day E fuel d (balances, ∅) w0 = (Ok c1, w1) ->
     exists new,
       effects w1 = (new ++ effects w0)%list /\
       (forall rq, In (EvPost rq) new -> account rq ∈ watchlist w0) /\
       (forall a, a ∈ watchlist w1 <-> (a ∈ watchlist w0 \/ mentions new a))) /\
  (watchlist w = {[ ISSUER_ADDRESS ]} ->
   forall i a,
     a <> ISSUER_ADDRESS ->
     (forall j, 0 <= j < i -> ~ mentions_on (effects w') (s + j) a) ->
     ~ queried (effects w') a (s + i)).
Proof.
  intros Hwf Hnil Hs Hmain.
  cut ((forall i a,
          a ∉ watchlist w ->
          (forall j, 0 <= j < i -> ~ mentions_on (effects w') (s + j) a) ->
          ~ queried (effects w') a (s + i)) /\
       (forall i k a,
          0 <= i < k ->
          mentions_on (effects w') (s + i) a ->
          In (EvCheckpoint (s + k + 1)) (effects w') ->
          queried (effects w') a (s + k)) /\
       (is_ok r ->
        (forall k, 0 <= k < number_of_days -> In (EvCheckpoint (s + k + 1)) (effects w')) /\
        (forall i a, 0 <= i < number_of_days ->
                     mentions_on (effects w') (s + i) a -> a ∈ watchlist w')) /\
       (forall d balances w0 c1 w1,
          process_day E fuel d (balances, ∅) w0 = (Ok c1, w1) ->
          exists new,
            effects w1 = (new ++ effects w0)%list /\
            (forall rq, In (EvPost rq) new -> account rq ∈ watchlist w0) /\
            (forall a, a ∈ watchlist w1 <-> (a ∈ watchlist w0 \/ mentions new a)))).
  { intros (H1 & H2 & H3 & H4). splits; auto.
    intros Hwl i a Ha. apply H1. rewrite Hwl, elem_of_singleton. exact Ha. }
  assert (Hday : forall d balances w0 c1 w1,
     process_day E fuel d (balances, ∅) w0 = (Ok c1, w1) ->
     exists new,
       effects w1 = (new ++ effects w0)%list /\
       (forall rq, In (EvPost rq) new -> account rq ∈ watchlist w0) /\
       (forall a, a ∈ watchlist w1 <-> (a ∈ watchlist w0 \/ mentions new a))).
  { intros d balances w0 c1 w1 Hrun.
    pose proof (process_day_spec E fuel d balances ∅ w0 Hwf) as Hd.
    rewrite Hrun in Hd. destruct Hd as (new & He & Hf & _ & _ & _ & Hok).
    destruct (Hok _ eq_refl) as (_ & _ & Hwl & _).
    eexists. split; [exact He|]. split.
    - intros rq Hin. apply in_app_or in Hin. destruct Hin as [Hin|[Hin|[]]]; [|discriminate].
      now apply (day_event_post _ _ _ _ Hf) in Hin.
    - intros a. rewrite Hwl, mentions_app. split.
      + intros [H|[H|H]]; [now left | now apply not_elem_of_empty in H | right; now left].
      + intros [H|[H|(row & [Hin|[]] & _)]]; [now left | right; now right | discriminate]. }
  destruct (db_connects E) eqn:Hc.
  2: { rewrite (main_no_connection E fuel w Hc) in Hmain. injection Hmain as <- <-.
       cbn [effects set_effects]. rewrite Hnil.
       splits; [| |intros [] | exact Hday].
       - intros i a _ _ (m & [Hin|[]]). discriminate.
       - intros i k a _ _ [Hin|[]]. discriminate. }
  destruct (main_scan E fuel w s r w' Hwf Hc Hs Hmain)
    as (w1 & new & He & (Hp & Hx & Hnc & Hk & Hl) & Hok & Hfail).
  rewrite Hnil, List.app_nil_r in He.
  assert (Heff : exists pre, (pre = [] \/ pre = shutdown_events) /\
                             effects w' = (pre ++ new ++ startup_events)%list).
  { destruct r as [[]|e|u].
    - destruct (Hok I) as (-> & _). exists shutdown_events. split; [now right|].
      unfold finished. cbn [effects set_effects]. now rewrite He.
    - rewrite Hfail by (now cbn). exists []. split; [now left | exact He].
    - rewrite Hfail by (now cbn). exists []. split; [now left | exact He]. }
  destruct Heff as (pre & Hpre & Heff). rewrite Heff.
  assert (Hcp : forall k, In (EvCheckpoint k) (pre ++ new ++ startup_events) <->
                          In (EvCheckpoint k) new).
  { intros k. rewrite !in_app_iff. split; [|tauto].
    intros [Hin|[Hin|Hin]]; [|exact Hin|].
    - destruct Hpre as [-> | ->]; [destruct Hin|]. cbn in Hin. intuition discriminate.
    - cbn in Hin. intuition discriminate. }
  splits.
  - intros i a Ha Hbefore Hq. apply (queried_scan pre new a (s + i) Hpre) in Hq.
    destruct Hq as (m & Hin).
    destruct (Hp _ Hin) as (j & Hj & Hlo & _ & Hacc). cbn in Hlo, Hacc.
    apply ledger_range_inj in Hlo. assert (j = i) by lia. subst j.
    destruct Hacc as [Hacc|(j' & Hj' & Hm)]; [now apply Ha|].
    apply (Hbefore j' Hj'). now apply mentions_on_scan.
  - intros i k a Hik Hm Hin.
    apply (mentions_on_scan pre new (s + i) a Hpre) in Hm. apply Hcp in Hin.
    apply queried_scan; [exact Hpre|]. apply Hl; [exact Hin|].
    right. exists i. split; [exact Hik | exact Hm].
  - intros Hr. destruct (Hok Hr) as (-> & (Hwl & _ & Hck) & _). split.
    + intros k Hkk. apply Hcp. now apply Hck.
    + intros i a Hi Hm. apply (mentions_on_scan pre new (s + i) a Hpre) in Hm.
      unfold finished. cbn [watchlist set_effects set_db]. apply Hwl.
      right. exists i. split; [exact Hi | exact Hm].
  - exact Hday.
Qed.

(* ===================================================================== *)
(** * The persisted transfer log is never read back *)
(* ===================================================================== *)

Lemma db_blind_ret {A} (a : A) : db_blind (ret a).
Proof. intros w1 w2 H. now split. Qed.

Lemma db_blind_lift {A} (r : result A) : db_blind (lift r).
Proof. intros w1 w2 H. now split. Qed.

Lemma db_blind_bind {A B} (m : M A) (k : A -> M B) :
  db_blind m -> (forall a, db_blind (k a)) -> db_blind (bind m k).
Proof.
  intros Hm Hk w1 w2 H. unfold bind.
  destruct (Hm w1 w2 H) as [Hr Hw].
  destruct (m w1) as [r1 w1'], (m w2) as [r2 w2']. cbn in Hr, Hw. subst r2.
  destruct r1 as [a|e|u]; [now apply Hk | now split..].
Qed.

Lemma db_blind_emit ev : db_blind (emit ev).
Proof.
  intros w1 w2 (H1 & H2 & H3 & H4 & H5 & H6). split; [reflexivity|].
  unfold emit, same_but_db; cbn. splits; congruence.
Qed.

Lemma db_blind_read {A} (f : world -> A) :
  (forall w1 w2, same_but_db w1 w2 -> f w1 = f w2) -> db_blind (read f).
Proof. intros Hf w1 w2 H. unfold read; cbn. split; [f_equal; auto | exact H]. Qed.

Lemma db_blind_modify (f : world -> world) :
  (forall w1 w2, same_but_db w1 w2 -> same_but_db (f w1) (f w2)) ->
  db_blind (modify f).
Proof. intros Hf w1 w2 H. unfold modify; cbn. split; [reflexivity | auto]. Qed.

Lemma db_blind_for_each {A S} (body : A -> S -> M S) l :
  (forall x s, db_blind (body x s)) -> forall s, db_blind (for_each body l s).
Proof.
  intros Hb. induction l as [|x l IH]; intros s; cbn [for_each].
  - apply db_blind_ret.
  - apply db_blind_bind; auto.
Qed.

Ltac db_blind_step :=
  first
    [ apply db_blind_ret
    | apply db_blind_lift
    | apply db_blind_emit
    | apply db_blind_bind; [|intros ?]
    | apply db_blind_for_each; intros ? ?
    | apply db_blind_read; intros ? ? (? & ? & ? & ? & ? & ?); assumption
    | apply db_blind_modify; intros ? ? (? & ? & ? & ? & ? & ?);
      unfold same_but_db; cbn; splits; congruence
    | match goal with
      | |- db_blind (if ?b then _ else _) => destruct b
      | |- db_blind (match ?x with _ => _ end) => destruct x
      end ].

Lemma db_blind_safe_post E payload : db_blind (safe_post E payload).
Proof.
  intros w1 w2 H. pose proof H as (H1 & H2 & H3 & H4 & H5 & H6).
  unfold safe_post, bind, read, emit, modify, lift, ret; cbn.
  rewrite H4. destruct (net E (posts w2) payload) as [status body|]; cbn.
  - destruct (status =? 200); cbn.
    + destruct body as [data|]; cbn.
      * rewrite H2, H3.
        destruct (1000 <=? api_call_count w2 + 1); cbn;
          (split; [reflexivity|]; unfold same_but_db; cbn; splits; congruence).
      * split; [reflexivity|]. unfold same_but_db; cbn; splits; congruence.
    + split; [reflexivity|]. unfold same_but_db; cbn; splits; congruence.
  - split; [reflexivity|]. unfold same_but_db; cbn; splits; congruence.
Qed.

Lemma db_blind_fetch_pages E fuel a lo hi :
  forall acc mk, db_blind (fetch_pages E fuel a lo hi acc mk).
Proof.
  induction fuel as [|fuel IH]; intros acc mk; cbn [fetch_pages].
  - apply db_blind_lift.
  - apply db_blind_bind; [apply db_blind_safe_post|]. intros data.
    repeat db_blind_step. apply IH.
Qed.

Lemma db_blind_execute_insert E row : db_blind (execute_insert E row).
Proof.
  intros w1 w2 H. pose proof H as (H1 & H2 & H3 & H4 & H5 & H6).
  unfold execute_insert, bind, emit, read, modify, ret; cbn.
  destruct (db_rejects E row); cbn.
  { split; [reflexivity|]. unfold same_but_db; cbn; splits; congruence. }
  destruct (col_tx_hash row); cbn;
    try (split; [reflexivity|]; unfold same_but_db; cbn; splits; congruence).
  destruct (existsb _ (db_committed w1 ++ db_pending w1)),
           (existsb _ (db_committed w2 ++ db_pending w2)); cbn;
    (split; [reflexivity|]; unfold same_but_db; cbn; splits; congruence).
Qed.

Lemma db_blind_commit : db_blind commit.
Proof.
  intros w1 w2 (H1 & H2 & H3 & H4 & H5 & H6).
  unfold commit, bind, modify, emit; cbn.
  split; [reflexivity|]. unfold same_but_db; cbn; splits; congruence.
Qed.

Lemma db_blind_insert_transfer E tx d : db_blind (insert_transfer E tx d).
Proof.
  unfold insert_transfer.
  repeat first [apply db_blind_execute_insert | db_blind_step].
Qed.

Lemma db_blind_process_tx E d tx st : db_blind (process_tx E d tx st).
Proof.
  unfold process_tx.
  apply db_blind_bind; [apply db_blind_lift|]. intros [|]; [|apply db_blind_ret].
  apply db_blind_bind; [apply db_blind_lift|]. intros tx_data.
  apply db_blind_bind; [apply db_blind_lift|]. intros h.
  apply db_blind_bind; [apply db_blind_insert_transfer|]. intros _.
  apply db_blind_bind; [apply db_blind_lift|]. intros [balances active].
  repeat db_blind_step.
Qed.

Lemma db_blind_process_address E fuel d lo hi a st :
  db_blind (process_address E fuel d lo hi a st).
Proof.
  unfold process_address, fetch_account_transactions.
  apply db_blind_bind; [apply db_blind_fetch_pages|]. intros txs.
  apply db_blind_for_each. intros tx st'. apply db_blind_process_tx.
Qed.

Lemma db_blind_process_day E fuel d c : db_blind (process_day E fuel d c).
Proof.
  destruct c as [balances staged_in].
  intros w1 w2 H. rewrite !process_day_eq.
  pose proof H as (H1 & H2 & H3 & H4 & H5 & H6).
  rewrite H1, H6.
  match goal with
  | |- context [for_each ?body ?l ?st (set_effects ?t w1)] =>
      assert (Hl : db_blind (for_each body l st))
        by (apply db_blind_for_each; intros; apply db_blind_process_address);
      specialize (Hl (set_effects t w1) (set_effects t w2));
      destruct (for_each body l st (set_effects t w1)) as [r1 w1'];
      destruct (for_each body l st (set_effects t w2)) as [r2 w2']
  end.
  destruct Hl as [Hr Hw]; [unfold same_but_db; cbn; splits; congruence|].
  cbn in Hr, Hw. subst r2. destruct Hw as (G1 & G2 & G3 & G4 & G5 & G6).
  destruct r1 as [st|e|u]; cbn;
    (split; [reflexivity|]; unfold same_but_db; cbn; splits; congruence).
Qed.

Lemma db_blind_main E fuel : db_blind (main E fuel).
Proof.
  unfold main, connect_db, create_table_if_not_exists, load_checkpoint, run_days.
  apply db_blind_bind; [repeat db_blind_step|]. intros _.
  apply db_blind_bind;
    [apply db_blind_bind; [apply db_blind_emit | intros _; apply db_blind_commit]|].
  intros _.
  apply db_blind_bind; [repeat db_blind_step|]. intros s.
  do 8 (apply db_blind_bind; [apply db_blind_emit|]; intros _).
  apply db_blind_bind.
  { apply db_blind_for_each. intros off c. apply db_blind_process_day. }
  intros _.
  do 2 (apply db_blind_bind; [apply db_blind_emit|]; intros _).
  apply db_blind_bind; [apply db_blind_commit|]. intros _. apply db_blind_emit.
Qed.

(** C9.  Every run starts from the empty balance map and never reads the
    transfer table: started on the same checkpoint, two runs whose tables
    differ end the same way and perform the same effects, so they write the
    same balance, transfer-count, active-address and supply rows.  A run
    resumed at day 1 over a table that holds an earlier transfer of 100, and
    that observes no transfer itself, reports no balance and a supply of 0
    for each of its days. *)
Theorem reports_ignore_persisted_log :
  (forall E fuel checkpoint table1 table2,
     fst (main E fuel (initial_world checkpoint table1))
     = fst (main E fuel (initial_world checkpoint table2)) /\
     effects (snd (main E fuel (initial_world checkpoint table1)))
     = effects (snd (main E fuel (initial_world checkpoint table2))) /\
     forall f,
       csv_rows f (effects (snd (main E fuel (initial_world checkpoint table1))))
       = csv_rows f (effects (snd (main E fuel (initial_world checkpoint table2))))) /\
  (fst (main quiet_env 1 (initial_world (Some "1") [earlier_row])) = Ok tt /\
   csv_rows BALANCES_CSV
     (effects (snd (main quiet_env 1 (initial_world (Some "1") [earlier_row]))))
   = [[PyStr "day"; PyStr "address"; PyStr "balance"]] /\
   csv_rows CIRCULATING_SUPPLY_CSV
     (effects (snd (main quiet_env 1 (initial_world (Some "1") [earlier_row]))))
   = [PyStr "day"; PyStr "circulating_supply"]
       :: List.map (fun d => [PyInt d; PyInt 0]) (seqZ 1 368)).
Proof.
  split.
  - intros E fuel checkpoint table1 table2.
    destruct (db_blind_main E fuel (initial_world checkpoint table1)
                            (initial_world checkpoint table2)) as [Hr Hw].
    { unfold same_but_db. cbn. auto 10. }
    destruct Hw as (_ & _ & _ & _ & _ & He).
    splits; [exact Hr | exact He |]. intros f. now rewrite He.
  - vm_compute. splits; reflexivity.
Qed.

(* ===================================================================== *)
(** * Sample runs *)
(* ===================================================================== *)

Lemma py_eq_str_true v s : py_eq_str v s = true -> v = PyStr s.
Proof.
  destruct v; cbn; try discriminate. intros H. apply String.eqb_eq in H. now subst.
Qed.

Lemma mentions_onb_true t d a : mentions_onb t d a = true -> mentions_on t d a.
Proof.
  unfold mentions_onb. intros H. apply List.existsb_exists in H.
  destruct H as ([| |row| | | | | | | | |] & Hin & Hev); try discriminate.
  apply andb_true_iff in Hev. destruct Hev as [Hd Hm].
  apply Z.eqb_eq in Hd. exists row. splits; auto.
  unfold row_mentionsb in Hm. apply orb_true_iff in Hm.
  destruct Hm as [Hm|Hm]; apply py_eq_str_true in Hm; [now left | now right].
Qed.

Lemma queriedb_false t a d : queriedb t a d = false -> ~ queried t a d.
Proof.
  intros H (m & Hin).
  assert (Ht : queriedb t a d = true); [|congruence].
  apply List.existsb_exists. eexists. split; [exact Hin|].
  cbn. now rewrite String.eqb_refl, !Z.eqb_refl.
Qed.

(** C6, as stated, fails: an address discovered on day [d] is not queried on
    day [d + 1] when that day belongs to a later run.  The first run, from
    day 0, sees [rHolder] as the receiver of a transfer of its last day, 367,
    merges it into the watchlist and returns normally; the next run starts
    at day 368 with the issuer alone on the watchlist, completes, and
    neither run posts a request for [rHolder] over the window of day 368. *)
Lemma watchlist_lost_on_restart :
  fst (main late_env 1 (initial_world None [])) = Ok tt /\
  mentions_on (effects (snd (main late_env 1 (initial_world None [])))) 367 "rHolder" /\
  "rHolder" ∈ watchlist (snd (main late_env 1 (initial_world None []))) /\
  checkpoint_day (restart (snd (main late_env 1 (initial_world None [])))) = Ok 368 /\
  fst (main late_env 1 (restart (snd (main late_env 1 (initial_world None []))))) = Ok tt /\
  head (days_started
          (effects (snd (main late_env 1
                           (restart (snd (main late_env 1 (initial_world None [])))))))) = Some 368 /\
  ~ queried (effects (snd (main late_env 1 (initial_world None [])))) "rHolder" 368 /\
  ~ queried (effects (snd (main late_env 1
                             (restart (snd (main late_env 1 (initial_world None [])))))))
            "rHolder" 368.
Proof.
  splits.
  - vm_compute. reflexivity.
  - apply mentions_onb_true. vm_compute. reflexivity.
  - refine (bool_decide_unpack _ _). vm_compute. exact I.
  - vm_compute. reflexivity.
  - vm_compute. reflexivity.
  - vm_compute. reflexivity.
  - apply queriedb_false. vm_compute. reflexivity.
  - apply queriedb_false. vm_compute. reflexivity.
Qed.

Lemma env_wf_elements f n c r : env_wf (mk_env f n elements c r).
Proof. intros s. reflexivity. Qed.

Lemma watchlist_snapshot_witness :
  env_wf seed_env /\
  effects (initial_world None []) = [] /\
  checkpoint_day (initial_world None []) = Ok 0 /\
  mentions_on (effects (snd (main seed_env 2 (initial_world None [])))) (0 + 0) "rHolder" /\
  ~ queried (effects (snd (main seed_env 2 (initial_world None [])))) "rHolder" (0 + 0) /\
  queried (effects (snd (main seed_env 2 (initial_world None [])))) "rHolder" (0 + 1).
Proof.
  assert (Hwf : env_wf seed_env) by apply env_wf_elements.
  assert (Hm : mentions_on (effects (snd (main seed_env 2 (initial_world None []))))
                           (0 + 0) "rHolder")
    by (apply mentions_onb_true; vm_compute; reflexivity).
  assert (Hok : is_ok (fst (main seed_env 2 (initial_world None []))))
    by (vm_compute; exact I).
  pose proof (watchlist_snapshot seed_env 2 (initial_world None []) 0
                (fst (main seed_env 2 (initial_world None [])))
                (snd (main seed_env 2 (initial_world None [])))
                Hwf eq_refl eq_refl (surjective_pairing _)) as Hthm.
  revert Hm Hok Hthm. generalize (main seed_env 2 (initial_world None [])).
  intros out Hm Hok (Hsafe & Hlive & Hdone & _).
  split; [exact Hwf|]. split; [reflexivity|]. split; [reflexivity|].
  split; [exact Hm|]. split.
  - apply Hsafe; [|intros j Hj; lia].
    unfold initial_world; cbn [watchlist].
    rewrite elem_of_singleton. discriminate.
  - apply (Hlive 0 1 "rHolder"); [lia | exact Hm |].
    apply (proj1 (Hdone Hok)). unfold number_of_days. lia.
Defined.

Lemma fetch_stops_on_failure_witness :
  serves one_page_env (posts (initial_world None [])) ISSUER_ADDRESS 87570565 87593265
         PyNone [([payment "T1" ISSUER_ADDRESS "rHolder" "100" 87570570], PyStr "next")] /\
  (1 < 5)%nat /\
  exists w',
    fetch_account_transactions one_page_env 5 ISSUER_ADDRESS 87570565 87593265
                               (initial_world None [])
    = (Ok [payment "T1" ISSUER_ADDRESS "rHolder" "100" 87570570], w') /\
    posts w' = 2%nat.
Proof.
  assert (Hs : serves one_page_env (posts (initial_world None [])) ISSUER_ADDRESS
                      87570565 87593265 PyNone
                      [([payment "T1" ISSUER_ADDRESS "rHolder" "100" 87570570],
                        PyStr "next")]).
  { cbn. do 2 eexists. splits; try reflexivity.
    do 2 eexists. split; [reflexivity | discriminate]. }
  split; [exact Hs|]. split; [lia|].
  destruct (fetch_stops_on_failure one_page_env 5 ISSUER_ADDRESS 87570565 87593265
              _ (initial_world None []) Hs) as (w' & Heq & Hp & _); [cbn; lia|].
  exists w'. split; [exact Heq | exact Hp].
Defined.

Lemma commit_after_scan_witness :
  env_wf quiet_env /\
  commits (effects (snd (main quiet_env 1 (initial_world (Some "367") []))))
  = (commits (effects (initial_world (Some "367") [])) + 2)%nat.
Proof.
  assert (Hwf : env_wf quiet_env) by apply env_wf_elements.
  split; [exact Hwf|].
  assert (Hok : is_ok (fst (main quiet_env 1 (initial_world (Some "367") []))))
    by (vm_compute; exact I).
  pose proof (commit_after_scan quiet_env 1 Hwf) as [Hmain _].
  specialize (Hmain (initial_world (Some "367") [])
                    (fst (main quiet_env 1 (initial_world (Some "367") [])))
                    (snd (main quiet_env 1 (initial_world (Some "367") [])))
                    (surjective_pairing _)).
  revert Hok Hmain. generalize (main quiet_env 1 (initial_world (Some "367") [])).
  intros out Hok [Hdone _].
  specialize (Hdone Hok). destruct Hdone as (s & scan & _ & _ & _ & _ & Hc).
  exact Hc.
Defined.

(* ===================================================================== *)
(** * Ledger windows: every ledger has its day *)
(* ===================================================================== *)

(** X1.  Every ledger index lies in the half-open window of exactly one day,
    the day [(ledger - START_LEDGER) / LEDGERS_PER_DAY] (rounded down).  Read
    as closed intervals, the way the bounds are sent to the node as
    [ledger_index_min] and [ledger_index_max], the windows of two different
    days share a ledger only when the days are consecutive, and then only
    the boundary ledger. *)
Theorem ledger_in_one_window :
  (forall ledger d,
     fst (get_ledger_range_for_day d) <= ledger < snd (get_ledger_range_for_day d)
     <-> d = window_of_ledger ledger) /\
  (forall ledger d d',
     d < d' ->
     (fst (get_ledger_range_for_day d) <= ledger <= snd (get_ledger_range_for_day d) /\
      fst (get_ledger_range_for_day d') <= ledger <= snd (get_ledger_range_for_day d'))
     <-> (d' = d + 1 /\ ledger = snd (get_ledger_range_for_day d))).
Proof.
  unfold window_of_ledger, get_ledger_range_for_day, LEDGERS_PER_DAY, START_LEDGER.
  cbn [fst snd]. split.
  - intros ledger d. split.
    + intros H. apply (Z.div_unique_pos _ _ _ (ledger - 87570565 - d * 22700)); lia.
    + intros ->.
      pose proof (Z.div_mod (ledger - 87570565) 22700 ltac:(lia)) as Hdm.
      pose proof (Z.mod_pos_bound (ledger - 87570565) 22700 ltac:(lia)) as Hb.
      lia.
  - intros ledger d d' Hlt. split; intros H; lia.
Qed.

(* ===================================================================== *)
(** * Invariants: how they pass through a computation *)
(* ===================================================================== *)

Lemma preserves_ret {A} I (a : A) : preserves I (ret a).
Proof. intros w H. exact H. Qed.

Lemma preserves_lift {A} I (r : result A) : preserves I (lift r).
Proof. intros w H. exact H. Qed.

Lemma preserves_read {A} I (f : world -> A) : preserves I (read f).
Proof. intros w H. exact H. Qed.

Lemma preserves_bind {A B} I (m : M A) (k : A -> M B) :
  preserves I m -> (forall a, preserves I (k a)) -> preserves I (bind m k).
Proof.
  intros Hm Hk w H. unfold bind. specialize (Hm w H).
  destruct (m w) as [[a|e|u] w1]; cbn in Hm; [now apply Hk | exact Hm..].
Qed.

Lemma preserves_for_each {A S} I (body : A -> S -> M S) l :
  (forall x s, preserves I (body x s)) -> forall s, preserves I (for_each body l s).
Proof.
  intros Hb. induction l as [|x l IH]; intros s; cbn [for_each].
  - apply preserves_ret.
  - apply preserves_bind; auto.
Qed.

(** Walks through a computation, leaving the effects and updates to [leaf]. *)
Ltac preserves_with leaf :=
  repeat first
    [ progress cbv beta
    | match goal with
      | |- preserves _ (ret _) => apply preserves_ret
      | |- preserves _ (lift _) => apply preserves_lift
      | |- preserves _ (read _) => apply preserves_read
      | |- preserves _ (bind _ _) => apply preserves_bind; [|intros ?]
      | |- preserves _ (for_each _ _ _) => apply preserves_for_each; intros ? ?
      | |- preserves _ (if ?b then _ else _) => destruct b
      | |- preserves _ (match ?x with _ => _ end) => destruct x
      | |- preserves _ ((match ?x with _ => _ end) _) => destruct x
      end
    | leaf ].

(* ===================================================================== *)
(** * The response log: rotation *)
(* ===================================================================== *)

Lemma log_indices_cons ev t :
  log_indices (ev :: t) =
  (log_indices t ++ match log_index ev with Some i => [i] | None => [] end)%list.
Proof.
  unfold log_indices. cbn [rev]. rewrite omap_app. cbn.
  destruct (log_index ev); reflexivity.
Qed.

Lemma log_wf_emit ev : log_index ev = None -> preserves log_wf (emit ev).
Proof.
  intros Hev w (Hc & Hi & Hl). unfold emit, log_wf, logged_total in *.
  cbn [snd set_effects effects api_call_count log_file_index].
  rewrite log_indices_cons, Hev, List.app_nil_r. auto.
Qed.

Lemma log_wf_modify (f : world -> world) :
  (forall w, api_call_count (f w) = api_call_count w /\
             log_file_index (f w) = log_file_index w /\
             effects (f w) = effects w) ->
  preserves log_wf (modify f).
Proof.
  intros Hf w (Hc & Hi & Hl). destruct (Hf w) as (H1 & H2 & H3).
  unfold modify, log_wf, logged_total in *. cbn [snd]. rewrite H1, H2, H3. auto.
Qed.

Lemma log_wf_safe_post E payload : preserves log_wf (safe_post E payload).
Proof.
  intros w (Hc & Hi & Hl).
  unfold safe_post, bind, read, emit, modify, lift, ret; cbn -[log_indices Z.mul].
  destruct (net E (posts w) payload) as [status body|]; cbn -[log_indices Z.mul].
  - destruct (status =? 200); cbn -[log_indices Z.mul].
    + destruct body as [data|]; cbn -[log_indices Z.mul].
      * assert (Hnext : log_indices (EvLog (log_file_index w) data
                                       :: EvPost payload :: effects w)
                        = List.map (fun k => k / 1000) (seqZ 0 (logged_total w + 1))).
        { rewrite !log_indices_cons. cbn [log_index]. rewrite List.app_nil_r, Hl.
          unfold logged_total in *.
          rewrite (seqZ_app 0 _ 1) by lia. rewrite List.map_app. f_equal.
          match goal with |- _ = List.map _ (seqZ (0 + ?x) 1) =>
            change (seqZ (0 + x) 1) with [x] end.
          cbn [List.map]. f_equal.
          apply (Z.div_unique_pos _ _ _ (api_call_count w)); lia. }
        destruct (Z.leb_spec 1000 (api_call_count w + 1)); cbn -[log_indices Z.mul];
          unfold log_wf, logged_total in *; cbn -[log_indices Z.mul]; splits; try lia.
        -- rewrite Hnext. do 2 f_equal. lia.
        -- rewrite Hnext. do 2 f_equal. lia.
      * unfold log_wf, logged_total in *; cbn -[log_indices Z.mul].
        rewrite !log_indices_cons. cbn [log_index]. rewrite List.app_nil_r. auto.
    + unfold log_wf, logged_total in *; cbn -[log_indices Z.mul].
      rewrite !log_indices_cons. cbn [log_index]. rewrite !List.app_nil_r. auto.
  - unfold log_wf, logged_total in *; cbn -[log_indices Z.mul].
    rewrite !log_indices_cons. cbn [log_index]. rewrite List.app_nil_r. auto.
Qed.

Ltac log_wf_leaf :=
  idtac;
  match goal with
  | |- preserves _ (safe_post _ _) => apply log_wf_safe_post
  | |- preserves _ (emit _) => apply log_wf_emit; reflexivity
  | |- preserves _ (modify _) => apply log_wf_modify; intros ?; cbn; auto
  end.

Lemma log_wf_fetch_pages E fuel a lo hi :
  forall acc mk, preserves log_wf (fetch_pages E fuel a lo hi acc mk).
Proof.
  induction fuel as [|fuel IH]; intros acc mk; cbn [fetch_pages].
  - apply preserves_lift.
  - apply preserves_bind; [apply log_wf_safe_post|]. intros data.
    preserves_with log_wf_leaf. apply IH.
Qed.

Lemma log_wf_main E fuel : preserves log_wf (main E fuel).
Proof.
  unfold main, connect_db, create_table_if_not_exists, commit, load_checkpoint,
    run_days, process_day, save_checkpoint, save_transfer_count,
    save_balances_to_csv, process_address, fetch_account_transactions,
    process_tx, insert_transfer, execute_insert.
  preserves_with ltac:(idtac; first [apply log_wf_fetch_pages | log_wf_leaf]).
Qed.

Lemma log_wf_initial checkpoint table : log_wf (initial_world checkpoint table).
Proof. unfold log_wf, logged_total. cbn. splits; (lia || reflexivity). Qed.

Lemma safe_post_logged E payload w data :
  net E (posts w) payload = HttpResponse 200 (Some data) ->
  0 <= api_call_count w < 1000 ->
  log_indices (effects (snd (safe_post E payload w)))
  = (log_indices (effects w) ++ [log_file_index w])%list /\
  logged_total (snd (safe_post E payload w)) = logged_total w + 1 /\
  (api_call_count w = 999 ->
   api_call_count (snd (safe_post E payload w)) = 0 /\
   log_file_index (snd (safe_post E payload w)) = log_file_index w + 1) /\
  (api_call_count w < 999 ->
   api_call_count (snd (safe_post E payload w)) = api_call_count w + 1 /\
   log_file_index (snd (safe_post E payload w)) = log_file_index w).
Proof.
  intros Hnet Hc.
  unfold safe_post, bind, read, emit, modify, lift, ret; cbn -[log_indices Z.mul].
  rewrite Hnet; cbn -[log_indices Z.mul].
  destruct (Z.leb_spec 1000 (api_call_count w + 1)); cbn -[log_indices Z.mul];
    unfold logged_total; cbn -[log_indices Z.mul];
    rewrite !log_indices_cons; cbn [log_index]; rewrite List.app_nil_r;
    splits; first [reflexivity | lia].
Qed.

Lemma safe_post_not_logged E payload w :
  (forall data, net E (posts w) payload <> HttpResponse 200 (Some data)) ->
  log_indices (effects (snd (safe_post E payload w))) = log_indices (effects w) /\
  api_call_count (snd (safe_post E payload w)) = api_call_count w /\
  log_file_index (snd (safe_post E payload w)) = log_file_index w.
Proof.
  intros Hnet.
  unfold safe_post, bind, read, emit, modify, lift, ret; cbn -[log_indices].
  destruct (net E (posts w) payload) as [status body|]; cbn -[log_indices].
  - destruct (Z.eqb_spec status 200) as [->|Hne]; cbn -[log_indices].
    + destruct body as [data|]; [now destruct (Hnet data)|]. cbn -[log_indices].
      rewrite !log_indices_cons. cbn [log_index]. now rewrite List.app_nil_r.
    + rewrite !log_indices_cons. cbn [log_index]. now rewrite !List.app_nil_r.
  - rewrite !log_indices_cons. cbn [log_index]. now rewrite List.app_nil_r.
Qed.

(** X2.  Log rotation.  When the counters are in range and the responses
    logged so far went to the files their rank gives, the same holds after a
    run of [main], however it ends: the [k]-th response logged (counting
    from 0) went to file [k / 1000], so a log file is left only after it has
    received 1000 responses, the counter stays within [0, 1000), and the two
    counters together count the responses logged.  Request by request: a 200
    response with a JSON body is appended to the current log file and
    counted, and the file index moves on exactly when that was the 1000th
    response of the file; any other outcome (a transport failure, another
    status, a body that is not JSON) is not logged and moves neither
    counter. *)
Theorem log_rotation E fuel w :
  log_wf w ->
  (log_wf (snd (main E fuel w)) /\
   (forall (k : nat) i,
      log_indices (effects (snd (main E fuel w))) !! k = Some i ->
      i = Z.of_nat k / 1000) /\
   Z.of_nat (length (log_indices (effects (snd (main E fuel w)))))
   = logged_total (snd (main E fuel w))) /\
  (forall payload w0 data,
     net E (posts w0) payload = HttpResponse 200 (Some data) ->
     0 <= api_call_count w0 < 1000 ->
     log_indices (effects (snd (safe_post E payload w0)))
     = (log_indices (effects w0) ++ [log_file_index w0])%list /\
     logged_total (snd (safe_post E payload w0)) = logged_total w0 + 1 /\
     (api_call_count w0 = 999 ->
      api_call_count (snd (safe_post E payload w0)) = 0 /\
      log_file_index (snd (safe_post E payload w0)) = log_file_index w0 + 1) /\
     (api_call_count w0 < 999 ->
      api_call_count (snd (safe_post E payload w0)) = api_call_count w0 + 1 /\
      log_file_index (snd (safe_post E payload w0)) = log_file_index w0)) /\
  (forall payload w0,
     (forall data, net E (posts w0) payload <> HttpResponse 200 (Some data)) ->
     log_indices (effects (snd (safe_post E payload w0))) = log_indices (effects w0) /\
     api_call_count (snd (safe_post E payload w0)) = api_call_count w0 /\
     log_file_index (snd (safe_post E payload w0)) = log_file_index w0).
Proof.
  intros H. split; [|split; [apply safe_post_logged | apply safe_post_not_logged]].
  pose proof (log_wf_main E fuel w H) as Hwf.
  generalize dependent (snd (main E fuel w)). intros w' (Hc & Hi & Hl).
  split; [now unfold log_wf|]. rewrite Hl. split.
  - intros k i Hk. rewrite list_lookup_fmap in Hk.
    destruct (seqZ 0 (logged_total w') !! k) as [j|] eqn:Hj; [|discriminate].
    apply lookup_seqZ in Hj. cbn in Hk. injection Hk as <-. f_equal. lia.
  - rewrite length_map, length_seqZ. unfold logged_total. lia.
Qed.

Lemma log_rotation_witness :
  log_wf (initial_world None []) /\
  log_wf (snd (main fanout_env 1 (initial_world None []))) /\
  Z.of_nat (length (log_indices (effects (snd (main fanout_env 1 (initial_world None []))))))
  = 1102 /\
  log_indices (effects (snd (main fanout_env 1 (initial_world None [])))) !! 999%nat
  = Some 0 /\
  log_indices (effects (snd (main fanout_env 1 (initial_world None [])))) !! 1000%nat
  = Some 1 /\
  log_file_index (snd (main fanout_env 1 (initial_world None []))) = 1 /\
  api_call_count (snd (main fanout_env 1 (initial_world None []))) = 102.
Proof.
  split; [apply log_wf_initial|].
  split; [exact (proj1 (proj1 (log_rotation fanout_env 1 (initial_world None [])
                                 (log_wf_initial None [])))) |].
  splits; vm_compute; reflexivity.
Defined.

(* ===================================================================== *)
(** * Paginated query client: following the markers *)
(* ===================================================================== *)

Lemma posted_cons ev t :
  posted (ev :: t) =
  (posted t ++ match post_request ev with Some r => [r] | None => [] end)%list.
Proof.
  unfold posted. cbn [rev]. rewrite omap_app. cbn.
  destruct (post_request ev); reflexivity.
Qed.

Lemma truthy_dict_get k (d : list (string * pyval)) v :
  Dict.get k d = Some v -> truthy (PyDict d) = true.
Proof. destruct d; [discriminate | reflexivity]. Qed.

Lemma fetch_pages_paginates E a lo hi pages :
  forall fuel acc mk w,
    paginates E (posts w) a lo hi mk pages ->
    (length pages <= fuel)%nat ->
    exists w',
      fetch_pages E fuel a lo hi acc mk w
      = (Ok (acc ++ concat (List.map fst pages))%list, w') /\
      posts w' = (posts w + length pages)%nat /\
      posted (effects w')
      = (posted (effects w) ++ List.map (mk_request a lo hi) (markers_sent mk pages))%list /\
      S (pauses (effects w')) = (pauses (effects w) + length pages)%nat.
Proof.
  induction pages as [|[txs next] rest IH]; intros fuel acc mk w Hs Hfuel.
  { destruct Hs. }
  destruct fuel as [|fuel]; [cbn in Hfuel; lia|].
  cbn [paginates] in Hs.
  destruct Hs as (data & res & Hnet & Hres & Htxs & Hmk & Hrest).
  cbn [fetch_pages]. unfold bind at 1.
  destruct (safe_post_success _ _ _ _ Hnet) as (w1 & -> & Hposts & Heff).
  rewrite (truthy_dict_get _ _ _ Hres). cbn [negb].
  unfold bind at 1, lift at 1. cbn [py_get]. unfold Dict.get_default in *. rewrite Hres.
  unfold bind at 1, lift at 1. cbn [py_get]. unfold Dict.get_default. rewrite Htxs.
  unfold bind at 1, lift at 1. cbn [py_iter].
  unfold bind at 1, lift at 1. cbn [py_get]. unfold Dict.get_default. rewrite Hmk.
  destruct rest as [|p rest].
  - rewrite Hrest. cbn [negb]. eexists. split.
    { unfold ret. cbn [List.map fst concat]. now rewrite List.app_nil_r. }
    cbn [length]. rewrite Hposts, Heff.
    unfold markers_sent, pauses. cbn [removelast List.map List.filter is_pause length].
    rewrite !posted_cons. cbn [post_request]. rewrite List.app_nil_r.
    splits; first [lia | reflexivity].
  - destruct Hrest as [Htruthy Hrest]. rewrite Htruthy. cbn [negb].
    unfold bind at 1, emit at 1.
    set (w2 := set_effects (EvSleep 500 :: effects w1) w1).
    assert (Hs2 : paginates E (posts w2) a lo hi next (p :: rest)).
    { subst w2. cbn [posts set_effects]. rewrite Hposts. exact Hrest. }
    destruct (IH fuel (acc ++ txs)%list next w2 Hs2) as (w' & Heq & Hp & Hq & Hz).
    { cbn [length] in *. lia. }
    exists w'. split.
    { rewrite Heq. cbn [List.map fst concat]. now rewrite <- List.app_assoc. }
    subst w2. cbn [posts set_effects effects] in Hp, Hq, Hz.
    rewrite Hp, Hq, Hposts.
    rewrite Heff in *. rewrite !posted_cons. cbn [post_request].
    rewrite List.app_nil_r.
    unfold pauses in *. cbn [List.filter is_pause length] in Hz.
    unfold markers_sent. rewrite Htruthy.
    change (removelast ((txs, next) :: p :: rest))
      with ((txs, next) :: removelast (p :: rest)).
    cbn [List.map snd length]. rewrite <- !List.app_assoc. cbn [app].
    splits; first [lia | reflexivity].
Qed.

(** X3.  Pagination.  When the node serves a query as a sequence of pages,
    each but the last carrying a continuation marker, the fetch returns the
    records of all the pages in order, after exactly one request per page:
    the first request carries no marker, each later one carries the marker
    of the page before it, and the fetch pauses once between two requests. *)
Theorem fetch_follows_markers E fuel a lo hi pages w :
  paginates E (posts w) a lo hi PyNone pages ->
  (length pages <= fuel)%nat ->
  exists w',
    fetch_account_transactions E fuel a lo hi w
    = (Ok (concat (List.map fst pages)), w') /\
    posts w' = (posts w + length pages)%nat /\
    posted (effects w')
    = (posted (effects w)
       ++ List.map (mk_request a lo hi)
            (None :: List.map (fun p => Some (snd p)) (removelast pages)))%list /\
    S (pauses (effects w')) = (pauses (effects w) + length pages)%nat.
Proof.
  intros Hs Hfuel. unfold fetch_account_transactions.
  destruct (fetch_pages_paginates E a lo hi pages fuel [] PyNone w Hs Hfuel)
    as (w' & Heq & Hp & Hq & Hz).
  exists w'. rewrite Heq. splits; auto.
Qed.

Lemma fetch_follows_markers_witness :
  paginates two_page_env (posts (initial_world None [])) ISSUER_ADDRESS 87570565 87593265
            PyNone
            [([payment "T1" ISSUER_ADDRESS "rHolder" "100" 87570570], PyStr "next");
             ([payment "T2" "rHolder" ISSUER_ADDRESS "40" 87570580], PyNone)] /\
  (2 <= 2)%nat /\
  exists w',
    fetch_account_transactions two_page_env 2 ISSUER_ADDRESS 87570565 87593265
                               (initial_world None [])
    = (Ok [payment "T1" ISSUER_ADDRESS "rHolder" "100" 87570570;
           payment "T2" "rHolder" ISSUER_ADDRESS "40" 87570580], w') /\
    posted (effects w')
    = [mk_request ISSUER_ADDRESS 87570565 87593265 None;
       mk_request ISSUER_ADDRESS 87570565 87593265 (Some (PyStr "next"))].
Proof.
  assert (Hs : paginates two_page_env (posts (initial_world None [])) ISSUER_ADDRESS
                 87570565 87593265 PyNone
                 [([payment "T1" ISSUER_ADDRESS "rHolder" "100" 87570570], PyStr "next");
                  ([payment "T2" "rHolder" ISSUER_ADDRESS "40" 87570580], PyNone)]).
  { cbn. do 2 eexists. splits; try reflexivity.
    do 2 eexists. splits; reflexivity. }
  split; [exact Hs|]. split; [lia|].
  destruct (fetch_follows_markers two_page_env 2 ISSUER_ADDRESS 87570565 87593265
              _ (initial_world None []) Hs) as (w' & Heq & _ & Hq & _); [cbn; lia|].
  exists w'. split; [exact Heq | exact Hq].
Defined.

(** X4.  No page limit.  Against a node whose every page announces another
    one, the fetch never ends by itself: whatever bound is put on the number
    of iterations, it posts that many requests and has still not returned. *)
Theorem fetch_has_no_page_limit E a lo hi :
  always_more E a lo hi ->
  forall fuel w,
    exists w',
      fetch_account_transactions E fuel a lo hi w = (Undef OutOfFuel, w') /\
      posts w' = (posts w + fuel)%nat /\
      length (posted (effects w')) = (length (posted (effects w)) + fuel)%nat.
Proof.
  intros Hmore fuel. unfold fetch_account_transactions.
  generalize (@nil pyval) as acc. generalize PyNone as mk.
  induction fuel as [|fuel IH]; intros mk acc w.
  - exists w. cbn [fetch_pages]. unfold lift. splits; [reflexivity | lia | lia].
  - destruct (Hmore (posts w) (if truthy mk then Some mk else None))
      as (data & res & txs & next & Hnet & Hres & Htxs & Hmk & Htruthy).
    cbn [fetch_pages]. unfold bind at 1.
    destruct (safe_post_success _ _ _ _ Hnet) as (w1 & -> & Hposts & Heff).
    rewrite (truthy_dict_get _ _ _ Hres). cbn [negb].
    unfold bind at 1, lift at 1. cbn [py_get]. unfold Dict.get_default. rewrite Hres.
    unfold bind at 1, lift at 1. cbn [py_get]. unfold Dict.get_default. rewrite Htxs.
    unfold bind at 1, lift at 1. cbn [py_iter].
    unfold bind at 1, lift at 1. cbn [py_get]. unfold Dict.get_default. rewrite Hmk.
    rewrite Htruthy. cbn [negb]. unfold bind at 1, emit at 1.
    destruct (IH next (acc ++ txs)%list (set_effects (EvSleep 500 :: effects w1) w1))
      as (w' & Heq & Hp & Hq).
    exists w'. split; [exact Heq|].
    cbn [posts set_effects effects] in Hp, Hq. rewrite Hp, Hq, Hposts, Heff.
    rewrite !posted_cons. cbn [post_request]. rewrite !List.app_nil_r, !length_app.
    cbn [length]. split; lia.
Qed.

Lemma fetch_has_no_page_limit_witness :
  always_more looping_env ISSUER_ADDRESS 87570565 87593265 /\
  exists w',
    fetch_account_transactions looping_env 50 ISSUER_ADDRESS 87570565 87593265
                               (initial_world None [])
    = (Undef OutOfFuel, w') /\
    posts w' = 50%nat.
Proof.
  assert (H : always_more looping_env ISSUER_ADDRESS 87570565 87593265).
  { intros n mk. cbn. do 4 eexists. splits; reflexivity. }
  split; [exact H|].
  destruct (fetch_has_no_page_limit looping_env ISSUER_ADDRESS 87570565 87593265 H
              50%nat (initial_world None [])) as (w' & Heq & Hp & _).
  exists w'. split; [exact Heq | exact Hp].
Defined.

(* ===================================================================== *)
(** * Paginated query client: responses that lack fields *)
(* ===================================================================== *)

Lemma fetch_first_response E fuel a lo hi w data :
  net E (posts w) (mk_request a lo hi None) = HttpResponse 200 (Some data) ->
  exists w1,
    posts w1 = S (posts w) /\
    fetch_account_transactions E (S fuel) a lo hi w =
    (if negb (truthy data) then ret []
     else
       let* result := lift (py_get data "result" (PyDict [])) in
       let* transactions := lift (py_get result "transactions" (PyList [])) in
       let* items := lift (py_iter transactions) in
       let* marker := lift (py_get result "marker" PyNone) in
       if negb (truthy marker) then ret items
       else emit (EvSleep 500) ;;; fetch_pages E fuel a lo hi items marker) w1.
Proof.
  intros Hnet. unfold fetch_account_transactions. cbn [fetch_pages truthy].
  unfold bind at 1.
  destruct (safe_post_success _ _ _ _ Hnet) as (w1 & -> & Hposts & _).
  exists w1. split; [exact Hposts | reflexivity].
Qed.

(** X5.  Missing fields.  A 200 response whose JSON is falsy (for instance
    [{}] or [null]), or an object without ["result"], or whose result has no
    ["transactions"] and no truthy ["marker"], ends the fetch normally with
    no record, after that single request. *)
Theorem fetch_tolerates_missing_fields E fuel a lo hi w data :
  net E (posts w) (mk_request a lo hi None) = HttpResponse 200 (Some data) ->
  (truthy data = false \/
   exists d, data = PyDict d /\
     (Dict.get "result" d = None \/
      exists res, Dict.get "result" d = Some (PyDict res) /\
                  Dict.get "transactions" res = None /\
                  truthy (Dict.get_default "marker" PyNone res) = false)) ->
  exists w',
    fetch_account_transactions E (S fuel) a lo hi w = (Ok [], w') /\
    posts w' = S (posts w).
Proof.
  intros Hnet Hcase.
  destruct (fetch_first_response E fuel a lo hi w data Hnet) as (w1 & Hposts & ->).
  exists w1. split; [|exact Hposts].
  destruct Hcase as [Hfalsy | (d & -> & Hd)].
  - rewrite Hfalsy. reflexivity.
  - destruct (truthy (PyDict d)) eqn:Ht; [|reflexivity]. cbn [negb].
    unfold bind, lift. cbn [py_get]. unfold Dict.get_default in *.
    destruct Hd as [Hres | (res & Hres & Htxs & Hmk)]; rewrite Hres.
    + reflexivity.
    + cbn [py_get]. unfold Dict.get_default. rewrite Htxs. cbn [py_iter py_get].
      unfold Dict.get_default. rewrite Hmk. reflexivity.
Qed.

Lemma fetch_tolerates_missing_fields_witness :
  net (constant_env 200 (Some (PyDict [("status", PyStr "error")])))
      (posts (initial_world None [])) (mk_request ISSUER_ADDRESS 87570565 87593265 None)
  = HttpResponse 200 (Some (PyDict [("status", PyStr "error")])) /\
  exists w',
    fetch_account_transactions (constant_env 200 (Some (PyDict [("status", PyStr "error")])))
                               1 ISSUER_ADDRESS 87570565 87593265 (initial_world None [])
    = (Ok [], w') /\
    posts w' = 1%nat.
Proof.
  split; [reflexivity|].
  apply (fetch_tolerates_missing_fields
           (constant_env 200 (Some (PyDict [("status", PyStr "error")])))
           0 ISSUER_ADDRESS 87570565 87593265 (initial_world None [])
           (PyDict [("status", PyStr "error")]) eq_refl).
  right. eexists. split; [reflexivity|]. left. reflexivity.
Defined.

(** X6.  Malformed responses.  The fetch catches nothing: a transport
    failure raises [ConnectionError] and a 200 response whose body is not
    JSON raises [JSONDecodeError]; a truthy JSON body that is not an object,
    or whose ["result"] is not an object, raises [AttributeError]; a
    ["transactions"] member that cannot be iterated (for instance [null])
    raises [TypeError]. *)
Theorem fetch_raises_on_malformed E fuel a lo hi w :
  (net E (posts w) (mk_request a lo hi None) = HttpFailure ->
   fst (fetch_account_transactions E (S fuel) a lo hi w) = Raise ConnectionError) /\
  (net E (posts w) (mk_request a lo hi None) = HttpResponse 200 None ->
   fst (fetch_account_transactions E (S fuel) a lo hi w) = Raise JSONDecodeError) /\
  (forall data,
     net E (posts w) (mk_request a lo hi None) = HttpResponse 200 (Some data) ->
     truthy data = true ->
     (is_dict data = false ->
      fst (fetch_account_transactions E (S fuel) a lo hi w) = Raise AttributeError) /\
     (forall d v,
        data = PyDict d -> Dict.get "result" d = Some v -> is_dict v = false ->
        fst (fetch_account_transactions E (S fuel) a lo hi w) = Raise AttributeError) /\
     (forall d res v,
        data = PyDict d -> Dict.get "result" d = Some (PyDict res) ->
        Dict.get "transactions" res = Some v -> py_iter v = Raise TypeError ->
        fst (fetch_account_transactions E (S fuel) a lo hi w) = Raise TypeError)).
Proof.
  splits.
  - intros Hnet. unfold fetch_account_transactions. cbn [fetch_pages truthy].
    unfold bind at 1, safe_post, bind, read, emit, modify, lift. cbn.
    rewrite Hnet. reflexivity.
  - intros Hnet. unfold fetch_account_transactions. cbn [fetch_pages truthy].
    unfold bind at 1, safe_post, bind, read, emit, modify, lift. cbn.
    rewrite Hnet. reflexivity.
  - intros data Hnet Ht.
    destruct (fetch_first_response E fuel a lo hi w data Hnet) as (w1 & Hposts & ->).
    rewrite Ht. cbn [negb]. splits.
    + intros Hd. destruct data; try discriminate Hd; reflexivity.
    + intros d v -> Hres Hv. unfold bind, lift. cbn [py_get].
      unfold Dict.get_default. rewrite Hres.
      destruct v; try discriminate Hv; reflexivity.
    + intros d res v -> Hres Htxs Hv. unfold bind, lift. cbn [py_get].
      unfold Dict.get_default. rewrite Hres. cbn [py_get].
      unfold Dict.get_default. rewrite Htxs, Hv. reflexivity.
Qed.

(* ===================================================================== *)
(** * Payment filter: what it reads *)
(* ===================================================================== *)

(** X7.  The filter reads the transaction type and the amount of a record
    and nothing else: two records that agree on these two members get the
    same answer, whatever their other members say (the validation flag and
    the metadata with the transaction result are never consulted). *)
Theorem filter_reads_type_and_amount (tx1 tx2 : pyval) :
  record_shaped tx1 -> record_shaped tx2 ->
  tx_field tx1 "TransactionType" = tx_field tx2 "TransactionType" ->
  tx_field tx1 "Amount" = tx_field tx2 "Amount" ->
  is_pft_payment tx1 = is_pft_payment tx2.
Proof.
  intros (d1 & -> & H1) (d2 & -> & H2) Hty Ham.
  unfold tx_field, tx_body in Hty, Ham.
  assert (Hnone : forall body,
            Dict.get "TransactionType" body = None -> body_qualifies body = false).
  { intros body Hb. unfold body_qualifies, Dict.get_default. now rewrite Hb. }
  destruct H1 as [H1|(b1 & H1)], H2 as [H2|(b2 & H2)]; rewrite H1, H2 in Hty, Ham.
  - now rewrite !filter_without_body.
  - rewrite filter_without_body, (filter_on_body _ _ H2) by assumption.
    now rewrite Hnone.
  - rewrite (filter_on_body _ _ H1), filter_without_body by assumption.
    now rewrite Hnone.
  - rewrite (filter_on_body _ _ H1), (filter_on_body _ _ H2).
    unfold body_qualifies, Dict.get_default. now rewrite Hty, Ham.
Qed.

Lemma filter_reads_type_and_amount_witness :
  is_pft_payment
    (PyDict [("tx", PyDict [("TransactionType", PyStr "Payment");
                            ("Amount", PyDict [("currency", PyStr PFT_CURRENCY_CODE);
                                               ("issuer", PyStr ISSUER_ADDRESS);
                                               ("value", PyStr "5")])]);
             ("meta", PyDict [("TransactionResult", PyStr "tecPATH_DRY")]);
             ("validated", PyBool false)])
  = is_pft_payment
      (PyDict [("tx", PyDict [("Amount", PyDict [("currency", PyStr PFT_CURRENCY_CODE);
                                                 ("issuer", PyStr ISSUER_ADDRESS);
                                                 ("value", PyStr "5")]);
                              ("TransactionType", PyStr "Payment");
                              ("hash", PyStr "T9")]);
               ("meta", PyDict [("TransactionResult", PyStr "tesSUCCESS")]);
               ("validated", PyBool true)]).
Proof.
  apply filter_reads_type_and_amount.
  - eexists. split; [reflexivity|]. right. eexists. reflexivity.
  - eexists. split; [reflexivity|]. right. eexists. reflexivity.
  - reflexivity.
  - reflexivity.
Defined.

(* ===================================================================== *)
(** * Balance ledger: the keys of the map *)
(* ===================================================================== *)

Lemma set_keys_present {V} k (v : V) d :
  In k (List.map fst d) -> List.map fst (Dict.set k v d) = List.map fst d.
Proof.
  induction d as [|[k' v'] d IH]; cbn; [now intros []|].
  intros Hin. destruct (String.eqb_spec k k') as [->|Hne]; cbn; [reflexivity|].
  f_equal. apply IH. destruct Hin; congruence.
Qed.

Lemma set_keys_absent {V} k (v : V) d :
  ~ In k (List.map fst d) -> List.map fst (Dict.set k v d) = (List.map fst d ++ [k])%list.
Proof.
  induction d as [|[k' v'] d IH]; cbn; [reflexivity|].
  intros Hin. destruct (String.eqb_spec k k') as [->|Hne]; cbn; [tauto|].
  f_equal. apply IH. tauto.
Qed.

Lemma set_keys {V} k (v : V) d :
  exists fresh,
    List.map fst (Dict.set k v d) = (List.map fst d ++ fresh)%list /\
    (fresh = [] \/ fresh = [k]) /\
    (NoDup (List.map fst d) -> NoDup (List.map fst (Dict.set k v d))).
Proof.
  destruct (in_dec string_dec k (List.map fst d)) as [Hin|Hout].
  - exists []. rewrite (set_keys_present _ _ _ Hin), List.app_nil_r. auto.
  - exists [k]. rewrite (set_keys_absent _ _ _ Hout). splits; auto.
    intros Hnd. apply NoDup_app. splits; auto.
    + intros x Hx Hk. apply list_elem_of_In in Hx. apply list_elem_of_In in Hk.
      destruct Hk as [<-|[]]. tauto.
    + apply NoDup_singleton.
Qed.

(** X8.  The update never removes or reorders an entry of the balance map:
    the keys after it are the keys before it, followed by the sender and the
    receiver when they are new (at most two keys); keys that were distinct
    stay distinct, and the set of active addresses only grows. *)
Theorem update_balances_keeps_keys E balances tx active balances' active' :
  update_balances E balances tx active = Ok (balances', active') ->
  exists fresh,
    balance_keys balances' = (balance_keys balances ++ fresh)%list /\
    (length fresh <= 2)%nat /\
    (forall k, In k fresh ->
       tx_field tx "Account" = Some (PyStr k) \/
       tx_field tx "Destination" = Some (PyStr k)) /\
    (NoDup (balance_keys balances) -> NoDup (balance_keys balances')) /\
    active ⊆ active'.
Proof.
  intros Hup.
  destruct (update_balances_inv _ _ _ _ _ _ Hup) as (s & r & v & a & Hs & Hr & Hv & Ha).
  rewrite (update_balances_ok E balances tx active s r v a Hs Hr Hv Ha) in Hup.
  injection Hup as <- <-. unfold transfer, balance_keys.
  set (b1 := Dict.set s _ balances).
  destruct (set_keys s (balance_of balances s - a)%float balances)
    as (f1 & Hk1 & Hf1 & Hn1). fold b1 in Hk1, Hn1.
  destruct (set_keys r (balance_of b1 r + a)%float b1) as (f2 & Hk2 & Hf2 & Hn2).
  exists (f1 ++ f2)%list. splits.
  - rewrite Hk2, Hk1. now rewrite List.app_assoc.
  - rewrite length_app. destruct Hf1 as [->| ->], Hf2 as [->| ->]; cbn; lia.
  - intros k Hin. apply in_app_or in Hin.
    destruct Hin as [Hin|Hin]; [destruct Hf1 as [->| ->] | destruct Hf2 as [->| ->]];
      cbn in Hin; intuition (subst; auto).
  - auto.
  - intros x Hx. rewrite !elem_of_union. auto.
Qed.

Lemma update_balances_keeps_keys_witness :
  update_balances quiet_env [("A", 5%float)] (payment "T1" "A" "B" "10" 87570566) ∅
  = Ok (transfer [("A", 5%float)] "A" "B" 10%float, {[ "A" ]} ∪ {[ "B" ]}) /\
  exists fresh,
    balance_keys (transfer [("A", 5%float)] "A" "B" 10%float)
    = (balance_keys [("A", 5%float)] ++ fresh)%list /\
    (length fresh <= 2)%nat.
Proof.
  assert (H : update_balances quiet_env [("A", 5%float)]
                (payment "T1" "A" "B" "10" 87570566) ∅
              = Ok (transfer [("A", 5%float)] "A" "B" 10%float, {[ "A" ]} ∪ {[ "B" ]})).
  { rewrite (update_balances_ok quiet_env _ _ _ "A" "B" (PyStr "10") 10%float);
      reflexivity. }
  split; [exact H|].
  destruct (update_balances_keeps_keys quiet_env _ _ _ _ _ H) as (fresh & Hk & Hl & _).
  exists fresh. split; [exact Hk | exact Hl].
Defined.

(* ===================================================================== *)
(** * Relational sink: what an insert does *)
(* ===================================================================== *)

Lemma py_float_defined E v u : py_float E v <> Undef u.
Proof.
  destruct v as [| |z| |s| |]; cbn; try discriminate.
  - unfold float_of_Z. destruct (is_infinity _); discriminate.
  - destruct (float_of_str E s); discriminate.
Qed.

Lemma insert_transfer_cases E tx d w :
  (insertable E tx /\
   exists row, row_of E tx d row /\ insert_transfer E tx d w = execute_insert E row w) \/
  (~ insertable E tx /\ exists e, insert_transfer E tx d w = (Raise e, w)).
Proof.
  unfold insertable, row_of, insert_transfer, amount_field, tx_field, tx_body.
  unfold bind, lift.
  destruct tx as [| | | | | |dd];
    try (right; split; [intros (_ & H & _); congruence | eexists; reflexivity]).
  cbn [py_getitem].
  destruct (Dict.get "tx" dd) as [tx_data|];
    [|right; split; [intros (_ & H & _); congruence | eexists; reflexivity]].
  destruct tx_data as [| | | | | |body];
    try (right; split; [intros (_ & H & _); congruence | eexists; reflexivity]).
  cbn [py_getitem].
  destruct (Dict.get "Amount" body) as [am|];
    [|right; split; [intros ((v & a & H & _) & _); congruence | eexists; reflexivity]].
  destruct am as [| | | | | |am];
    try (right; split; [intros ((v & a & H & _) & _); congruence | eexists; reflexivity]).
  cbn [py_getitem].
  destruct (Dict.get "value" am) as [v|];
    [|right; split; [intros ((v & a & H & _) & _); congruence | eexists; reflexivity]].
  destruct (py_float E v) as [a|e|u] eqn:Ha;
    [| right; split; [intros ((v' & a' & [= <-] & H) & _); congruence
                     | eexists; reflexivity]
     | now apply py_float_defined in Ha ].
  destruct (Dict.get "Account" body) as [s|];
    [|right; split; [intros (_ & H & _); congruence | eexists; reflexivity]].
  destruct (Dict.get "Destination" body) as [r|];
    [|right; split; [intros (_ & _ & H & _); congruence | eexists; reflexivity]].
  destruct (Dict.get "hash" body) as [h|];
    [|right; split; [intros (_ & _ & _ & H & _); congruence | eexists; reflexivity]].
  destruct (Dict.get "ledger_index" body) as [li|];
    [|right; split; [intros (_ & _ & _ & _ & H); congruence | eexists; reflexivity]].
  cbn [py_get]. unfold Dict.get_default.
  left. split.
  - splits; try congruence. eauto.
  - eexists (mk_row h d li s r a _). cbn [col_tx_hash col_day col_ledger_index
      col_sender col_receiver col_amount col_timestamp].
    splits; try reflexivity. eauto.
Qed.

(** How an insert goes. *)
Lemma insert_transfer_run E tx d w :
  let '(r, w') := insert_transfer E tx d w in
  (insertable E tx /\ r = Ok tt /\
   exists row new,
     row_of E tx d row /\
     effects w' = (new ++ EvExecute row :: effects w)%list /\
     (new = [] \/ new = [EvPrint (MsgDbInsertFailed (col_tx_hash row))]) /\
     db_committed w' = db_committed w) \/
  (~ insertable E tx /\ (exists e, r = Raise e) /\ w' = w).
Proof.
  destruct (insert_transfer_cases E tx d w)
    as [(Hin & row & Hrow & Heq) | (Hout & e & Heq)]; rewrite Heq.
  - pose proof (execute_insert_spec E row w) as Hex.
    destruct (execute_insert E row w) as [r w'] eqn:Hrun.
    destruct Hex as (-> & _). left. split; [exact Hin|]. split; [reflexivity|].
    exists row.
    revert Hrun. unfold execute_insert, bind, emit, read, modify, ret. cbn.
    destruct (db_rejects E row); cbn.
    { intros [= <-]. eexists [EvPrint _]. splits; [exact Hrow | reflexivity | | reflexivity].
      right. reflexivity. }
    destruct (col_tx_hash row) eqn:Hh; cbn;
      try (intros [= <-]; eexists [EvPrint _];
           splits; [exact Hrow | reflexivity | right; reflexivity | reflexivity]).
    destruct (existsb _ _); cbn; intros [= <-]; exists [];
      (splits; [exact Hrow | reflexivity | left; reflexivity | reflexivity]).
  - right. splits; eauto.
Qed.

(** X9.  An insert is all or nothing on its inputs.  [insert_transfer]
    returns normally exactly when the record carries a readable amount and
    the members Account, Destination, hash and ledger_index.  When it raises,
    nothing has happened: no statement was executed and nothing was printed.
    When it returns, exactly one INSERT was executed, with the record's
    members as its parameters and the empty string for a missing date, a
    failure of the statement was printed and swallowed, and nothing was
    committed. *)
Theorem insert_transfer_outcome E tx d w r w' :
  insert_transfer E tx d w = (r, w') ->
  (is_ok r <-> insertable E tx) /\
  (~ is_ok r -> (exists e, r = Raise e) /\ w' = w) /\
  (is_ok r ->
   exists row new,
     row_of E tx d row /\
     effects w' = (new ++ EvExecute row :: effects w)%list /\
     (new = [] \/ new = [EvPrint (MsgDbInsertFailed (col_tx_hash row))]) /\
     db_committed w' = db_committed w).
Proof.
  intros Hrun. pose proof (insert_transfer_run E tx d w) as H. rewrite Hrun in H.
  destruct H as [(Hin & -> & Hrow) | (Hout & (e & ->) & ->)].
  - splits; [split; [intros _; exact Hin | intros _; exact I]
            | intros H; now destruct H | intros _; exact Hrow].
  - splits.
    + split; [intros [] | intros H; now apply Hout in H].
    + intros _. eauto.
    + intros [].
Qed.

Lemma insert_transfer_outcome_witness :
  insert_transfer quiet_env (payment "T1" "A" "B" "10" 87570566) 3 (initial_world None [])
  = (Ok tt,
     set_effects
       [EvExecute (mk_row (PyStr "T1") 3 (PyInt 87570566) (PyStr "A") (PyStr "B")
                          10%float (PyStr ""))]
       (set_db [] [mk_row (PyStr "T1") 3 (PyInt 87570566) (PyStr "A") (PyStr "B")
                          10%float (PyStr "")]
               (initial_world None []))) /\
  insertable quiet_env (payment "T1" "A" "B" "10" 87570566).
Proof.
  assert (H : insert_transfer quiet_env (payment "T1" "A" "B" "10" 87570566) 3
                (initial_world None [])
              = (Ok tt,
                 set_effects
                   [EvExecute (mk_row (PyStr "T1") 3 (PyInt 87570566) (PyStr "A")
                                      (PyStr "B") 10%float (PyStr ""))]
                   (set_db [] [mk_row (PyStr "T1") 3 (PyInt 87570566) (PyStr "A")
                                      (PyStr "B") 10%float (PyStr "")]
                           (initial_world None []))))
    by (vm_compute; reflexivity).
  split; [exact H|].
  apply (proj1 (insert_transfer_outcome _ _ _ _ _ _ H)). exact I.
Defined.

(* ===================================================================== *)
(** * Relational sink: the table only grows, keys stay unique *)
(* ===================================================================== *)

Lemma table_keeps_emit rows0 ev : preserves (table_keeps rows0) (emit ev).
Proof. intros w H. exact H. Qed.

Lemma table_keeps_modify rows0 (f : world -> world) :
  (forall w, table (f w) = table w) -> preserves (table_keeps rows0) (modify f).
Proof.
  intros Hf w ((Hnd & Hstr) & more & Hm). unfold modify, table_keeps, table_wf. cbn [snd].
  rewrite Hf. eauto.
Qed.

Lemma table_keeps_commit rows0 : preserves (table_keeps rows0) commit.
Proof.
  intros w H. unfold commit, bind, modify, emit. cbn [snd].
  unfold table_keeps, table_wf, table in *. cbn. now rewrite List.app_nil_r.
Qed.

Lemma has_hash_absent h rows :
  existsb (has_hash h) rows = false -> ~ In (PyStr h) (List.map col_tx_hash rows).
Proof.
  intros Hex Hin. apply in_map_iff in Hin. destruct Hin as (row & Hrow & Hin).
  assert (existsb (has_hash h) rows = true); [|congruence].
  apply List.existsb_exists. exists row. split; [exact Hin|].
  unfold has_hash. rewrite Hrow. cbn. apply String.eqb_refl.
Qed.

Lemma table_keeps_execute_insert E rows0 row :
  preserves (table_keeps rows0) (execute_insert E row).
Proof.
  intros w H. unfold execute_insert, bind, emit, read, modify, ret. cbn.
  destruct (db_rejects E row); cbn; [exact H|].
  destruct (col_tx_hash row) as [| | | |h| |] eqn:Hh; cbn; try exact H.
  destruct (existsb (has_hash h) (db_committed w ++ db_pending w)) eqn:Hex; cbn;
    [exact H|].
  destruct H as ((Hnd & Hstr) & more & Hm). unfold table_keeps, table_wf, table in *.
  cbn. rewrite List.app_assoc. splits.
  - rewrite List.map_app. cbn. rewrite Hh. apply NoDup_app. splits; auto.
    + intros x Hx Hk. apply list_elem_of_In in Hx. apply list_elem_of_In in Hk.
      destruct Hk as [<-|[]]. now apply (has_hash_absent _ _ Hex).
    + apply NoDup_singleton.
  - intros row' Hin. apply in_app_or in Hin. destruct Hin as [Hin|[<-|[]]]; eauto.
  - exists (more ++ [row])%list. rewrite Hm. now rewrite List.app_assoc.
Qed.

Ltac table_leaf :=
  idtac;
  match goal with
  | |- preserves _ (execute_insert _ _) => apply table_keeps_execute_insert
  | |- preserves _ commit => apply table_keeps_commit
  | |- preserves _ (emit _) => apply table_keeps_emit
  | |- preserves _ (modify _) => apply table_keeps_modify; intros ?; reflexivity
  end.

Lemma table_keeps_fetch_pages E rows0 fuel a lo hi :
  forall acc mk, preserves (table_keeps rows0) (fetch_pages E fuel a lo hi acc mk).
Proof.
  induction fuel as [|fuel IH]; intros acc mk; cbn [fetch_pages].
  - apply preserves_lift.
  - unfold safe_post. preserves_with table_leaf. apply IH.
Qed.

Lemma table_keeps_main E rows0 fuel : preserves (table_keeps rows0) (main E fuel).
Proof.
  unfold main, connect_db, create_table_if_not_exists, load_checkpoint,
    run_days, process_day, save_checkpoint, save_transfer_count,
    save_balances_to_csv, process_address, fetch_account_transactions,
    process_tx, insert_transfer.
  preserves_with ltac:(idtac; first [apply table_keeps_fetch_pages | table_leaf]).
Qed.

(** How a run that returned normally went. *)
Lemma main_ok_inv E fuel w r w' :
  main E fuel w = (r, w') ->
  is_ok r ->
  db_connects E = true /\
  exists s c w1,
    checkpoint_day w = Ok s /\
    run_days E fuel s number_of_days ([], ∅) (started w) = (Ok c, w1) /\
    w' = finished w1.
Proof.
  intros Hrun Hok.
  destruct (db_connects E) eqn:Hc.
  2: { rewrite (main_no_connection E fuel w Hc) in Hrun. injection Hrun as <- _.
       destruct Hok. }
  split; [reflexivity|].
  destruct (checkpoint_day w) as [s|e|u] eqn:Hs.
  - exists s. rewrite (main_eq E fuel w s Hc Hs) in Hrun.
    destruct (run_days E fuel s number_of_days ([], ∅) (started w)) as [[c|e|u] w1];
      injection Hrun as <- <-; try destruct Hok.
    exists c, w1. auto.
  - destruct (main_bad_checkpoint E fuel w Hc) as (r' & Hr' & Heq);
      [rewrite Hs; now cbn|].
    rewrite Heq in Hrun. injection Hrun as <- _. now destruct Hr'.
  - destruct (main_bad_checkpoint E fuel w Hc) as (r' & Hr' & Heq);
      [rewrite Hs; now cbn|].
    rewrite Heq in Hrun. injection Hrun as <- _. now destruct Hr'.
Qed.

(** X10.  The transfer table only grows.  If, when [main] starts, every key
    of the table is a string and no two rows share a key, then however the
    run ends the same holds, and the rows that were there are still there,
    unchanged and in place, followed by the rows the run added; after a run
    that returned normally no row is left uncommitted. *)
Theorem sink_only_grows E fuel w r w' :
  table_wf w ->
  main E fuel w = (r, w') ->
  table_wf w' /\
  (exists more, table w' = (table w ++ more)%list) /\
  (is_ok r -> db_pending w' = [] /\ db_committed w' = table w').
Proof.
  intros Hwf Hrun.
  assert (Hk : table_keeps (table w) (snd (main E fuel w))).
  { apply table_keeps_main. split; [exact Hwf|]. exists []. now rewrite List.app_nil_r. }
  rewrite Hrun in Hk. cbn [snd] in Hk. destruct Hk as [Hwf' Hmore].
  splits; auto.
  intros Hok. destruct (main_ok_inv E fuel w r w' Hrun Hok) as (_ & s & c & w1 & _ & _ & ->).
  unfold finished, table. cbn. now rewrite List.app_nil_r.
Qed.

Lemma sink_only_grows_witness :
  table_wf (initial_world None [earlier_row]) /\
  table_wf (snd (main seed_env 2 (initial_world None [earlier_row]))) /\
  exists more,
    table (snd (main seed_env 2 (initial_world None [earlier_row])))
    = (table (initial_world None [earlier_row]) ++ more)%list.
Proof.
  assert (Hwf : table_wf (initial_world None [earlier_row])).
  { split.
    - cbn. apply NoDup_singleton.
    - intros row [<-|[]]. eexists. reflexivity. }
  split; [exact Hwf|].
  pose proof (sink_only_grows seed_env 2 (initial_world None [earlier_row])
                (fst (main seed_env 2 (initial_world None [earlier_row])))
                (snd (main seed_env 2 (initial_world None [earlier_row])))
                Hwf (surjective_pairing _)) as H.
  revert H. generalize (main seed_env 2 (initial_world None [earlier_row])).
  intros out (H1 & H2 & _). split; [exact H1 | exact H2].
Defined.

(* ===================================================================== *)
(** * Checkpoint: what the file may hold *)
(* ===================================================================== *)

Lemma lstrip_all_space pre s : all_space pre = true -> lstrip (pre ++ s) = lstrip s.
Proof.
  induction pre as [|c pre IH]; [reflexivity|].
  change (String c pre ++ s) with (String c (pre ++ s)). cbn [all_space lstrip].
  intros H. apply andb_true_iff in H. destruct H as [Hc Hp]. rewrite Hc. auto.
Qed.

Lemma lstrip_all_space_nil post : all_space post = true -> lstrip post = EmptyString.
Proof.
  induction post as [|c post IH]; cbn [all_space lstrip]; [reflexivity|].
  intros H. apply andb_true_iff in H. destruct H as [Hc Hp]. rewrite Hc. auto.
Qed.

Lemma rstrip_all_space post : all_space post = true -> rstrip post = EmptyString.
Proof.
  induction post as [|c post IH]; cbn [all_space rstrip]; [reflexivity|].
  intros H. apply andb_true_iff in H. destruct H as [Hc Hp].
  now rewrite (IH Hp), Hc.
Qed.

Lemma rstrip_app_space s post : all_space post = true -> rstrip (s ++ post) = rstrip s.
Proof.
  intros Hp. induction s as [|c s IH].
  - now apply rstrip_all_space.
  - change (String c s ++ post) with (String c (s ++ post)). cbn [rstrip].
    now rewrite IH.
Qed.

(** Stripping a string that has whitespace at its two ends only. *)
Lemma py_strip_padded pre body post :
  all_space pre = true -> all_space post = true -> no_space body = true ->
  py_strip (pre ++ body ++ post) = body.
Proof.
  intros Hpre Hpost Hbody. unfold py_strip. rewrite (lstrip_all_space _ _ Hpre).
  destruct body as [|c body].
  - change ("" ++ post) with post. now rewrite (lstrip_all_space_nil _ Hpost).
  - change (String c body ++ post) with (String c (body ++ post)).
    cbn [lstrip]. pose proof Hbody as Hbody'. cbn [no_space] in Hbody.
    apply andb_true_iff in Hbody. destruct Hbody as [Hc Hb].
    apply negb_true_iff in Hc. rewrite Hc.
    change (String c (body ++ post)) with (String c body ++ post).
    rewrite (rstrip_app_space _ _ Hpost). now apply rstrip_no_space.
Qed.

Lemma py_str_no_space n : no_space (py_str n) = true.
Proof.
  unfold py_str, Z.to_int. destruct n as [|p|p].
  - reflexivity.
  - pose proof (DecimalPos.Unsigned.to_uint_nonnil p) as Hn.
    assert (Hs : NilZero.string_of_int (Decimal.Pos (Pos.to_uint p))
                 = NilEmpty.string_of_uint (Pos.to_uint p)).
    { cbn. destruct (Pos.to_uint p); [congruence | reflexivity..]. }
    rewrite Hs. apply all_digits_no_space, string_of_uint_digits.
  - pose proof (DecimalPos.Unsigned.to_uint_nonnil p) as Hn.
    assert (Hs : NilZero.string_of_int (Decimal.Neg (Pos.to_uint p))
                 = String "-" (NilEmpty.string_of_uint (Pos.to_uint p))).
    { cbn. destruct (Pos.to_uint p); [congruence | reflexivity..]. }
    rewrite Hs. cbn [no_space].
    rewrite (all_digits_no_space _ (string_of_uint_digits _)). reflexivity.
Qed.

(** X11.  Whitespace around the checkpoint.  A checkpoint file that holds
    the decimal form of a day number with any whitespace before and after it
    (a trailing newline, for instance) is read back as that day number, and
    the run starts from that day. *)
Theorem checkpoint_ignores_whitespace w pre post n :
  all_space pre = true -> all_space post = true ->
  checkpoint_file w = Some (pre ++ py_str n ++ post) ->
  load_checkpoint w = (Ok n, w) /\
  forall E fuel,
    db_connects E = true -> days_started (effects w) = [] ->
    head (days_started (effects (snd (main E fuel w)))) = Some n.
Proof.
  intros Hpre Hpost Hf.
  assert (Hday : checkpoint_day w = Ok n).
  { unfold checkpoint_day. rewrite Hf.
    rewrite (py_strip_padded _ _ _ Hpre Hpost (py_str_no_space n)).
    rewrite <- (py_strip_no_space _ (py_str_no_space n)). apply py_int_py_str. }
  split.
  - now rewrite load_checkpoint_eq, Hday.
  - intros E fuel Hc Hnone. now apply main_first_day.
Qed.

Lemma checkpoint_ignores_whitespace_witness :
  all_space " " = true /\
  all_space (String "010" EmptyString) = true /\
  load_checkpoint (initial_world (Some (" " ++ py_str 12 ++ String "010" EmptyString)) [])
  = (Ok 12, initial_world (Some (" " ++ py_str 12 ++ String "010" EmptyString)) []).
Proof.
  split; [reflexivity|]. split; [reflexivity|].
  apply (checkpoint_ignores_whitespace
           (initial_world (Some (" " ++ py_str 12 ++ String "010" EmptyString)) [])
           " " (String "010" EmptyString) 12); reflexivity.
Defined.

Lemma lstrip_shape s :
  lstrip s = EmptyString \/ exists c t, lstrip s = String c t /\ is_space c = false.
Proof.
  induction s as [|c s IH]; cbn [lstrip]; [now left|].
  destruct (is_space c) eqn:Hc; [exact IH|]. right. eauto.
Qed.

Lemma rstrip_idem s : rstrip (rstrip s) = rstrip s.
Proof.
  induction s as [|c s IH]; cbn [rstrip]; [reflexivity|].
  destruct (rstrip s) as [|c' r] eqn:Hr.
  - destruct (is_space c) eqn:Hc; cbn [rstrip]; [reflexivity|]. now rewrite Hc.
  - remember (String c' r) as t. cbn [rstrip]. rewrite IH. now subst t.
Qed.

Lemma rstrip_head c t :
  is_space c = false -> exists r, rstrip (String c t) = String c r.
Proof.
  intros Hc. cbn [rstrip]. destruct (rstrip t); [rewrite Hc|]; eauto.
Qed.

Lemma py_strip_idem s : py_strip (py_strip s) = py_strip s.
Proof.
  unfold py_strip. destruct (lstrip_shape s) as [-> | (c & t & -> & Hc)].
  - reflexivity.
  - destruct (rstrip_head c t Hc) as [r Hr]. rewrite Hr.
    cbn [lstrip]. rewrite Hc, <- Hr. apply rstrip_idem.
Qed.

(** X12.  Start-up failures.  When the database refuses the connection,
    [main] raises before doing anything else.  When the checkpoint file
    exists but its content, stripped of surrounding whitespace, is not an
    integer literal (an empty file, for instance), [main] raises
    [ValueError] after it has connected, created the table and committed,
    and before it opens any report file, posts any request or touches the
    checkpoint. *)
Theorem startup_failures E fuel w :
  (db_connects E = false ->
   main E fuel w = (Raise OperationalError, set_effects (EvConnect :: effects w) w)) /\
  (forall content,
     db_connects E = true ->
     checkpoint_file w = Some content ->
     signed_of_string (py_strip content) = None ->
     exists w',
       main E fuel w = (Raise ValueError, w') /\
       effects w' = ([EvCommit; EvCreateTable; EvConnect] ++ effects w)%list /\
       checkpoint_file w' = checkpoint_file w /\
       posts w' = posts w /\
       watchlist w' = watchlist w).
Proof.
  split; [apply main_no_connection|].
  intros content Hc Hf Hbad.
  assert (Hday : checkpoint_day w = Raise ValueError).
  { unfold checkpoint_day, py_int. now rewrite Hf, py_strip_idem, Hbad. }
  unfold main, connect_db, create_table_if_not_exists, commit.
  rewrite Hc. generalize (run_days E fuel). intros loop.
  unfold bind, emit, ret, modify. rewrite load_checkpoint_eq.
  unfold checkpoint_day in *. cbn [checkpoint_file set_effects set_db].
  rewrite Hday. eexists. splits; reflexivity.
Qed.

Lemma startup_failures_witness :
  db_connects quiet_env = true /\
  signed_of_string (py_strip "") = None /\
  fst (main quiet_env 1 (initial_world (Some "") [])) = Raise ValueError.
Proof.
  split; [reflexivity|]. split; [reflexivity|].
  destruct (proj2 (startup_failures quiet_env 1 (initial_world (Some "") []))
              "" eq_refl eq_refl eq_refl) as (w' & Heq & _).
  now rewrite Heq.
Defined.

(* ===================================================================== *)
(** * The day loop: how far it got *)
(* ===================================================================== *)

Lemma trace_app {A} (f : event -> option A) t1 t2 :
  omap f (rev (t1 ++ t2)) = (omap f (rev t2) ++ omap f (rev t1))%list.
Proof. now rewrite rev_app_distr, omap_app. Qed.

Lemma trace_none {A} (f : event -> option A) t :
  Forall (fun ev => f ev = None) t -> omap f (rev t) = [].
Proof.
  induction 1 as [|ev t Hev _ IH]; [reflexivity|].
  cbn [rev]. rewrite omap_app, IH. cbn. now rewrite Hev.
Qed.

Lemma trace_body {A} (f : event -> option A) t :
  (forall ev, is_body_event ev = true -> f ev = None) ->
  Forall (fun ev => is_body_event ev = true) t -> omap f (rev t) = [].
Proof.
  intros Hf Ht. apply trace_none. eapply List.Forall_impl; [|exact Ht]. exact Hf.
Qed.

Lemma balance_rows_trace {A} (f : event -> option A) d balances :
  (forall row, f (EvCsvRow BALANCES_CSV row) = None) ->
  omap f (rev (rev (balance_rows d balances))) = [].
Proof.
  intros Hf. apply trace_none. apply List.Forall_forall. intros ev Hin.
  apply in_rev in Hin. unfold balance_rows in Hin. apply in_map_iff in Hin.
  destruct Hin as ([a b] & <- & _). apply Hf.
Qed.

(** What a reader of the effects sees of the end of a day. *)
Lemma day_tail_trace {A} (f : event -> option A) d st :
  (forall row, f (EvCsvRow BALANCES_CSV row) = None) ->
  (forall m, f (EvSleep m) = None) ->
  f (EvPrint MsgShortBreak) = None ->
  (forall n, f (EvPrint (MsgCompletedDays n)) = None) ->
  omap f (rev (day_tail_events d st)) =
  omap f [EvCsvRow TRANSFERS_CSV [PyInt d; PyInt (st_pft_transfer_count st)];
          EvCsvRow DAILY_ACTIVE_CSV
            [PyInt d; PyInt (Z.of_nat (size (st_active_addresses st)))];
          EvCsvRow CIRCULATING_SUPPLY_CSV [PyInt d; circulating_supply (st_balances st)];
          EvCheckpoint (d + 1)].
Proof.
  intros Hb Hs Hk Hc. unfold day_tail_events.
  rewrite !trace_app, (balance_rows_trace f d _ Hb).
  assert (H1 : omap f (rev (if (d + 1) mod 25 =? 0
                            then [EvSleep 300000; EvPrint MsgShortBreak] else [])) = []).
  { destruct ((d + 1) mod 25 =? 0); cbn; [now rewrite Hk, Hs | reflexivity]. }
  assert (H2 : omap f (rev (if (d + 1) mod 10 =? 0
                            then [EvPrint (MsgCompletedDays (d + 1))] else [])) = []).
  { destruct ((d + 1) mod 10 =? 0); cbn; [now rewrite Hc | reflexivity]. }
  rewrite H1, H2. cbn [rev app]. now rewrite !List.app_nil_r.
Qed.

Lemma body_keeps_emit t0 c0 ev :
  is_body_event ev = true -> preserves (body_keeps t0 c0) (emit ev).
Proof.
  intros Hev w (Hc & new & He & Hf). split; [exact Hc|].
  exists (ev :: new). cbn. rewrite He. split; [reflexivity | now constructor].
Qed.

Lemma body_keeps_modify t0 c0 (f : world -> world) :
  (forall w, checkpoint_file (f w) = checkpoint_file w /\ effects (f w) = effects w) ->
  preserves (body_keeps t0 c0) (modify f).
Proof.
  intros Hf w (Hc & new & He & Hfa). destruct (Hf w) as [H1 H2].
  unfold modify, body_keeps. cbn [snd]. rewrite H1, H2. eauto.
Qed.

Ltac body_leaf :=
  idtac;
  match goal with
  | |- preserves _ (emit _) => apply body_keeps_emit; reflexivity
  | |- preserves _ (modify _) => apply body_keeps_modify; intros ?; split; reflexivity
  end.

Lemma body_keeps_fetch_pages E t0 c0 fuel a lo hi :
  forall acc mk, preserves (body_keeps t0 c0) (fetch_pages E fuel a lo hi acc mk).
Proof.
  induction fuel as [|fuel IH]; intros acc mk; cbn [fetch_pages].
  - apply preserves_lift.
  - unfold safe_post. preserves_with body_leaf. apply IH.
Qed.

Lemma body_keeps_addresses E t0 c0 fuel d lo hi l st :
  preserves (body_keeps t0 c0) (for_each (process_address E fuel d lo hi) l st).
Proof.
  unfold process_address, fetch_account_transactions, process_tx, insert_transfer,
    execute_insert.
  preserves_with ltac:(idtac; first [apply body_keeps_fetch_pages | body_leaf]).
Qed.

(** A day, as a reader of the effects sees it. *)
Lemma process_day_trace E fuel d c w :
  let '(r, w') := process_day E fuel d c w in
  exists body,
    Forall (fun ev => is_body_event ev = true) body /\
    match r with
    | Ok c' =>
        exists st,
          c' = (st_balances st, ∅) /\
          effects w' = (day_tail_events d st ++ body ++ day_banner d :: effects w)%list /\
          checkpoint_file w' = Some (py_str (d + 1))
    | _ =>
        effects w' = (body ++ day_banner d :: effects w)%list /\
        checkpoint_file w' = checkpoint_file w
    end.
Proof.
  destruct c as [balances staged_in]. rewrite process_day_eq.
  fold (day_banner d).
  set (w0 := set_effects (day_banner d :: effects w) w).
  pose proof (body_keeps_addresses E (day_banner d :: effects w) (checkpoint_file w)
                fuel d (fst (get_ledger_range_for_day d))
                (snd (get_ledger_range_for_day d)) (set_order E (watchlist w))
                (mk_scan balances ∅ 0 staged_in) w0) as Hk.
  destruct (for_each _ _ _ w0) as [[st|e|u] w1]; cbn [snd] in Hk;
    destruct Hk as (Hc & body & He & Hf);
    try (split; [reflexivity|]; exists []; split; [reflexivity | constructor]);
    exists body; (split; [exact Hf|]).
  - exists st. cbn. rewrite He. auto.
  - auto.
  - auto.
Qed.

Lemma seqZ_snoc s (k : nat) : seqZ s (Z.of_nat (S k)) = (seqZ s (Z.of_nat k) ++ [s + Z.of_nat k])%list.
Proof.
  rewrite Nat2Z.inj_succ, <- Z.add_1_r, seqZ_app by lia. reflexivity.
Qed.

Lemma body_not_started ev : is_body_event ev = true -> started_day ev = None.
Proof. destruct ev as [| | | | | | | |m| | |]; cbn; try easy. now destruct m. Qed.

Lemma body_not_checkpoint ev : is_body_event ev = true -> checkpoint_written ev = None.
Proof. destruct ev as [| | | | | | | |m| | |]; cbn; try easy. Qed.

Lemma body_not_row f ev : is_body_event ev = true -> csv_row_of f ev = None.
Proof. destruct ev as [| | | | | | | |m| | |], f; cbn; try easy. Qed.

Lemma run_days_trace E fuel s k c w :
  let '(r, w') := run_days E fuel s (Z.of_nat k) c w in run_trace s k w r w'.
Proof.
  induction k as [|k IH].
  - change (Z.of_nat 0) with 0. rewrite run_days_0. exists [].
    split; [reflexivity|]. splits; reflexivity.
  - rewrite run_days_S.
    destruct (run_days E fuel s (Z.of_nat k) c w) as [[c1|e|u] w1].
    2, 3: destruct IH as (new & He & m & Hm & Hd & Hc & Hf);
          exists new; split; [exact He|]; exists m; splits; auto; lia.
    destruct IH as (new & He & Hd & Hc & Hcsv & Hf).
    pose proof (process_day_trace E fuel (s + Z.of_nat k) c1 w1) as Hday.
    destruct (process_day E fuel (s + Z.of_nat k) c1 w1) as [r w2].
    destruct Hday as (body & Hbody & Hday).
    set (mid := (body ++ [day_banner (s + Z.of_nat k)])%list).
    assert (Hsd : days_started mid = [s + Z.of_nat k]).
    { unfold days_started, mid. rewrite trace_app. cbn.
      now rewrite (trace_body _ _ body_not_started Hbody). }
    assert (Hcd : checkpoints mid = []).
    { unfold checkpoints, mid. rewrite trace_app. cbn.
      now rewrite (trace_body _ _ body_not_checkpoint Hbody). }
    assert (Hrd : forall f, csv_rows f mid = []).
    { intros f. unfold csv_rows, mid. rewrite trace_app. cbn.
      rewrite (trace_body _ _ (body_not_row f) Hbody). now destruct f. }
    assert (Hmid : forall t, (body ++ day_banner (s + Z.of_nat k) :: t)%list
                             = (mid ++ t)%list).
    { intros t. unfold mid. now rewrite <- List.app_assoc. }
    rewrite !Hmid in Hday. clearbody mid.
    destruct r as [c2|e|u].
    + destruct Hday as (st & -> & He2 & Hf2).
      exists (day_tail_events (s + Z.of_nat k) st ++ mid ++ new)%list.
      split; [rewrite He2, He; now rewrite <- !List.app_assoc|].
      splits.
      * rewrite !days_started_app, Hd, Hsd. unfold days_started.
        rewrite day_tail_trace by (try reflexivity; intros; reflexivity).
        cbn. now rewrite List.app_nil_r, seqZ_snoc.
      * unfold checkpoints in *. rewrite !trace_app, Hc, Hcd.
        rewrite day_tail_trace by (try reflexivity; intros; reflexivity).
        cbn. rewrite seqZ_snoc, List.map_app, List.app_nil_r. cbn. do 2 f_equal; lia.
      * intros f Hdaily. specialize (Hcsv f Hdaily). specialize (Hrd f).
        unfold csv_days, csv_rows in *.
        rewrite !trace_app, !List.map_app, Hcsv, Hrd.
        rewrite seqZ_snoc, List.map_app.
        destruct f; try discriminate Hdaily;
          (rewrite day_tail_trace by (try reflexivity; intros; reflexivity));
          cbn; now rewrite List.app_nil_r.
      * rewrite Hf2. do 2 f_equal. lia.
    + destruct Hday as (He2 & Hf2).
      exists (mid ++ new)%list.
      split; [rewrite He2, He; now rewrite <- !List.app_assoc|].
      exists k. splits; [lia | | |].
      * now rewrite days_started_app, Hd, Hsd, seqZ_snoc.
      * unfold checkpoints in *. now rewrite trace_app, Hc, Hcd, List.app_nil_r.
      * rewrite Hf2. exact Hf.
    + destruct Hday as (He2 & Hf2).
      exists (mid ++ new)%list.
      split; [rewrite He2, He; now rewrite <- !List.app_assoc|].
      exists k. splits; [lia | | |].
      * now rewrite days_started_app, Hd, Hsd, seqZ_snoc.
      * unfold checkpoints in *. now rewrite trace_app, Hc, Hcd, List.app_nil_r.
      * rewrite Hf2. exact Hf.
Qed.

Lemma run_days_trace_Z E fuel s c w :
  let '(r, w') := run_days E fuel s number_of_days c w in
  run_trace s (Z.to_nat number_of_days) w r w'.
Proof. exact (run_days_trace E fuel s 368 c w). Qed.

(** X13.  A run that returns normally has processed the 368 days from the
    checkpointed day, each once and in order: between start-up and shutdown
    it started exactly these days, wrote the checkpoint [d + 1] after each
    day [d], wrote one row per day, in day order, to each of the transfer
    count, active address and supply reports, and left [s + 368] in the
    checkpoint file, which is where the next run starts. *)
Theorem completed_run_covers_days E fuel w r w' :
  main E fuel w = (r, w') ->
  is_ok r ->
  exists s scan,
    checkpoint_day w = Ok s /\
    effects w' = (shutdown_events ++ scan ++ startup_events ++ effects w)%list /\
    days_started scan = seqZ s number_of_days /\
    checkpoints scan = List.map Z.succ (seqZ s number_of_days) /\
    (forall f, is_daily f = true ->
               csv_days f scan = List.map PyInt (seqZ s number_of_days)) /\
    checkpoint_day w' = Ok (s + number_of_days).
Proof.
  intros Hrun Hok.
  destruct (main_ok_inv E fuel w r w' Hrun Hok) as (_ & s & c & w1 & Hs & Hloop & ->).
  pose proof (run_days_trace_Z E fuel s ([], ∅) (started w)) as Ht.
  rewrite Hloop in Ht. destruct Ht as (scan & He & Hd & Hc & Hcsv & Hf).
  exists s, scan. splits; auto.
  - unfold finished. cbn [effects set_effects]. rewrite He. unfold started.
    cbn [effects set_effects]. reflexivity.
  - unfold checkpoint_day, finished. cbn [checkpoint_file set_effects set_db].
    cbn [Z.to_nat number_of_days Pos.to_nat Pos.iter_op Nat.add] in Hf.
    change (Z.to_nat number_of_days) with 368%nat in Hf. cbn iota in Hf.
    rewrite Hf. change (Z.of_nat 368) with number_of_days. apply py_int_py_str.
Qed.

Lemma completed_run_covers_days_witness :
  is_ok (fst (main quiet_env 1 (initial_world (Some "5") []))) /\
  exists scan,
    days_started scan = seqZ 5 number_of_days /\
    checkpoint_day (snd (main quiet_env 1 (initial_world (Some "5") []))) = Ok 373.
Proof.
  assert (Hok : is_ok (fst (main quiet_env 1 (initial_world (Some "5") []))))
    by (vm_compute; exact I).
  assert (Hs : checkpoint_day (initial_world (Some "5") []) = Ok 5) by reflexivity.
  pose proof (completed_run_covers_days quiet_env 1 (initial_world (Some "5") [])
                (fst (main quiet_env 1 (initial_world (Some "5") [])))
                (snd (main quiet_env 1 (initial_world (Some "5") [])))
                (surjective_pairing _)) as H.
  revert Hok H. generalize (main quiet_env 1 (initial_world (Some "5") [])).
  intros out Hok H. split; [exact Hok|].
  destruct (H Hok) as (s & scan & Hs' & _ & Hd & _ & _ & Hc).
  rewrite Hs in Hs'. injection Hs' as <-.
  exists scan. split; [exact Hd | exact Hc].
Defined.

Lemma committed_is_emit rows ev : preserves (committed_is rows) (emit ev).
Proof. intros w H. exact H. Qed.

Lemma committed_is_modify rows (f : world -> world) :
  (forall w, db_committed (f w) = db_committed w) ->
  preserves (committed_is rows) (modify f).
Proof. intros Hf w H. unfold modify, committed_is in *. cbn [snd]. now rewrite Hf. Qed.

Lemma committed_is_execute_insert E rows row :
  preserves (committed_is rows) (execute_insert E row).
Proof.
  intros w H. unfold execute_insert, bind, emit, read, modify, ret. cbn.
  destruct (db_rejects E row); cbn; [exact H|].
  destruct (col_tx_hash row); cbn; try exact H.
  destruct (existsb _ _); cbn; exact H.
Qed.

Ltac committed_leaf :=
  idtac;
  match goal with
  | |- preserves _ (execute_insert _ _) => apply committed_is_execute_insert
  | |- preserves _ (emit _) => apply committed_is_emit
  | |- preserves _ (modify _) => apply committed_is_modify; intros ?; reflexivity
  end.

Lemma committed_is_fetch_pages E rows fuel a lo hi :
  forall acc mk, preserves (committed_is rows) (fetch_pages E fuel a lo hi acc mk).
Proof.
  induction fuel as [|fuel IH]; intros acc mk; cbn [fetch_pages].
  - apply preserves_lift.
  - unfold safe_post. preserves_with committed_leaf. apply IH.
Qed.

Lemma committed_is_run_days E rows fuel s n c :
  preserves (committed_is rows) (run_days E fuel s n c).
Proof.
  unfold run_days, process_day, save_checkpoint, save_transfer_count,
    save_balances_to_csv, process_address, fetch_account_transactions,
    process_tx, insert_transfer.
  preserves_with ltac:(idtac; first [apply committed_is_fetch_pages | committed_leaf]).
Qed.

(** X14.  A run that is cut short during the day loop leaves the day that
    was in progress in the checkpoint file: the days before it were started
    once each, in order, and checkpointed, the day in progress was started
    and not checkpointed, and the next run starts again from that day.
    Nothing the run inserted has been committed: the committed rows are the
    rows the table held when the run started. *)
Theorem aborted_run_resumes_day E fuel w s r w' :
  db_connects E = true ->
  checkpoint_day w = Ok s ->
  main E fuel w = (r, w') ->
  ~ is_ok r ->
  exists scan (m : nat),
    (m < 368)%nat /\
    effects w' = (scan ++ startup_events ++ effects w)%list /\
    days_started scan = seqZ s (Z.of_nat (S m)) /\
    checkpoints scan = List.map Z.succ (seqZ s (Z.of_nat m)) /\
    checkpoint_day w' = Ok (s + Z.of_nat m) /\
    db_committed w' = table w.
Proof.
  intros Hc Hs Hrun Hfail. rewrite (main_eq E fuel w s Hc Hs) in Hrun.
  pose proof (run_days_trace_Z E fuel s ([], ∅) (started w)) as Ht.
  pose proof (committed_is_run_days E (table w) fuel s number_of_days ([], ∅)
                (started w) eq_refl) as Hdb.
  destruct (run_days E fuel s number_of_days ([], ∅) (started w)) as [[c|e|u] w1];
    injection Hrun as <- <-; [now destruct Hfail| |];
    destruct Ht as (scan & He & m & Hm & Hd & Hck & Hf);
    exists scan, m; (splits; [exact Hm | exact He | exact Hd | exact Hck | | exact Hdb]);
    unfold checkpoint_day in *; rewrite Hf; destruct m as [|m];
    try (rewrite Z.add_0_r; exact Hs); apply py_int_py_str.
Qed.

Lemma aborted_run_resumes_day_witness :
  db_connects dropping_env = true /\
  checkpoint_day (initial_world None []) = Ok 0 /\
  ~ is_ok (fst (main dropping_env 1 (initial_world None []))) /\
  exists m : nat,
    (m < 368)%nat /\
    checkpoint_day (snd (main dropping_env 1 (initial_world None []))) = Ok (0 + Z.of_nat m).
Proof.
  assert (Hfail : ~ is_ok (fst (main dropping_env 1 (initial_world None []))))
    by (vm_compute; exact (fun H => H)).
  pose proof (aborted_run_resumes_day dropping_env 1 (initial_world None []) 0
                (fst (main dropping_env 1 (initial_world None [])))
                (snd (main dropping_env 1 (initial_world None [])))
                eq_refl eq_refl (surjective_pairing _)) as H.
  revert Hfail H. generalize (main dropping_env 1 (initial_world None [])).
  intros out Hfail H. split; [reflexivity|]. split; [reflexivity|].
  split; [exact Hfail|].
  destruct (H Hfail) as (scan & m & Hm & _ & _ & _ & Hc & _).
  exists m. split; [exact Hm | exact Hc].
Defined.

(* ===================================================================== *)
(** * The watchlist never shrinks *)
(* ===================================================================== *)

Lemma watches_emit wl ev : preserves (watches wl) (emit ev).
Proof. intros w H. exact H. Qed.

Lemma watches_modify wl (f : world -> world) :
  (forall w, watchlist w ⊆ watchlist (f w)) -> preserves (watches wl) (modify f).
Proof.
  intros Hf w H. unfold modify, watches in *. cbn [snd].
  intros a Ha. apply Hf. now apply H.
Qed.

Lemma watches_process_day E wl fuel d c : preserves (watches wl) (process_day E fuel d c).
Proof.
  intros w H. destruct c as [balances staged_in]. rewrite process_day_eq.
  match goal with
  | |- context [for_each ?body ?l ?st ?w0] =>
      pose proof (process_addresses_spec E fuel d l st w0) as Hl;
      destruct (for_each body l st w0) as [[st1|e|u] w1]
  end;
    destruct Hl as (n & _ & _ & (Hwl & _) & _); cbn [watchlist set_effects] in Hwl;
    unfold watches in *; cbn; rewrite Hwl.
  - intros a Ha. apply elem_of_union. left. now apply H.
  - exact H.
  - exact H.
Qed.

Ltac watches_leaf :=
  idtac;
  match goal with
  | |- preserves _ (process_day _ _ _ _) => apply watches_process_day
  | |- preserves _ (emit _) => apply watches_emit
  | |- preserves _ (modify _) => apply watches_modify; intros ? ? Ha; exact Ha
  end.

Lemma watches_main E wl fuel : preserves (watches wl) (main E fuel).
Proof.
  unfold main, connect_db, create_table_if_not_exists, commit, load_checkpoint, run_days.
  preserves_with watches_leaf.
Qed.

(** X15.  The watchlist never shrinks: whatever the node answers and
    however the run ends, every address that was watched when [main]
    started is still watched when it stops; in particular the issuer stays
    on the list of a run started from the initial state. *)
Theorem watchlist_never_shrinks E fuel :
  (forall w, watchlist w ⊆ watchlist (snd (main E fuel w))) /\
  (forall checkpoint table,
     ISSUER_ADDRESS ∈ watchlist (snd (main E fuel (initial_world checkpoint table)))).
Proof.
  split.
  - intros w. apply (watches_main E (watchlist w) fuel w). intros a Ha. exact Ha.
  - intros checkpoint table.
    apply (watches_main E {[ ISSUER_ADDRESS ]} fuel (initial_world checkpoint table)).
    + intros a Ha. exact Ha.
    + now apply elem_of_singleton.
Qed.

(* ===================================================================== *)
(** * The reports of a day follow the rows it executed *)
(* ===================================================================== *)

Lemma executed_app t1 t2 : executed (t1 ++ t2) = (executed t2 ++ executed t1)%list.
Proof. apply trace_app. Qed.

Lemma party_app rows1 rows2 a :
  party (rows1 ++ rows2) a <-> party rows1 a \/ party rows2 a.
Proof.
  unfold party. split.
  - intros (row & Hin & Hm). apply in_app_or in Hin. destruct Hin; eauto.
  - intros [(row & Hin & Hm)|(row & Hin & Hm)]; exists row; split; auto;
      apply in_or_app; auto.
Qed.

Lemma replay_app rows1 rows2 balances :
  replay (rows1 ++ rows2) balances = replay rows2 (replay rows1 balances).
Proof. apply fold_left_app. Qed.

Lemma stats_rel_refl st w : stats_rel st w (Ok st) w.
Proof.
  exists []. split; [reflexivity|]. intros st' [= <-]. cbn. splits; [reflexivity | lia |].
  intros a. split; [auto|]. intros [H|(row & [] & _)]. exact H.
Qed.

Lemma stats_rel_fail st w (r : result scan_state) new w' :
  extends new w w' -> ~ is_ok r -> stats_rel st w r w'.
Proof. intros He Hr. exists new. split; [exact He|]. intros st' ->. now destruct Hr. Qed.

Lemma stats_rel_trans st w st1 w1 r w2 :
  stats_rel st w (Ok st1) w1 -> stats_rel st1 w1 r w2 -> stats_rel st w r w2.
Proof.
  intros (n1 & He1 & Hok1) (n2 & He2 & Hok2). exists (n2 ++ n1)%list.
  split; [eapply extends_trans; eauto|].
  intros st' ->. destruct (Hok1 _ eq_refl) as (Hb1 & Hc1 & Ha1).
  destruct (Hok2 _ eq_refl) as (Hb2 & Hc2 & Ha2).
  rewrite executed_app, replay_app, length_app. splits.
  - now rewrite Hb2, Hb1.
  - rewrite Hc2, Hc1. lia.
  - intros a. rewrite party_app, Ha2, Ha1. tauto.
Qed.

Lemma process_tx_stats E d tx st w :
  let '(r, w') := process_tx E d tx st w in stats_rel st w r w'.
Proof.
  unfold process_tx.
  unfold bind at 1, lift at 1.
  destruct (is_pft_payment tx) as [[|]|e|u];
    try (apply (stats_rel_fail _ _ _ []); [reflexivity | now cbn]);
    [|apply stats_rel_refl].
  unfold bind at 1, lift at 1.
  destruct (py_getitem tx "tx") as [tx_data|e|u] eqn:Htx;
    try (apply (stats_rel_fail _ _ _ []); [reflexivity | now cbn]).
  unfold bind at 1, lift at 1.
  destruct (py_getitem tx_data "hash") as [h|e|u];
    try (apply (stats_rel_fail _ _ _ []); [reflexivity | now cbn]).
  unfold bind at 1.
  pose proof (insert_transfer_run E tx d w) as Hins.
  destruct (insert_transfer E tx d w) as [ri w1].
  destruct Hins as [(_ & -> & row & new & Hrow & He & Hnew & _) | (_ & (e & ->) & ->)];
    [|apply (stats_rel_fail _ _ _ []); [reflexivity | now cbn]].
  assert (Hext : extends (new ++ [EvExecute row]) w w1).
  { unfold extends. rewrite He. now rewrite <- List.app_assoc. }
  assert (Hfail : forall r : result scan_state, ~ is_ok r -> stats_rel st w r w1).
  { intros r Hr. now apply (stats_rel_fail _ _ _ _ _ Hext). }
  assert (Hexe : executed (new ++ [EvExecute row]) = [row]).
  { rewrite executed_app. destruct Hnew as [-> | ->]; reflexivity. }
  unfold bind at 1, lift at 1.
  destruct (update_balances E (st_balances st) tx (st_active_addresses st))
    as [[balances active]|e|u] eqn:Hup; try (apply Hfail; now cbn).
  destruct (update_balances_inv _ _ _ _ _ _ Hup) as (s & r & v & a & Hs & Hr & Hv & Ha).
  rewrite (update_balances_ok E _ tx _ s r v a Hs Hr Hv Ha) in Hup.
  injection Hup as <- <-.
  destruct Hrow as (_ & _ & _ & Hrs & Hrr & (v' & Hv' & Ha') & _).
  rewrite Hs in Hrs. injection Hrs as Hrs. rewrite Hr in Hrr. injection Hrr as Hrr.
  rewrite Hv in Hv'. injection Hv' as <-. rewrite Ha in Ha'. injection Ha' as Ha'.
  unfold bind at 1, lift at 1.
  destruct (py_getitem tx_data "Account") as [sv|e|u]; try (apply Hfail; now cbn).
  unfold bind at 1, lift at 1.
  destruct (py_getitem tx_data "Destination") as [rv|e|u]; try (apply Hfail; now cbn).
  unfold bind at 1, read at 1.
  unfold bind at 1, lift at 1.
  destruct (as_address sv) as [s'|e|u]; try (apply Hfail; now cbn).
  unfold bind at 1, lift at 1.
  destruct (as_address rv) as [r'|e|u]; try (apply Hfail; now cbn).
  unfold ret. exists (new ++ [EvExecute row])%list. split; [exact Hext|].
  intros st' [= <-]. cbn [st_balances st_pft_transfer_count st_active_addresses].
  rewrite Hexe. unfold replay, apply_row. cbn [fold_left length].
  rewrite <- Hrs, <- Hrr, <- Ha'. splits; [reflexivity | lia |].
  intros x. rewrite !elem_of_union, !elem_of_singleton. unfold party, row_mentions.
  split.
  - intros [[H|H]|H]; [now left | |]; right; exists row; subst; rewrite <- ?Hrs, <- ?Hrr;
      (split; [now left | auto]).
  - intros [H|(row' & [<-|[]] & Hm)]; [auto|].
    rewrite <- Hrs, <- Hrr in Hm. destruct Hm as [[= ->]|[= ->]]; auto.
Qed.

Lemma process_txs_stats E d txs st w :
  let '(r, w') := for_each (process_tx E d) txs st w in stats_rel st w r w'.
Proof.
  apply (for_each_rel _ (fun _ => stats_rel)).
  - apply stats_rel_refl.
  - intros. eapply stats_rel_trans; eauto.
  - intros. assumption.
  - intros. apply process_tx_stats.
Qed.

Lemma query_not_executed a lo hi ev : query_event a lo hi ev -> executed_row ev = None.
Proof. destruct ev; cbn; easy. Qed.

Lemma process_address_stats E fuel d lo hi a st w :
  let '(r, w') := process_address E fuel d lo hi a st w in stats_rel st w r w'.
Proof.
  unfold process_address, fetch_account_transactions. unfold bind at 1.
  pose proof (fetch_pages_spec E fuel a lo hi [] PyNone w) as Hf.
  destruct (fetch_pages E fuel a lo hi [] PyNone w) as [[txs|e|u] w1];
    destruct Hf as (n & He & Hq & _);
    try (apply (stats_rel_fail _ _ _ n); [exact He | now cbn]).
  assert (Hnone : executed n = []).
  { apply trace_none. eapply List.Forall_impl; [|exact Hq].
    intros ev. apply query_not_executed. }
  pose proof (process_txs_stats E d txs st w1) as Hl.
  destruct (for_each (process_tx E d) txs st w1) as [r w2].
  destruct Hl as (n2 & He2 & Hok). exists (n2 ++ n)%list.
  split; [eapply extends_trans; eauto|].
  intros st' Hst. rewrite executed_app, Hnone. cbn [app]. now apply Hok.
Qed.

Lemma process_addresses_stats E fuel d lo hi l st w :
  let '(r, w') := for_each (process_address E fuel d lo hi) l st w in
  stats_rel st w r w'.
Proof.
  apply (for_each_rel _ (fun _ => stats_rel)).
  - apply stats_rel_refl.
  - intros. eapply stats_rel_trans; eauto.
  - intros. assumption.
  - intros. apply process_address_stats.
Qed.

Lemma balance_rows_report d balances :
  omap (csv_row_of BALANCES_CSV) (balance_rows d balances) = balance_report d balances.
Proof.
  unfold balance_rows, balance_report.
  induction (List.filter _ balances) as [|[a b] l IH]; cbn; [reflexivity|].
  now rewrite IH.
Qed.

Lemma day_tail_balances d st :
  csv_rows BALANCES_CSV (day_tail_events d st) = balance_report d (st_balances st).
Proof.
  unfold csv_rows, day_tail_events. rewrite !trace_app, rev_involutive.
  rewrite balance_rows_report.
  destruct ((d + 1) mod 25 =? 0), ((d + 1) mod 10 =? 0); cbn;
    now rewrite ?List.app_nil_r.
Qed.

Lemma day_tail_executed d st : executed (day_tail_events d st) = [].
Proof.
  apply trace_none. eapply List.Forall_impl; [|apply day_tail_events_report].
  intros ev. destruct ev; cbn; easy.
Qed.

(** A completed day: its address loop, then its reports. *)
Lemma process_day_core E fuel d balances staged_in w c' w' :
  process_day E fuel d (balances, staged_in) w = (Ok c', w') ->
  exists st body,
    c' = (st_balances st, ∅) /\
    effects w' = (day_tail_events d st ++ body ++ day_banner d :: effects w)%list /\
    Forall (fun ev => is_body_event ev = true) body /\
    st_balances st = replay (executed body) balances /\
    st_pft_transfer_count st = Z.of_nat (length (executed body)) /\
    (forall a, a ∈ st_active_addresses st <-> party (executed body) a).
Proof.
  rewrite process_day_eq. fold (day_banner d).
  set (w0 := set_effects (day_banner d :: effects w) w).
  pose proof (body_keeps_addresses E (day_banner d :: effects w) (checkpoint_file w)
                fuel d (fst (get_ledger_range_for_day d))
                (snd (get_ledger_range_for_day d)) (set_order E (watchlist w))
                (mk_scan balances ∅ 0 staged_in) w0) as Hk.
  pose proof (process_addresses_stats E fuel d (fst (get_ledger_range_for_day d))
                (snd (get_ledger_range_for_day d)) (set_order E (watchlist w))
                (mk_scan balances ∅ 0 staged_in) w0) as Hst.
  destruct (for_each _ _ _ w0) as [[st|e|u] w1]; try discriminate.
  intros [= <- <-]. cbn [snd] in Hk.
  destruct Hk as (_ & body & He & Hbody);
    [split; [reflexivity|]; exists []; split; [reflexivity | constructor]|].
  destruct Hst as (new & Hext & Hok). unfold extends in Hext. cbn in Hext.
  rewrite He in Hext. apply app_inv_tail in Hext. subst new.
  destruct (Hok _ eq_refl) as (Hb & Hc & Ha).
  cbn [st_balances st_pft_transfer_count st_active_addresses] in Hb, Hc, Ha.
  exists st, body. splits; auto.
  - cbn. now rewrite He.
  - intros a. rewrite Ha. split; [intros [H|H]; [|exact H] | auto].
    now apply not_elem_of_empty in H.
Qed.

(** X16.  The reports of a completed day are functions of the rows the day
    executed, in the order it executed them (a record that is returned for
    two watched addresses is executed, and counted, twice): the balances
    carried to the next day are the balances carried in with each row's
    transfer applied; the transfer count is the number of rows; the active
    address count is the number of distinct senders and receivers of the
    rows; the supply is the sum of the positive balances; and the balance
    report lists the non-zero balances in the order of the map. *)
Theorem day_reports_follow_inserts E fuel d balances staged_in w c' w' :
  process_day E fuel d (balances, staged_in) w = (Ok c', w') ->
  exists t (active : gset string),
    effects w' = (t ++ effects w)%list /\
    c' = (replay (executed t) balances, ∅) /\
    (forall a, a ∈ active <-> party (executed t) a) /\
    csv_rows TRANSFERS_CSV t = [[PyInt d; PyInt (Z.of_nat (length (executed t)))]] /\
    csv_rows DAILY_ACTIVE_CSV t = [[PyInt d; PyInt (Z.of_nat (size active))]] /\
    csv_rows CIRCULATING_SUPPLY_CSV t
    = [[PyInt d; circulating_supply (replay (executed t) balances)]] /\
    csv_rows BALANCES_CSV t = balance_report d (replay (executed t) balances).
Proof.
  intros Hday.
  destruct (process_day_core E fuel d balances staged_in w c' w' Hday)
    as (st & body & -> & He & Hbody & Hb & Hc & Ha).
  set (t := (day_tail_events d st ++ body ++ [day_banner d])%list).
  assert (Hexe : executed t = executed body).
  { unfold t. rewrite !executed_app, day_tail_executed. cbn. now rewrite List.app_nil_r. }
  assert (Hrows : forall f, csv_rows f t = csv_rows f (day_tail_events d st)).
  { intros f. unfold t, csv_rows. rewrite !trace_app.
    rewrite (trace_body _ _ (body_not_row f) Hbody). cbn. now destruct f. }
  exists t, (st_active_addresses st). rewrite Hexe, !Hrows, <- Hb. splits.
  - rewrite He. unfold t. now rewrite <- !List.app_assoc.
  - reflexivity.
  - exact Ha.
  - unfold csv_rows. rewrite day_tail_trace by (try reflexivity; intros; reflexivity).
    cbn. rewrite Hc. reflexivity.
  - unfold csv_rows. rewrite day_tail_trace by (try reflexivity; intros; reflexivity).
    reflexivity.
  - unfold csv_rows. rewrite day_tail_trace by (try reflexivity; intros; reflexivity).
    reflexivity.
  - apply day_tail_balances.
Qed.

Lemma day_reports_follow_inserts_witness :
  exists c' w' t,
    process_day seed_env 2 0 ([], ∅) (initial_world None []) = (Ok c', w') /\
    effects w' = (t ++ effects (initial_world None []))%list /\
    c' = (replay (executed t) [], ∅) /\
    csv_rows TRANSFERS_CSV t = [[PyInt 0; PyInt (Z.of_nat (length (executed t)))]].
Proof.
  assert (Hok : is_ok (fst (process_day seed_env 2 0 ([], ∅) (initial_world None []))))
    by (vm_compute; exact I).
  pose proof (fun c' w' =>
                day_reports_follow_inserts seed_env 2 0 [] ∅ (initial_world None []) c' w')
    as H.
  revert Hok H. generalize (process_day seed_env 2 0 ([], ∅) (initial_world None [])).
  intros [[c'|e|u] w'] Hok H; try destruct Hok.
  destruct (H c' w' eq_refl) as (t & active & He & Hc & _ & Ht & _).
  exists c', w', t. splits; auto.
Defined.

Lemma last_snoc {A} (l : list A) x : last (l ++ [x]) = Some x.
Proof. induction l as [|y [|z l] IH]; cbn in *; auto. Qed.

(** The day loop, from the rows it executed. *)
Lemma run_days_stats E fuel s k balances staged_in w c' w' :
  run_days E fuel s (Z.of_nat k) (balances, staged_in) w = (Ok c', w') ->
  exists t,
    effects w' = (t ++ effects w)%list /\
    fst c' = replay (executed t) balances /\
    forall j, k = S j ->
      last (csv_rows CIRCULATING_SUPPLY_CSV t)
      = Some [PyInt (s + Z.of_nat j); circulating_supply (replay (executed t) balances)].
Proof.
  revert c' w'. induction k as [|k IH]; intros c' w'.
  - change (Z.of_nat 0) with 0. rewrite run_days_0. intros [= <- <-].
    exists []. splits; [reflexivity | reflexivity | discriminate].
  - rewrite run_days_S.
    destruct (run_days E fuel s (Z.of_nat k) (balances, staged_in) w)
      as [[[b1 st1]|e|u] w1]; try discriminate.
    destruct (IH _ _ eq_refl) as (t1 & He1 & Hb1 & _). cbn [fst] in Hb1.
    intros Hday.
    destruct (process_day_core E fuel _ _ _ _ _ _ Hday)
      as (st & body & -> & He2 & Hbody & Hb2 & _ & _).
    set (t2 := (day_tail_events (s + Z.of_nat k) st
                ++ body ++ [day_banner (s + Z.of_nat k)])%list).
    assert (Hexe : executed t2 = executed body).
    { unfold t2. rewrite !executed_app, day_tail_executed. cbn.
      now rewrite List.app_nil_r. }
    assert (Hsup : csv_rows CIRCULATING_SUPPLY_CSV t2
                   = [[PyInt (s + Z.of_nat k); circulating_supply (st_balances st)]]).
    { unfold t2, csv_rows. rewrite !trace_app.
      rewrite (trace_body _ _ (body_not_row _) Hbody).
      now rewrite day_tail_trace by (try reflexivity; intros; reflexivity). }
    exists (t2 ++ t1)%list. rewrite executed_app, replay_app, <- Hb1, Hexe, <- Hb2.
    splits.
    + rewrite He2, He1. unfold t2. now rewrite <- !List.app_assoc.
    + reflexivity.
    + intros j [= <-]. unfold csv_rows in *. rewrite trace_app, Hsup.
      apply last_snoc.
Qed.

(** X17.  Balances are carried from day to day and never reset within a
    run: after any number of completed days the balance map is the map the
    loop started with, with the transfer of every row executed since then
    applied in order, and the supply reported for the last of these days is
    the sum of the positive balances of that map. *)
Theorem balances_replay_inserts E fuel s n balances staged_in w c' w' :
  0 <= n ->
  run_days E fuel s n (balances, staged_in) w = (Ok c', w') ->
  exists t,
    effects w' = (t ++ effects w)%list /\
    fst c' = replay (executed t) balances /\
    (0 < n ->
     last (csv_rows CIRCULATING_SUPPLY_CSV t)
     = Some [PyInt (s + n - 1); circulating_supply (replay (executed t) balances)]).
Proof.
  intros Hn Hrun. rewrite <- (Z2Nat.id n Hn) in Hrun.
  destruct (run_days_stats E fuel s _ _ _ _ _ _ Hrun) as (t & He & Hb & Hlast).
  exists t. splits; auto. intros Hpos.
  destruct (Z.to_nat n) as [|j] eqn:Hj; [lia|].
  rewrite (Hlast j eq_refl). do 3 f_equal. lia.
Qed.

Lemma balances_replay_inserts_witness :
  0 <= 3 /\
  exists c' w' t,
    run_days seed_env 2 0 3 ([], ∅) (initial_world None []) = (Ok c', w') /\
    effects w' = (t ++ effects (initial_world None []))%list /\
    fst c' = replay (executed t) [].
Proof.
  split; [lia|].
  assert (Hok : is_ok (fst (run_days seed_env 2 0 3 ([], ∅) (initial_world None []))))
    by (vm_compute; exact I).
  pose proof (fun c' w' =>
                balances_replay_inserts seed_env 2 0 3 [] ∅ (initial_world None []) c' w'
                  ltac:(lia))
    as H.
  revert Hok H. generalize (run_days seed_env 2 0 3 ([], ∅) (initial_world None [])).
  intros [[c'|e|u] w'] Hok H; try destruct Hok.
  destruct (H c' w' eq_refl) as (t & He & Hb & _).
  exists c', w', t. splits; auto.
Defined.

(** X18.  A run of [main] that returns normally reports, for its last day,
    the supply of the replay, from the empty map, of every row the run
    itself executed: rows stored by earlier runs play no part. *)
Theorem final_supply_replays_run E fuel w r w' :
  main E fuel w = (r, w') ->
  is_ok r ->
  exists s scan,
    checkpoint_day w = Ok s /\
    effects w' = (shutdown_events ++ scan ++ startup_events ++ effects w)%list /\
    last (csv_rows CIRCULATING_SUPPLY_CSV scan)
    = Some [PyInt (s + 367); circulating_supply (replay (executed scan) [])].
Proof.
  intros Hrun Hok.
  destruct (main_ok_inv E fuel w r w' Hrun Hok) as (_ & s & c & w1 & Hs & Hloop & ->).
  change number_of_days with (Z.of_nat 368) in Hloop.
  destruct (run_days_stats E fuel s _ _ _ _ _ _ Hloop) as (scan & He & _ & Hlast).
  exists s, scan. splits; auto.
  - unfold finished. cbn [effects set_effects]. rewrite He. reflexivity.
  - apply (Hlast 367%nat). reflexivity.
Qed.

Lemma final_supply_replays_run_witness :
  is_ok (fst (main seed_env 2 (initial_world None [earlier_row]))) /\
  exists scan,
    effects (snd (main seed_env 2 (initial_world None [earlier_row])))
    = (shutdown_events ++ scan ++ startup_events
       ++ effects (initial_world None [earlier_row]))%list /\
    last (csv_rows CIRCULATING_SUPPLY_CSV scan)
    = Some [PyInt (0 + 367); circulating_supply (replay (executed scan) [])].
Proof.
  assert (Hok : is_ok (fst (main seed_env 2 (initial_world None [earlier_row]))))
    by (vm_compute; exact I).
  pose proof (final_supply_replays_run seed_env 2 (initial_world None [earlier_row])
                (fst (main seed_env 2 (initial_world None [earlier_row])))
                (snd (main seed_env 2 (initial_world None [earlier_row])))
                (surjective_pairing _)) as H.
  revert Hok H. generalize (main seed_env 2 (initial_world None [earlier_row])).
  intros out Hok H. split; [exact Hok|].
  destruct (H Hok) as (s & scan & Hs & He & Hlast).
  assert (s = 0) as -> by (cbv in Hs; congruence).
  exists scan. split; [exact He | exact Hlast].
Defined.

(* ===================================================================== *)
(** * The balance report *)
(* ===================================================================== *)

(** X19.  [save_balances_to_csv] appends to the balance report one row per
    entry of the map whose balance is not zero, in the order of the map,
    and nothing else: an entry at zero (or negative zero) gets no row, the
    other reports are not written to, and the call always returns. *)
Theorem balance_report_skips_zero d balances w :
  fst (save_balances_to_csv d balances w) = Ok tt /\
  csv_rows BALANCES_CSV (effects (snd (save_balances_to_csv d balances w)))
  = (csv_rows BALANCES_CSV (effects w) ++ balance_report d balances)%list /\
  (forall f, is_daily f = true ->
     csv_rows f (effects (snd (save_balances_to_csv d balances w)))
     = csv_rows f (effects w)) /\
  (forall a b,
     In [PyInt d; PyStr a; PyFloat b] (balance_report d balances)
     <-> In (a, b) balances /\ (b =? 0)%float = false).
Proof.
  rewrite save_balances_to_csv_eq. cbn [fst snd effects set_effects]. splits.
  - reflexivity.
  - unfold csv_rows. rewrite trace_app, rev_involutive. now rewrite balance_rows_report.
  - intros f Hf. unfold csv_rows. rewrite trace_app.
    rewrite balance_rows_trace; [now rewrite List.app_nil_r|].
    intros row. now destruct f.
  - intros a b. unfold balance_report. rewrite in_map_iff. split.
    + intros ([a' b'] & [= <- <-] & Hin). apply filter_In in Hin.
      destruct Hin as [Hin Hnz]. split; [exact Hin|]. now apply negb_true_iff in Hnz.
    + intros [Hin Hnz]. exists (a, b). split; [reflexivity|].
      apply filter_In. split; [exact Hin|]. now apply negb_true_iff.
Qed.

(* ===================================================================== *)
(** * One fetch per watched address and day *)
(* ===================================================================== *)

Lemma posted_app t1 t2 : posted (t1 ++ t2) = (posted t2 ++ posted t1)%list.
Proof. apply trace_app. Qed.

Lemma fetches_app t1 t2 : fetches (t1 ++ t2) = (fetches t2 ++ fetches t1)%list.
Proof. unfold fetches. now rewrite posted_app, List.filter_app, List.map_app. Qed.

Lemma posted_none t :
  Forall (fun ev => post_request ev = None) t -> posted t = [].
Proof. apply trace_none. Qed.

Lemma fetch_pages_posted E fuel a lo hi :
  forall acc mk w,
    let '(r, w') := fetch_pages E fuel a lo hi acc mk w in
    exists new,
      extends new w w' /\
      (is_ok r ->
       exists rest,
         posted new = mk_request a lo hi (if truthy mk then Some mk else None) :: rest /\
         Forall (fun rq => first_request rq = false) rest).
Proof.
  induction fuel as [|fuel IH]; intros acc mk w; cbn [fetch_pages].
  { exists []. split; [reflexivity | intros []]. }
  set (payload := mk_request a lo hi (if truthy mk then Some mk else None)).
  unfold bind at 1.
  destruct (safe_post_spec E payload w) as (n1 & He1 & Hf1 & _ & _).
  assert (Hp1 : posted (n1 ++ [EvPost payload]) = [payload]).
  { rewrite posted_app. cbn. rewrite posted_none; [reflexivity|].
    eapply List.Forall_impl; [|exact Hf1]. intros ev. destruct ev; cbn; easy. }
  remember (n1 ++ [EvPost payload])%list as p1 eqn:Hp1def. clear Hp1def Hf1 n1.
  destruct (safe_post E payload w) as [[data|e|u] w1]; cbn [snd] in He1;
    try (exists p1; split; [exact He1 | intros []]).
  assert (Hdone : forall txs : list pyval,
            exists new, extends new w w1 /\
              (is_ok (Ok txs) ->
               exists rest, posted new = payload :: rest /\
                            Forall (fun rq => first_request rq = false) rest)).
  { intros txs. exists p1. split; [exact He1|].
    intros _. exists []. split; [exact Hp1 | constructor]. }
  assert (Hfail : forall r : result (list pyval), ~ is_ok r ->
            exists new, extends new w w1 /\
              (is_ok r ->
               exists rest, posted new = payload :: rest /\
                            Forall (fun rq => first_request rq = false) rest)).
  { intros r Hr. exists p1. split; [exact He1|].
    intros H. now destruct Hr. }
  destruct (negb (truthy data)); [apply Hdone|].
  unfold bind at 1, lift at 1.
  destruct (py_get data "result" (PyDict [])) as [res|e|u]; try (apply Hfail; now cbn).
  unfold bind at 1, lift at 1.
  destruct (py_get res "transactions" (PyList [])) as [txs|e|u];
    try (apply Hfail; now cbn).
  unfold bind at 1, lift at 1.
  destruct (py_iter txs) as [items|e|u]; try (apply Hfail; now cbn).
  unfold bind at 1, lift at 1.
  destruct (py_get res "marker" PyNone) as [next|e|u]; try (apply Hfail; now cbn).
  destruct (truthy next) eqn:Hnext; cbn [negb]; [|apply Hdone].
  unfold bind at 1, emit at 1.
  specialize (IH (acc ++ items)%list next (set_effects (EvSleep 500 :: effects w1) w1)).
  destruct (fetch_pages E fuel a lo hi (acc ++ items) next _) as [r w2].
  destruct IH as (n2 & He2 & Hok2). rewrite Hnext in Hok2.
  exists (n2 ++ [EvSleep 500] ++ p1)%list. split.
  - unfold extends in *. rewrite He2. cbn [effects set_effects]. rewrite He1.
    now rewrite <- !List.app_assoc.
  - intros Hr. destruct (Hok2 Hr) as (rest & Hp2 & Hrest).
    exists (mk_request a lo hi (Some next) :: rest). split.
    + rewrite !posted_app, Hp1, Hp2. reflexivity.
    + constructor; [reflexivity | exact Hrest].
Qed.

Lemma insert_event_not_post d ev : insert_event d ev -> post_request ev = None.
Proof. destruct ev; cbn; easy. Qed.

Lemma process_address_fetches E fuel d lo hi a st w :
  let '(r, w') := process_address E fuel d lo hi a st w in fetch_rel [a] st w r w'.
Proof.
  unfold process_address, fetch_account_transactions. unfold bind at 1.
  pose proof (fetch_pages_posted E fuel a lo hi [] PyNone w) as Hf.
  destruct (fetch_pages E fuel a lo hi [] PyNone w) as [[txs|e|u] w1];
    destruct Hf as (n1 & He1 & Hok1);
    try (exists n1; split; [exact He1 | intros []]).
  destruct (Hok1 I) as (rest & Hp1 & Hrest). cbn [truthy] in Hp1.
  pose proof (process_txs_spec E d txs st w1) as Hl.
  destruct (for_each (process_tx E d) txs st w1) as [r w2].
  destruct Hl as (n2 & He2 & Hev2 & _).
  exists (n2 ++ n1)%list. split; [eapply extends_trans; eauto|].
  intros _. rewrite fetches_app. unfold fetches at 2.
  rewrite posted_none
    by (eapply List.Forall_impl; [|exact Hev2]; intros ev; apply insert_event_not_post).
  unfold fetches. rewrite Hp1. cbn [List.filter first_request marker List.map account].
  rewrite List.app_nil_r. f_equal.
  assert (Hnone : List.filter first_request rest = []).
  { clear Hp1. induction Hrest as [|rq rest Hrq _ IH]; [reflexivity|].
    cbn [List.filter]. now rewrite Hrq. }
  now rewrite Hnone.
Qed.

Lemma process_addresses_fetches E fuel d lo hi l st w :
  let '(r, w') := for_each (process_address E fuel d lo hi) l st w in
  fetch_rel l st w r w'.
Proof.
  apply (for_each_rel _ fetch_rel).
  - intros s w0. exists []. split; [reflexivity | reflexivity].
  - intros x l0 s w0 s1 w1 r w2 (n1 & He1 & Hok1) (n2 & He2 & Hok2).
    exists (n2 ++ n1)%list. split; [eapply extends_trans; eauto|].
    intros Hr. rewrite fetches_app, (Hok1 I), (Hok2 Hr). reflexivity.
  - intros x l0 s w0 r w1 Hr (n1 & He1 & _). exists n1. split; [exact He1|].
    intros H. now destruct Hr.
  - intros. apply process_address_fetches.
Qed.

(** X20.  One fetch per watched address.  A day that completes has fetched
    the transactions of every address that was on the watchlist when the
    day started, each address exactly once, in the order the set was
    iterated, and of no other address; an address added during the day is
    first fetched on a later day. *)
Theorem each_address_fetched_once E fuel d c w c' w' :
  process_day E fuel d c w = (Ok c', w') ->
  exists t,
    effects w' = (t ++ effects w)%list /\
    fetches t = set_order E (watchlist w) /\
    (env_wf E ->
     NoDup (fetches t) /\
     forall a, In a (fetches t) <-> a ∈ watchlist w).
Proof.
  destruct c as [balances staged_in]. rewrite process_day_eq. fold (day_banner d).
  set (w0 := set_effects (day_banner d :: effects w) w).
  pose proof (process_addresses_fetches E fuel d (fst (get_ledger_range_for_day d))
                (snd (get_ledger_range_for_day d)) (set_order E (watchlist w))
                (mk_scan balances ∅ 0 staged_in) w0) as Hl.
  destruct (for_each _ _ _ w0) as [[st|e|u] w1]; try discriminate.
  intros [= <- <-]. destruct Hl as (body & He & Hok). specialize (Hok I).
  unfold extends in He. cbn [effects set_effects w0] in He.
  exists (day_tail_events d st ++ body ++ [day_banner d])%list.
  assert (Hf : fetches (day_tail_events d st ++ body ++ [day_banner d])
               = set_order E (watchlist w)).
  { rewrite !fetches_app, Hok. unfold fetches at 2.
    rewrite (posted_none (day_tail_events d st)).
    - cbn. now rewrite List.app_nil_r.
    - eapply List.Forall_impl; [|apply day_tail_events_report].
      intros ev. destruct ev; cbn; easy. }
  splits.
  - cbn. rewrite He. now rewrite <- !List.app_assoc.
  - exact Hf.
  - intros Hwf. rewrite Hf. split.
    + rewrite (Hwf (watchlist w)). apply NoDup_elements.
    + intros a. rewrite <- list_elem_of_In, (Hwf (watchlist w)). apply elem_of_elements.
Qed.

Lemma each_address_fetched_once_witness :
  exists c' w' t,
    process_day seed_env 2 0 ([], ∅) (initial_world None []) = (Ok c', w') /\
    effects w' = (t ++ effects (initial_world None []))%list /\
    fetches t = set_order seed_env (watchlist (initial_world None [])).
Proof.
  assert (Hok : is_ok (fst (process_day seed_env 2 0 ([], ∅) (initial_world None []))))
    by (vm_compute; exact I).
  pose proof (fun c' w' =>
                each_address_fetched_once seed_env 2 0 ([], ∅) (initial_world None []) c' w')
    as H.
  revert Hok H. generalize (process_day seed_env 2 0 ([], ∅) (initial_world None [])).
  intros [[c'|e|u] w'] Hok H; try destruct Hok.
  destruct (H c' w' eq_refl) as (t & He & Hf & _).
  exists c', w', t. splits; auto.
Defined.
